(** * The multi-step cleaning endpoint of [app.py]

    A shallow embedding of [limpiar_dataset_multiple] (POST /api/limpiezas)
    and of the pandas operations it calls.

    Conventions of the embedding.
    - A request body and every operation parameter is a JSON value ([json]).
      Strings are byte strings: iterating one yields its bytes, which are
      its characters for ASCII text.
    - A [DataFrame] is column-major, as pandas stores it: a list of named,
      typed columns with the dtypes [read_csv] gives to numbers and text.
      [float64] cells are [option Q] ([None] is NaN), [int64] cells are
      [Z], [object] cells are [option string].  Column labels are the
      strings of the CSV header.
    - A [float64] cell holds a finite number or NaN; a frame with an
      infinite cell is not represented.  The arithmetic of the outliers
      and normalizacion operations is that of the dtypes: [float64]
      operations round to the nearest double ([round64]) and overflow to an
      infinity, [int64] subtraction wraps around ([wrap64]).  Comparisons,
      minima and maxima are exact, as they are in pandas; the mean that
      [fillna] uses is the exact mean.
    - Python exceptions are the [Raised] outcome; the handler of the
      endpoint turns every one of them into the 500 response. *)

From Stdlib Require Import String Ascii Bool Arith ZArith QArith Qround Qabs Qpower Lia Lqa.
From Stdlib Require Import Sorted Permutation List.
Import ListNotations.
Local Open Scope string_scope.
Local Open Scope list_scope.

Set Warnings "-register-all".

(** ** Outcomes of Python code that may raise *)

Inductive outcome (A : Type) : Type :=
| Ok (a : A)
| Raised.

Arguments Ok {A} a.
Arguments Raised {A}.

Definition bind {A B : Type} (m : outcome A) (k : A -> outcome B) : outcome B :=
  match m with
  | Ok a => k a
  | Raised => Raised
  end.

Notation "x <- m ;; k" := (bind m (fun x => k))
  (at level 61, m at next level, right associativity).

(** ** JSON values, as [request.get_json] returns them

    [JNum q] is an [int] or a finite [float] of value [q].  Python's
    parser also yields the floats [inf], [-inf] and [nan]: for the
    literals [Infinity], [-Infinity] and [NaN], and [inf] for a float
    literal beyond the range of [float64], such as [1e999]. *)

Inductive json : Type :=
| JNull
| JBool (b : bool)
| JNum (q : Q)
| JInf (negative : bool)
| JNaN
| JStr (s : string)
| JArr (items : list json)
| JObj (fields : list (string * json)).

(** [d.get(k)] on the fields of a dict. *)
Fixpoint dict_get (k : string) (fields : list (string * json)) : option json :=
  match fields with
  | [] => None
  | (k', v) :: rest => if String.eqb k k' then Some v else dict_get k rest
  end.

(** [x.get(k, dflt)]: only a dict has [get]; anything else raises
    AttributeError. *)
Definition py_get (x : json) (k : string) (dflt : json) : outcome json :=
  match x with
  | JObj fields =>
      match dict_get k fields with
      | Some v => Ok v
      | None => Ok dflt
      end
  | _ => Raised
  end.

(** Python truthiness, for [not x]. *)
Definition truthy (x : json) : bool :=
  match x with
  | JNull => false
  | JBool b => b
  | JNum q => negb (Qeq_bool q 0)
  | JInf _ | JNaN => true
  | JStr s => negb (String.eqb s "")
  | JArr items => match items with [] => false | _ => true end
  | JObj fields => match fields with [] => false | _ => true end
  end.

(** [for x in v]: a list yields its items, a string its characters, a dict
    its keys; iterating anything else raises TypeError. *)
Definition py_iter (v : json) : outcome (list json) :=
  match v with
  | JArr items => Ok items
  | JStr s => Ok (map (fun c => JStr (String c EmptyString)) (list_ascii_of_string s))
  | JObj fields => Ok (map (fun kv => JStr (fst kv)) fields)
  | _ => Raised
  end.

(** [x == "literal"]. *)
Definition is_str (x : json) (lit : string) : bool :=
  match x with
  | JStr s => String.eqb s lit
  | _ => false
  end.

(** ** [float64] and [int64] arithmetic

    A [float64] is a finite number, an infinity or NaN.  The sign of zero
    is not kept: no operation below divides by a zero that it could tell
    from the other, and the comparisons do not distinguish them. *)

Inductive float64 : Type :=
| Finite (q : Q)
| Infinity (negative : bool)
| NaN.

(** The integer nearest to [q], the even one of two at the same
    distance. *)
Definition round_half_even (q : Q) : Z :=
  let f := Qfloor q in
  match (q - inject_Z f ?= 1 # 2)%Q with
  | Lt => f
  | Gt => (f + 1)%Z
  | Eq => if Z.even f then f else (f + 1)%Z
  end.

(** The exponent of [q > 0]: the [e] with [2 ^ e <= q < 2 ^ (e + 1)]. *)
Definition ilog2 (q : Q) : Z :=
  let e := (Z.log2 (Qnum q) - Z.log2 (Zpos (Qden q)))%Z in
  if Qle_bool (2 ^ e) q then e else (e - 1)%Z.

(** The exponent of the last place of the double nearest to [a > 0]: 53
    significant bits, and no place finer than [2 ^ -1074]. *)
Definition last_place (a : Q) : Z := Z.max (ilog2 a - 52) (-1074).

(** The multiple of the last place nearest to [a > 0], ties to even. *)
Definition nearest (a : Q) : Q :=
  (inject_Z (round_half_even (a / 2 ^ last_place a)) * 2 ^ last_place a)%Q.

(** Rounding to the nearest double, ties to even, and to an infinity from
    [2 ^ 1024] on. *)
Definition round64 (q : Q) : float64 :=
  let q := Qred q in
  if Qeq_bool q 0 then Finite 0
  else
    let r := Qred (nearest (Qabs q)) in
    if Qle_bool (2 ^ 1024) r then Infinity (Qle_bool q 0)
    else Finite (if Qle_bool q 0 then - r else r)%Q.

Definition negative (q : Q) : bool := negb (Qle_bool 0 q).

Definition fneg (x : float64) : float64 :=
  match x with
  | Finite q => Finite (- q)
  | Infinity s => Infinity (negb s)
  | NaN => NaN
  end.

Definition fadd (x y : float64) : float64 :=
  match x, y with
  | NaN, _ | _, NaN => NaN
  | Infinity s, Infinity s' => if Bool.eqb s s' then Infinity s else NaN
  | Infinity s, Finite _ | Finite _, Infinity s => Infinity s
  | Finite a, Finite b => round64 (a + b)
  end.

Definition fsub (x y : float64) : float64 := fadd x (fneg y).

Definition fmul (x y : float64) : float64 :=
  match x, y with
  | NaN, _ | _, NaN => NaN
  | Infinity s, Infinity s' => Infinity (xorb s s')
  | Infinity s, Finite q | Finite q, Infinity s =>
      if Qeq_bool q 0 then NaN else Infinity (xorb s (negative q))
  | Finite a, Finite b => round64 (a * b)
  end.

Definition fdiv (x y : float64) : float64 :=
  match x, y with
  | NaN, _ | _, NaN => NaN
  | Infinity _, Infinity _ => NaN
  | Infinity s, Finite q => Infinity (xorb s (negative q))
  | Finite _, Infinity _ => Finite 0
  | Finite a, Finite b =>
      if Qeq_bool b 0 then
        if Qeq_bool a 0 then NaN else Infinity (negative a)
      else round64 (a / b)
  end.

(** [x <= y]: false when either is NaN. *)
Definition fle (x y : float64) : bool :=
  match x, y with
  | NaN, _ | _, NaN => false
  | Infinity s, Infinity s' => s || negb s'
  | Infinity s, Finite _ => s
  | Finite _, Infinity s => negb s
  | Finite a, Finite b => Qle_bool a b
  end.

(** The [int64] that a result [z] of integer arithmetic is stored as. *)
Definition wrap64 (z : Z) : Z := ((z + 2 ^ 63) mod 2 ^ 64 - 2 ^ 63)%Z.

(** An [int64] converted to [float64]. *)
Definition of_int (z : Z) : float64 := round64 (inject_Z z).

(** A [float64] cell as a number, and a number stored in a cell.  The
    one computation whose results are stored, [rescale], yields no
    infinity, as is proved of it below. *)
Definition of_cell (x : option Q) : float64 :=
  match x with
  | Some q => Finite q
  | None => NaN
  end.

Definition to_cell (x : float64) : option Q :=
  match x with
  | Finite q => Some q
  | _ => None
  end.

(** The multiplier of [umbral * IQR], a [float64] product: a float, a
    bool or an int, which is converted (OverflowError when it is too
    large for a float).  [None], a string or a dict raise TypeError.  A list
    is treated as an error too: NumPy broadcasting is not modelled. *)
Definition as_number (x : json) : outcome float64 :=
  match x with
  | JNum q =>
      match round64 q with
      | Infinity _ => Raised
      | u => Ok u
      end
  | JInf s => Ok (Infinity s)
  | JNaN => Ok NaN
  | JBool b => Ok (Finite (if b then 1 else 0))
  | _ => Raised
  end.

Arguments round64 : simpl never.
Arguments wrap64 : simpl never.

(** ** DataFrames *)

Inductive values : Type :=
| Floats (xs : list (option Q))
| Ints (xs : list Z)
| Objects (xs : list (option string)).

Record column : Type := Column { name : string; data : values }.

Definition DataFrame : Type := list column.

(** [dtype in ['float64', 'int64']]. *)
Definition is_numeric (v : values) : bool :=
  match v with
  | Floats _ | Ints _ => true
  | Objects _ => false
  end.

Definition vlen (v : values) : nat :=
  match v with
  | Floats xs => length xs
  | Ints xs => length xs
  | Objects xs => length xs
  end.

(** [len(df)]: the length of the index, which every column shares.  A
    frame without columns is taken to have no rows: the index of such a
    frame is not represented. *)
Definition len (df : DataFrame) : nat :=
  match df with
  | [] => 0%nat
  | c :: _ => vlen (data c)
  end.

Definition columns (df : DataFrame) : list string := map name df.

(** Every column has the length of the index. *)
Definition uniform (df : DataFrame) : Prop :=
  Forall (fun c => vlen (data c) = len df) df.

(** One cell of a row. *)
Inductive cell : Type :=
| CFloat (x : option Q)
| CInt (z : Z)
| CObject (s : option string).

Definition cells (v : values) : list cell :=
  match v with
  | Floats xs => map CFloat xs
  | Ints xs => map CInt xs
  | Objects xs => map CObject xs
  end.

Definition row : Type := list cell.

(** The first [n] rows of a list of cell columns. *)
Fixpoint rows_of (n : nat) (cols : list (list cell)) : list row :=
  match n with
  | O => []
  | S n' => map (hd (CObject None)) cols :: rows_of n' (map (@tl cell) cols)
  end.

Definition rows (df : DataFrame) : list row :=
  rows_of (len df) (map (fun c => cells (data c)) df).

(** Boolean indexing [xs[mask]]. *)
Fixpoint select {A : Type} (mask : list bool) (xs : list A) : list A :=
  match mask, xs with
  | b :: mask', x :: xs' => if b then x :: select mask' xs' else select mask' xs'
  | _, _ => []
  end.

Definition vselect (mask : list bool) (v : values) : values :=
  match v with
  | Floats xs => Floats (select mask xs)
  | Ints xs => Ints (select mask xs)
  | Objects xs => Objects (select mask xs)
  end.

(** [df[mask]] for a boolean mask over the rows. *)
Definition filter_rows (mask : list bool) (df : DataFrame) : DataFrame :=
  map (fun c => Column (name c) (vselect mask (data c))) df.

(** [df[col]] for a hashable key: a string names a column or raises
    KeyError; no other scalar is a column label of a frame read from CSV;
    a list selects a sub-frame, which has no [dtype] (KeyError or
    AttributeError), a dict is unhashable (TypeError). *)
Fixpoint find_column (s : string) (df : DataFrame) : option column :=
  match df with
  | [] => None
  | c :: rest => if String.eqb s (name c) then Some c else find_column s rest
  end.

Definition getitem (df : DataFrame) (key : json) : outcome column :=
  match key with
  | JStr s =>
      match find_column s df with
      | Some c => Ok c
      | None => Raised
      end
  | _ => Raised
  end.

(** ** pandas operations on one column *)

(** The float view of a numeric column; an [object] column has none. *)
Definition numeric (v : values) : option (list (option Q)) :=
  match v with
  | Floats xs => Some xs
  | Ints xs => Some (map (fun z => Some (inject_Z z)) xs)
  | Objects _ => None
  end.

(** The non-missing values of a column. *)
Fixpoint present {A : Type} (xs : list (option A)) : list A :=
  match xs with
  | [] => []
  | Some x :: rest => x :: present rest
  | None :: rest => present rest
  end.

Fixpoint insert_sorted {A : Type} (leb : A -> A -> bool) (x : A) (l : list A) : list A :=
  match l with
  | [] => [x]
  | y :: l' => if leb x y then x :: l else y :: insert_sorted leb x l'
  end.

(** The values in ascending order. *)
Definition sort_values {A : Type} (leb : A -> A -> bool) (l : list A) : list A :=
  fold_right (insert_sorted leb) [] l.

(** The two sorted values around position [(n - 1) * q], and the fraction
    of the way from the first to the second.  The position is computed in
    [float64]; it is exact for the quartiles, which the code asks for, on
    fewer than [2 ^ 51] values. *)
Definition neighbours {A : Type} (s : list A) (q : Q) : option (A * A * Q) :=
  match s with
  | [] => None
  | x0 :: _ =>
      let h := (inject_Z (Z.of_nat (length s) - 1) * q)%Q in
      let i := Z.to_nat (Qfloor h) in
      let previous := nth i s x0 in
      let next := nth (S i) s previous in
      Some (previous, next, (h - inject_Z (Qfloor h))%Q)
  end.

(** NumPy's linear interpolation between [a] and [b], whose difference
    [diff_b_a] is computed in the dtype of the column: [a + diff_b_a * t],
    replaced by [b - diff_b_a * (1 - t)] where [t >= 0.5]. *)
Definition lerp (a b diff_b_a : float64) (t : Q) : float64 :=
  if Qle_bool (1 # 2) t then fsub b (fmul diff_b_a (Finite (1 - t)))
  else fadd a (fmul diff_b_a (Finite t)).

(** [Series.quantile(q)], linear interpolation over the sorted non-missing
    values; NaN when there is none.  The loops call it on numeric columns
    only. *)
Definition quantile (v : values) (q : Q) : float64 :=
  match v with
  | Floats xs =>
      match neighbours (sort_values Qle_bool (present xs)) q with
      | Some (a, b, t) => lerp (Finite a) (Finite b) (fsub (Finite b) (Finite a)) t
      | None => NaN
      end
  | Ints zs =>
      match neighbours (sort_values Z.leb zs) q with
      | Some (a, b, t) => lerp (of_int a) (of_int b) (of_int (wrap64 (b - a))) t
      | None => NaN
      end
  | Objects _ => NaN
  end.

(** The cells of a numeric column as [float64] numbers: what a comparison
    with a [float64] scalar sees. *)
Definition as_float64 (v : values) : list float64 :=
  match v with
  | Floats xs => map of_cell xs
  | Ints zs => map of_int zs
  | Objects _ => []
  end.

Definition Qminimum (a b : Q) : Q := if Qle_bool a b then a else b.
Definition Qmaximum (a b : Q) : Q := if Qle_bool a b then b else a.

(** [Series.min()] and [Series.max()] skip NaN and are NaN on no value. *)
Definition series_min (xs : list (option Q)) : option Q :=
  match present xs with
  | [] => None
  | x :: rest => Some (fold_left Qminimum rest x)
  end.

Definition series_max (xs : list (option Q)) : option Q :=
  match present xs with
  | [] => None
  | x :: rest => Some (fold_left Qmaximum rest x)
  end.

Definition Qsum (l : list Q) : Q := fold_right Qplus 0%Q l.

(** [Series.mean()] skips NaN and is NaN on no value. *)
Definition series_mean (xs : list (option Q)) : option Q :=
  match present xs with
  | [] => None
  | vs => Some (Qsum vs / inject_Z (Z.of_nat (length vs)))%Q
  end.

(** The cells of [fillna] with a scalar, which may itself be NaN. *)
Definition fill_with {A : Type} (v : option A) (xs : list (option A)) : list (option A) :=
  map (fun x => match x with Some _ => x | None => v end) xs.

(** Forward fill: the last value seen so far replaces a missing cell. *)
Fixpoint ffill_from {A : Type} (last : option A) (xs : list (option A)) : list (option A) :=
  match xs with
  | [] => []
  | Some x :: rest => Some x :: ffill_from (Some x) rest
  | None :: rest => last :: ffill_from last rest
  end.

Definition ffill {A : Type} (xs : list (option A)) : list (option A) :=
  ffill_from None xs.

Definition bfill {A : Type} (xs : list (option A)) : list (option A) :=
  rev (ffill_from None (rev xs)).

Definition notna {A : Type} (x : option A) : bool :=
  match x with Some _ => true | None => false end.

Definition vnotna (v : values) : list bool :=
  match v with
  | Floats xs => map (@notna Q) xs
  | Ints xs => map (fun _ => true) xs
  | Objects xs => map (@notna string) xs
  end.

Fixpoint and_masks (m1 m2 : list bool) : list bool :=
  match m1, m2 with
  | a :: m1', b :: m2' => (a && b) :: and_masks m1' m2'
  | _, _ => []
  end.

(** ** pandas operations on a frame *)

(** [df.dropna()]: a row stays when none of its cells is missing. *)
Definition dropna_mask (df : DataFrame) : list bool :=
  fold_right (fun c acc => and_masks (vnotna (data c)) acc) (repeat true (len df)) df.

Definition dropna (df : DataFrame) : DataFrame := filter_rows (dropna_mask df) df.

Definition option_eqb {A : Type} (eqb : A -> A -> bool) (x y : option A) : bool :=
  match x, y with
  | Some a, Some b => eqb a b
  | None, None => true
  | _, _ => false
  end.

(** Equality of two cells of one column; two missing cells are equal, as
    in [duplicated]. *)
Definition cell_eqb (a b : cell) : bool :=
  match a, b with
  | CFloat x, CFloat y => option_eqb Qeq_bool x y
  | CInt x, CInt y => Z.eqb x y
  | CObject x, CObject y => option_eqb String.eqb x y
  | _, _ => false
  end.

Fixpoint row_eqb (r1 r2 : row) : bool :=
  match r1, r2 with
  | [], [] => true
  | a :: r1', b :: r2' => cell_eqb a b && row_eqb r1' r2'
  | _, _ => false
  end.

(** [duplicated] with [keep='first']: a row is marked when an equal row
    was seen before it. *)
Fixpoint duplicated_from (seen : list row) (rs : list row) : list bool :=
  match rs with
  | [] => []
  | r :: rest => existsb (row_eqb r) seen :: duplicated_from (r :: seen) rest
  end.

Definition duplicated (df : DataFrame) : list bool := duplicated_from [] (rows df).

Definition drop_duplicates (df : DataFrame) : DataFrame :=
  filter_rows (map negb (duplicated df)) df.

(** [df.fillna(method='ffill')] and ['bfill']: an [int64] column holds no
    missing cell. *)
Definition fill_method (backward : bool) (df : DataFrame) : DataFrame :=
  map (fun c =>
         Column (name c)
           match data c with
           | Floats xs => Floats (if backward then bfill xs else ffill xs)
           | Ints xs => Ints xs
           | Objects xs => Objects (if backward then bfill xs else ffill xs)
           end) df.

(** [df.fillna(df.mean(numeric_only=True))]: each numeric column is filled
    with its own mean; the other columns are not in the mean Series. *)
Definition fillna_mean (df : DataFrame) : DataFrame :=
  map (fun c =>
         Column (name c)
           match data c with
           | Floats xs => Floats (fill_with (series_mean xs) xs)
           | Ints xs => Ints xs
           | Objects xs => Objects xs
           end) df.

(** [list(df.select_dtypes(include=['float64', 'int64']).columns)]. *)
Definition numeric_columns (df : DataFrame) : json :=
  JArr (map (fun c => JStr (name c)) (filter (fun c => is_numeric (data c)) df)).

(** ** The four cleaning operations of the loop *)

(** [lower, upper = Q1 - umbral * IQR, Q3 + umbral * IQR]; both are NaN
    when the column has no value. *)
Definition outlier_bounds (umbral : float64) (v : values) : float64 * float64 :=
  let Q1 := quantile v (1 # 4) in
  let Q3 := quantile v (3 # 4) in
  let IQR := fsub Q3 Q1 in
  (fsub Q1 (fmul umbral IQR), fadd Q3 (fmul umbral IQR)).

(** [(x >= lower) & (x <= upper)]: a comparison with NaN is false. *)
Definition within (bounds : float64 * float64) (x : float64) : bool :=
  fle (fst bounds) x && fle x (snd bounds).

(** [(df[col] >= lower) & (df[col] <= upper)]. *)
Definition outlier_mask (umbral : float64) (v : values) : list bool :=
  map (within (outlier_bounds umbral v)) (as_float64 v).

(** The [for col in columnas] loop of the outliers branch. *)
Fixpoint outliers_loop (umbral : json) (columnas : list json) (df : DataFrame)
  : outcome DataFrame :=
  match columnas with
  | [] => Ok df
  | col :: rest =>
      c <- getitem df col ;;
      match numeric (data c) with
      | Some xs =>
          u <- as_number umbral ;;
          outliers_loop umbral rest (filter_rows (outlier_mask u (data c)) df)
      | None => outliers_loop umbral rest df
      end
  end.

(** [Series.min()] and [Series.max()] of an [int64] column, NaN on no
    value. *)
Definition int_min (zs : list Z) : option Z :=
  match zs with
  | [] => None
  | z :: rest => Some (fold_left Z.min rest z)
  end.

Definition int_max (zs : list Z) : option Z :=
  match zs with
  | [] => None
  | z :: rest => Some (fold_left Z.max rest z)
  end.

(** [(df[col] - min_val) / (max_val - min_val)], a [float64] column, when
    the guard [max_val != min_val] passes ([None] when it does not); NaN
    differs from NaN, and arithmetic with NaN is NaN.  On an [int64]
    column both differences are [int64], and the division converts them
    to [float64].  The loop calls it on numeric columns only. *)
Definition rescale (v : values) : option (list float64) :=
  match v with
  | Floats xs =>
      match series_min xs, series_max xs with
      | Some min_val, Some max_val =>
          if Qeq_bool max_val min_val then None
          else
            let width := fsub (Finite max_val) (Finite min_val) in
            Some (map (fun x => fdiv (fsub (of_cell x) (Finite min_val)) width) xs)
      | _, _ => Some (map (fun _ => NaN) xs)
      end
  | Ints zs =>
      match int_min zs, int_max zs with
      | Some min_val, Some max_val =>
          if Z.eqb max_val min_val then None
          else
            let width := of_int (wrap64 (max_val - min_val)) in
            Some (map (fun z => fdiv (of_int (wrap64 (z - min_val))) width) zs)
      | _, _ => Some []
      end
  | Objects _ => None
  end.

(** [df[col] = new] for an existing column label. *)
Fixpoint setitem (s : string) (new : values) (df : DataFrame) : DataFrame :=
  match df with
  | [] => []
  | c :: rest =>
      if String.eqb s (name c) then Column (name c) new :: rest
      else c :: setitem s new rest
  end.

(** The [for col in columnas] loop of the normalizacion branch. *)
Fixpoint normalizacion_loop (columnas : list json) (df : DataFrame) : outcome DataFrame :=
  match columnas with
  | [] => Ok df
  | col :: rest =>
      c <- getitem df col ;;
      match numeric (data c) with
      | Some xs =>
          match rescale (data c) with
          | Some ys =>
              normalizacion_loop rest (setitem (name c) (Floats (map to_cell ys)) df)
          | None => normalizacion_loop rest df
          end
      | None => normalizacion_loop rest df
      end
  end.

Definition removed (antes : nat) (df : DataFrame) : Z :=
  (Z.of_nat antes - Z.of_nat (len df))%Z.

(** The body of the loop after [tipo] and [parametros] are bound: the
    frame it leaves and [afectados]. *)
Definition aplicar (df : DataFrame) (tipo parametros : json) : outcome (DataFrame * Z) :=
  if is_str tipo "duplicados" then
    let antes := len df in
    let df' := drop_duplicates df in
    Ok (df', removed antes df')
  else if is_str tipo "nulos" then
    metodo <- py_get parametros "metodo" (JStr "drop") ;;
    let antes := len df in
    if is_str metodo "drop" then
      let df' := dropna df in
      Ok (df', removed antes df')
    else if is_str metodo "ffill" || is_str metodo "bfill" then
      Ok (fill_method (is_str metodo "bfill") df, 0%Z)
    else if is_str metodo "mean" then
      Ok (fillna_mean df, 0%Z)
    else Ok (df, 0%Z)
  else if is_str tipo "outliers" then
    columnas <- py_get parametros "columnas" (numeric_columns df) ;;
    umbral <- py_get parametros "umbral" (JNum (3 # 2)) ;;
    let antes := len df in
    cols <- py_iter columnas ;;
    df' <- outliers_loop umbral cols df ;;
    Ok (df', removed antes df')
  else if is_str tipo "normalizacion" then
    columnas <- py_get parametros "columnas" (numeric_columns df) ;;
    cols <- py_iter columnas ;;
    df' <- normalizacion_loop cols df ;;
    Ok (df', 0%Z)
  else Ok (df, 0%Z).

(** One entry of [operaciones_realizadas]. *)
Record operacion : Type := Operacion {
  op_tipo : json;
  op_parametros : json;
  op_afectados : Z
}.

(** The state the loop threads. *)
Record estado : Type := Estado {
  st_df : DataFrame;
  operaciones_realizadas : list operacion;
  total_afectados : Z
}.

(** [tipo] and [parametros] of one entry of [tipos_limpieza]; [None] is
    the [continue] of an entry that is neither a string nor a dict. *)
Definition descriptor (limpieza : json) : option (json * json) :=
  match limpieza with
  | JStr _ => Some (limpieza, JObj [])
  | JObj fields =>
      Some (match dict_get "tipo" fields with Some t => t | None => JNull end,
            match dict_get "parametros" fields with Some p => p | None => JObj [] end)
  | _ => None
  end.

(** One iteration of [for limpieza in tipos_limpieza]. *)
Definition paso (st : estado) (limpieza : json) : outcome estado :=
  match descriptor limpieza with
  | None => Ok st
  | Some (tipo, parametros) =>
      r <- aplicar (st_df st) tipo parametros ;;
      Ok (Estado (fst r)
            (operaciones_realizadas st ++ [Operacion tipo parametros (snd r)])
            (total_afectados st + snd r))
  end.

Fixpoint bucle (tipos : list json) (st : estado) : outcome estado :=
  match tipos with
  | [] => Ok st
  | limpieza :: rest => st' <- paso st limpieza ;; bucle rest st'
  end.

(** The pipeline on a loaded frame: the loop from the initial state. *)
Definition run (df : DataFrame) (tipos : list json) : outcome estado :=
  bucle tipos (Estado df [] 0%Z).

(** ** The endpoint *)

(** The collaborators of the endpoint: [fetch] looks the dataset up,
    downloads it and reads the CSV (no record is [Ok None]); [save] writes
    and uploads the cleaned frame, inserts the cleaning record and returns
    its id.  Either may raise. *)
Record backend : Type := Backend {
  fetch : json -> outcome (option DataFrame);
  save : DataFrame -> list operacion -> Z -> outcome json
}.

(** The body of the 200 response. *)
Record reporte : Type := Reporte {
  limpieza_id : json;
  r_total_afectados : Z;
  operaciones : list operacion;
  cleaned_preview : list row;
  total_filas : nat;
  total_columnas : nat;
  nulls : nat;
  duplicados : nat;
  outliers : nat
}.

Inductive response : Type :=
| R200 (body : reporte)
| R400
| R404
| R500.

Definition count_true (mask : list bool) : nat := List.length (filter (fun b => b) mask).

(** [df.isnull().sum().sum()]. *)
Definition isnull_sum (df : DataFrame) : nat :=
  fold_right (fun c acc => (count_true (map negb (vnotna (data c))) + acc)%nat) 0%nat df.

Definition stats (df : DataFrame) (id : json) (st : estado) : reporte :=
  Reporte id (total_afectados st) (operaciones_realizadas st)
    (firstn 10 (rows df))
    (len df) (List.length df) (isnull_sum df) (count_true (duplicated df)) 0.

(** The [try] block of the endpoint. *)
Definition limpiar_try (b : backend) (data : json) : outcome response :=
  dataset_id <- py_get data "dataset_id" JNull ;;
  tipos_limpieza <- py_get data "tipos_limpieza" (JArr []) ;;
  if negb (truthy dataset_id) || negb (truthy tipos_limpieza) then Ok R400
  else
    found <- fetch b dataset_id ;;
    match found with
    | None => Ok R404
    | Some df =>
        tipos <- py_iter tipos_limpieza ;;
        st <- bucle tipos (Estado df [] 0%Z) ;;
        id <- save b (st_df st) (operaciones_realizadas st) (total_afectados st) ;;
        Ok (R200 (stats (st_df st) id st))
    end.

(** [except Exception] answers 500. *)
Definition limpiar_dataset_multiple (b : backend) (data : json) : response :=
  match limpiar_try b data with
  | Ok r => r
  | Raised => R500
  end.

(** * Vocabulary of the properties *)

(** ** Shapes and scans *)

(** The scan of [duplicated_from], over any equality test. *)
Fixpoint scan {A : Type} (eqb : A -> A -> bool) (seen : list A) (rs : list A) : list bool :=
  match rs with
  | [] => []
  | r :: rest => existsb (eqb r) seen :: scan eqb (r :: seen) rest
  end.

Definition uniform_at (n : nat) (df : DataFrame) : Prop :=
  Forall (fun c => vlen (data c) = n) df.

Definition same_shape (df df' : DataFrame) : Prop :=
  columns df' = columns df /\ uniform df'.

(** ** Frames and requests of the examples *)

Definition ejemplo : DataFrame :=
  [ Column "a" (Ints [1; 2; 3; 4; 100]%Z);
    Column "b" (Floats [Some (1 # 2); None; Some (1 # 2); Some 2; Some 3]%Q);
    Column "c" (Objects [Some "x"; Some "y"; Some "x"; None; Some "z"]) ].

Definition repetido : DataFrame :=
  [ Column "a" (Ints [1; 1; 999; 1]%Z);
    Column "b" (Floats [Some 2; Some 2; None; Some (4 # 2)]%Q) ].

(** The [float64] cell that [read_csv] makes of a decimal numeral. *)
Definition leido (q : Q) : option Q := to_cell (round64 q).

(** Readings in no particular order: 1.6, 2.7, 0.5 and 1.6. *)
Definition lecturas : DataFrame :=
  [ Column "t" (Floats [leido (16 # 10); leido (27 # 10); leido (5 # 10); leido (16 # 10)]);
    Column "n" (Ints [7; 3; 9; 5]%Z) ].

(** An [int64] column that spans the whole range of the dtype. *)
Definition extremos : DataFrame :=
  [ Column "saldo"
      (Ints [-9223372036854775808; -4611686018427387904; 9223372036854775807]%Z) ].

(** A backend that holds [df] under every id and whose writes succeed. *)
Definition holding (df : DataFrame) : backend :=
  Backend (fun _ => Ok (Some df)) (fun _ _ _ => Ok (JNum 7)).

(** The body of a request. *)
Definition peticion_de (dataset_id tipos : json) : json :=
  JObj [("dataset_id", dataset_id); ("tipos_limpieza", tipos)].

Definition peticion (tipos : json) : json := peticion_de (JNum 1) tipos.

Definition con_parametros (tipo : string) (parametros : list (string * json)) : json :=
  JObj [("tipo", JStr tipo); ("parametros", JObj parametros)].

(** The entries of [tipos_limpieza] that reach the report, each with the
    [tipo] and the [parametros] the caller gave. *)
Definition supplied (tipos : list json) : list (json * json) :=
  flat_map (fun l => match descriptor l with Some d => [d] | None => [] end) tipos.

Definition reported (ops : list operacion) : list (json * json) :=
  map (fun o => (op_tipo o, op_parametros o)) ops.

(** The value a report entry gives for parameter [k], if any. *)
Definition reported_param (o : operacion) (k : string) : option json :=
  match op_parametros o with
  | JObj fields => dict_get k fields
  | _ => None
  end.

(** What [df[col]] and the dtype test see of a listed column: [None] when
    the lookup raises, else whether the column is numeric. *)
Definition lookup_kind (df : DataFrame) (col : json) : option bool :=
  match getitem df col with
  | Ok c => Some (is_numeric (data c))
  | Raised => None
  end.

Definition all_present (df : DataFrame) (cols : list json) : bool :=
  forallb (fun col => match lookup_kind df col with Some _ => true | None => false end) cols.

Definition numeric_only (df : DataFrame) (cols : list json) : list json :=
  filter (fun col => match lookup_kind df col with Some true => true | _ => false end) cols.

(** The labels of a frame with the numeric flag of each column. *)
Definition kinds (df : DataFrame) : list (string * bool) :=
  map (fun c => (name c, is_numeric (data c))) df.



Definition lengths (df : DataFrame) : list nat := map (fun c => vlen (data c)) df.

(** [s] lists the values [vs] in ascending order. *)
Definition ascending {A : Type} (le : A -> A -> Prop) (vs s : list A) : Prop :=
  Permutation vs s /\ StronglySorted le s.

(** [a] is the value at position [floor ((n - 1) * q)] of the [n] values
    [s], [b] the next one ([a] again when there is none), and [t] the
    fractional part of [(n - 1) * q]. *)
Definition around {A : Type} (s : list A) (q : Q) (a b : A) (t : Q) : Prop :=
  let h := (inject_Z (Z.of_nat (List.length s) - 1) * q)%Q in
  nth_error s (Z.to_nat (Qfloor h)) = Some a
  /\ b = nth (S (Z.to_nat (Qfloor h))) s a
  /\ t = (h - inject_Z (Qfloor h))%Q.

(** The point at fraction [t] of the way from [a] to [b], whose difference
    is [d], in [float64] arithmetic: measured from [a] in the first half
    of the way and back from [b] in the second. *)
Definition interpolation (a b d : float64) (t : Q) : float64 :=
  match (t ?= 1 # 2)%Q with
  | Lt => fadd a (fmul d (Finite t))
  | _ => fsub b (fmul d (Finite (1 - t)))
  end.

(** [r] is the quantile [q] of a numeric column: NaN when the column
    holds no value, else the interpolation between the two values around
    position [(n - 1) * q] of its non-missing values in ascending order.
    The difference of two [float64] values is a [float64], that of two
    [int64] values an [int64]. *)
Definition is_quantile (v : values) (q : Q) (r : float64) : Prop :=
  match v with
  | Floats xs =>
      (present xs = [] /\ r = NaN)
      \/ exists s a b t,
           ascending Qle (present xs) s /\ around s q a b t
           /\ r = interpolation (Finite a) (Finite b) (fsub (Finite b) (Finite a)) t
  | Ints zs =>
      (zs = [] /\ r = NaN)
      \/ exists s a b t,
           ascending Z.le zs s /\ around s q a b t
           /\ r = interpolation (of_int a) (of_int b) (of_int (wrap64 (b - a))) t
  | Objects _ => False
  end.

(** [x] lies within the bounds derived from the quartiles [Q1] and [Q3]:
    between [Q1 - umbral * IQR] and [Q3 + umbral * IQR], where
    [IQR = Q3 - Q1]. *)
Definition in_bounds (umbral Q1 Q3 x : float64) : Prop :=
  let IQR := fsub Q3 Q1 in
  fle (fsub Q1 (fmul umbral IQR)) x = true
  /\ fle x (fadd Q3 (fmul umbral IQR)) = true.

(** [df1] is [df] with exactly the rows kept whose cell, in the column
    with values [v], lies within the bounds derived from the quartiles
    of [v]. *)
Definition filtered_by (umbral : float64) (v : values) (df df1 : DataFrame) : Prop :=
  columns df1 = columns df
  /\ uniform df1
  /\ exists Q1 Q3 mask,
       is_quantile v (1 # 4) Q1
       /\ is_quantile v (3 # 4) Q3
       /\ List.length mask = len df
       /\ rows df1 = select mask (rows df)
       /\ forall i, (i < len df)%nat ->
            nth i mask false = true <-> in_bounds umbral Q1 Q3 (nth i (as_float64 v) NaN).

(** The listed columns are filtered one after the other, each on the
    frame the previous one left; a column that is not numeric is passed
    over. *)
Inductive sequentially_filtered (umbral : float64) : list json -> DataFrame -> DataFrame -> Prop :=
| sf_done (df : DataFrame) :
    sequentially_filtered umbral [] df df
| sf_skip (col : json) (c : column) (rest : list json) (df df' : DataFrame) :
    getitem df col = Ok c ->
    is_numeric (data c) = false ->
    sequentially_filtered umbral rest df df' ->
    sequentially_filtered umbral (col :: rest) df df'
| sf_filter (col : json) (c : column) (rest : list json) (df df1 df' : DataFrame) :
    getitem df col = Ok c ->
    is_numeric (data c) = true ->
    filtered_by umbral (data c) df df1 ->
    sequentially_filtered umbral rest df1 df' ->
    sequentially_filtered umbral (col :: rest) df df'.

(** The number of missing cells of a column. *)
Definition count_missing (xs : list (option Q)) : nat :=
  count_true (map (fun x => negb (notna x)) xs).

Definition is_nan (x : float64) : bool :=
  match x with
  | NaN => true
  | _ => false
  end.

(** The number of cells that hold a value outside the bounds. *)
Definition count_outside (umbral : float64) (v : values) : nat :=
  count_true (map (fun x => negb (is_nan x) && negb (within (outlier_bounds umbral v) x))
                (as_float64 v)).

(** The rows the column filters of one outliers operation remove, filter
    by filter along the loop: rows with a missing cell and rows with a
    value outside the bounds. *)
Fixpoint removals (umbral : float64) (cols : list json) (df : DataFrame) : nat :=
  match cols with
  | [] => 0
  | col :: rest =>
      match getitem df col with
      | Ok c =>
          match numeric (data c) with
          | Some xs =>
              count_missing xs + count_outside umbral (data c)
              + removals umbral rest (filter_rows (outlier_mask umbral (data c)) df)
          | None => removals umbral rest df
          end
      | Raised => 0
      end
  end.

(** A number that is not an infinity: a finite number or NaN. *)
Definition not_infinite (x : float64) : Prop := forall s, x <> Infinity s.

(** The cells of an [int64] column are within the range of the dtype. *)
Definition int64_cells (v : values) : Prop :=
  match v with
  | Ints zs => Forall (fun z => (- 2 ^ 63 <= z < 2 ^ 63)%Z) zs
  | _ => True
  end.

(** ** Vocabulary of the further properties *)

Definition Zsum (l : list Z) : Z := fold_right Z.add 0%Z l.

(** The four kinds the loop knows. *)
Definition known_tipo (tipo : json) : bool :=
  is_str tipo "duplicados" || is_str tipo "nulos"
  || is_str tipo "outliers" || is_str tipo "normalizacion".

Definition is_object (x : json) : bool :=
  match x with
  | JObj _ => true
  | _ => false
  end.

Definition cell_notna (c : cell) : bool :=
  match c with
  | CFloat x => notna x
  | CInt _ => true
  | CObject s => notna s
  end.

(** A row without a missing cell. *)
Definition complete (r : row) : bool := forallb cell_notna r.

(** [mask] selects only positions that [m] marks. *)
Fixpoint submask (mask m : list bool) : Prop :=
  match mask, m with
  | [], _ => True
  | a :: mask', b :: m' => (a = true -> b = true) /\ submask mask' m'
  | _ :: _, [] => False
  end.

(** [ys] is [xs] filled forward ([backward = false]) or backward: the
    values of [xs] are kept, and a cell of [ys] is missing exactly when
    [xs] has no value at or before it (at or after it). *)
Definition filled {A : Type} (backward : bool) (xs ys : list (option A)) : Prop :=
  List.length ys = List.length xs
  /\ forall i, (i < List.length xs)%nat ->
       (forall v, nth i xs None = Some v -> nth i ys None = Some v)
       /\ (nth i ys None = None
           <-> forall j, (if backward then i <= j < List.length xs else j <= i)%nat ->
                         nth j xs None = None).

(** What a fill method does to one column. *)
Definition fill_related (backward : bool) (c c' : column) : Prop :=
  name c' = name c
  /\ match data c with
     | Floats xs => exists ys, data c' = Floats ys /\ filled backward xs ys
     | Ints _ => data c' = data c
     | Objects xs => exists ys, data c' = Objects ys /\ filled backward xs ys
     end.

(** * The training and metrics endpoints

    [create_entrenamiento] (POST /api/entrenamientos) and
    [create_resultado] (POST /api/resultados).  The body is the parsed
    JSON of the request.  The database is an oracle that answers each
    call with [response.data] or raises; an endpoint returns the calls it
    made, in order, and its reply. *)

Inductive call : Type :=
| Insert (table : string) (record : list (string * json))
| Update (table : string) (changes : list (string * json)) (column : string) (value : json).

Definition database : Type := call -> outcome json.

(** 201 with its body, 400 or 500 (the error bodies carry a message
    only). *)
Inductive reply : Type :=
| Created (body : list (string * json))
| BadRequest
| ServerError.

(** [pat in s] on strings: [pat] occurs in [s]. *)
Fixpoint occurs (pat s : string) : bool :=
  String.prefix pat s
  || match s with
     | EmptyString => false
     | String _ s' => occurs pat s'
     end.

(** [field in data]: a key of a dict, an item of a list, a substring of a
    string; anything else raises TypeError. *)
Definition py_in (field : string) (data : json) : outcome bool :=
  match data with
  | JObj fields => Ok (match dict_get field fields with Some _ => true | None => false end)
  | JArr items => Ok (existsb (fun x => is_str x field) items)
  | JStr s => Ok (occurs field s)
  | _ => Raised
  end.

(** [all(field in data for field in required)], which stops at the first
    field that is not in [data]. *)
Fixpoint all_in (required : list string) (data : json) : outcome bool :=
  match required with
  | [] => Ok true
  | field :: rest =>
      b <- py_in field data ;;
      if b then all_in rest data else Ok false
  end.

(** [data[k]] for a string key: only a dict can be indexed by a string,
    and the key must be there. *)
Definition py_getitem (data : json) (k : string) : outcome json :=
  match data with
  | JObj fields =>
      match dict_get k fields with
      | Some v => Ok v
      | None => Raised
      end
  | _ => Raised
  end.

(** [x[0]]: the first item of a list or the first character of a string;
    IndexError, KeyError or TypeError otherwise. *)
Definition py_first (x : json) : outcome json :=
  match x with
  | JArr (r :: _) => Ok r
  | JStr (String c _) => Ok (JStr (String c EmptyString))
  | _ => Raised
  end.

(** The record [create_entrenamiento] inserts. *)
Definition entrenamiento_record (now : string) (data : json)
  : outcome (list (string * json)) :=
  limpieza <- py_getitem data "limpieza_id" ;;
  tipo_modelo <- py_getitem data "tipo_modelo" ;;
  epocas <- py_get data "epocas" JNull ;;
  batch_size <- py_get data "batch_size" JNull ;;
  learning_rate <- py_get data "learning_rate" JNull ;;
  operaciones_limpieza <- py_get data "operaciones_limpieza" (JArr []) ;;
  Ok [ ("limpieza_id", limpieza);
       ("tipo_modelo", tipo_modelo);
       ("epocas", epocas);
       ("batch_size", batch_size);
       ("learning_rate", learning_rate);
       ("operaciones_limpieza", operaciones_limpieza);
       ("estado", JStr "En Curso");
       ("fecha_inicio", JStr now) ].

(** The body of the 201 answer of [create_entrenamiento]. *)
Definition entrenamiento_body (rows : json) : outcome (list (string * json)) :=
  first <- py_first rows ;;
  id <- py_getitem first "id" ;;
  first' <- py_first rows ;;
  estado <- py_getitem first' "estado" ;;
  Ok [ ("message", JStr "Entrenamiento registrado exitosamente.");
       ("entrenamiento_id", id);
       ("estado", estado) ].

(** A TypeError of the membership test is raised outside the [try]: the
    framework answers 500. *)
Definition create_entrenamiento (db : database) (now : string) (data : json)
  : list call * reply :=
  match all_in ["limpieza_id"; "tipo_modelo"] data with
  | Raised => ([], ServerError)
  | Ok false => ([], BadRequest)
  | Ok true =>
      match entrenamiento_record now data with
      | Raised => ([], ServerError)
      | Ok record =>
          let insert := Insert "entrenamientos" record in
          match db insert with
          | Raised => ([insert], ServerError)
          | Ok rows =>
              match entrenamiento_body rows with
              | Ok body => ([insert], Created body)
              | Raised => ([insert], ServerError)
              end
          end
      end
  end.

(** The record [create_resultado] inserts. *)
Definition resultado_record (data : json) : outcome (list (string * json)) :=
  entrenamiento <- py_getitem data "entrenamiento_id" ;;
  accuracy <- py_getitem data "accuracy" ;;
  f1_score <- py_getitem data "f1_score" ;;
  loss_final <- py_getitem data "loss_final" ;;
  grafico_accuracy_f1 <- py_get data "grafico_accuracy_f1" JNull ;;
  grafico_loss <- py_get data "grafico_loss" JNull ;;
  modelo_guardado <- py_get data "modelo_guardado" JNull ;;
  Ok [ ("entrenamiento_id", entrenamiento);
       ("accuracy", accuracy);
       ("f1_score", f1_score);
       ("loss_final", loss_final);
       ("grafico_accuracy_f1", grafico_accuracy_f1);
       ("grafico_loss", grafico_loss);
       ("modelo_guardado", modelo_guardado) ].

(** The update that closes the training run. *)
Definition finalizar (now : string) (entrenamiento : json) : call :=
  Update "entrenamientos"
    [("estado", JStr "Finalizado"); ("fecha_fin", JStr now)]
    "id" entrenamiento.

Definition resultado_body (rows : json) : outcome (list (string * json)) :=
  first <- py_first rows ;;
  id <- py_getitem first "id" ;;
  Ok [ ("message", JStr "Resultados guardados y entrenamiento finalizado.");
       ("resultado_id", id) ].

Definition create_resultado (db : database) (now : string) (data : json)
  : list call * reply :=
  match all_in ["entrenamiento_id"; "accuracy"; "f1_score"; "loss_final"] data with
  | Raised => ([], ServerError)
  | Ok false => ([], BadRequest)
  | Ok true =>
      match resultado_record data with
      | Raised => ([], ServerError)
      | Ok record =>
          let insert := Insert "resultados_metricas" record in
          match db insert with
          | Raised => ([insert], ServerError)
          | Ok rows =>
              match py_getitem data "entrenamiento_id" with
              | Raised => ([insert], ServerError)
              | Ok entrenamiento =>
                  let update := finalizar now entrenamiento in
                  match db update with
                  | Raised => ([insert; update], ServerError)
                  | Ok _ =>
                      match resultado_body rows with
                      | Ok body => ([insert; update], Created body)
                      | Raised => ([insert; update], ServerError)
                      end
                  end
              end
          end
      end
  end.

(** * The upload endpoint

    [create_dataset] (POST /api/datasets).  A request carries a file
    under the key [file], or a JSON body, or neither.  The file system,
    the parsers, the object storage and the database are oracles; the
    endpoint returns the effects it attempted, in order, and its reply. *)

Inductive submission : Type :=
| Archivo (filename : string)
| Cuerpo (data : json)
| Otro.

(** What [pd.read_csv] or [pd.read_json] does with a file. *)
Inductive parse : Type :=
| Parsed (df : DataFrame)
| UnicodeDecodeError
| ParseError.

(** [save_temp path]: [os.makedirs] and [file.save];
    [read_csv encoding path] and [read_json path]: the parsers;
    [upload storage_path temp_path]: opening the saved file and sending it
    to the bucket; [remove_temp path]: [os.remove]. *)
Record services : Type := Services {
  save_temp : string -> outcome unit;
  read_csv : string -> string -> parse;
  read_json : string -> parse;
  upload : string -> string -> outcome unit;
  remove_temp : string -> outcome unit;
  datasets_db : database
}.

Inductive effect : Type :=
| SaveTemp (path : string)
| Upload (storage_path temp_path : string)
| Call (c : call)
| RemoveTemp (path : string).

(** The body of the 201 answer to a file. *)
Record dataset_body : Type := DatasetBody {
  d_id : json;
  d_nombre : string;
  d_total_filas : nat;
  d_total_columnas : nat;
  d_nulls : nat;
  d_duplicados : nat;
  d_outliers : nat;
  d_preview : list row
}.

Inductive dataset_reply : Type :=
| Uploaded201 (body : dataset_body)
| Registered201 (id nombre : json)
| Bad400
| Error500.

(** [s.endswith(suffix)]: a tail of [s] is [suffix]. *)
Fixpoint endswith (s suffix : string) : bool :=
  String.eqb s suffix
  || match s with
     | EmptyString => false
     | String _ s' => endswith s' suffix
     end.

(** [os.path.join("temp", filename)]: an absolute [filename] replaces the
    directory. *)
Definition temp_path (filename : string) : string :=
  if String.prefix "/" filename then filename else "temp/" ++ filename.

Definition storage_path (filename : string) : string := "datasets/" ++ filename.

(** The inner [try] that reads the saved file: [None] is the 400 answer
    (unsupported format, or any exception of the parser). *)
Definition leer (sv : services) (filename : string) : option DataFrame :=
  if endswith filename ".csv" then
    match read_csv sv "utf-8" (temp_path filename) with
    | Parsed df => Some df
    | UnicodeDecodeError =>
        match read_csv sv "latin-1" (temp_path filename) with
        | Parsed df => Some df
        | _ => None
        end
    | ParseError => None
    end
  else if endswith filename ".json" then
    match read_json sv (temp_path filename) with
    | Parsed df => Some df
    | _ => None
    end
  else None.

Definition JNat (n : nat) : json := JNum (inject_Z (Z.of_nat n)).

(** The record inserted for an uploaded file. *)
Definition dataset_record (now filename : string) (df : DataFrame) : list (string * json) :=
  [ ("nombre", JStr filename);
    ("ruta_almacenamiento", JStr (storage_path filename));
    ("num_filas", JNat (len df));
    ("num_columnas", JNat (List.length df));
    ("metadata_json", JObj []);
    ("fecha_carga", JStr now) ].

Definition dataset_id_of (rows : json) : outcome json :=
  first <- py_first rows ;;
  py_getitem first "id".

Definition create_dataset_file (sv : services) (now filename : string)
  : list effect * dataset_reply :=
  if String.eqb filename "" then ([], Bad400)
  else
    let tmp := temp_path filename in
    match save_temp sv tmp with
    | Raised => ([SaveTemp tmp], Error500)
    | Ok _ =>
        match leer sv filename with
        | None => ([SaveTemp tmp], Bad400)
        | Some df =>
            let up := Upload (storage_path filename) tmp in
            match upload sv (storage_path filename) tmp with
            | Raised => ([SaveTemp tmp; up], Error500)
            | Ok _ =>
                let nulls := isnull_sum df in
                let duplicates := count_true (duplicated df) in
                let ins := Call (Insert "datasets" (dataset_record now filename df)) in
                match datasets_db sv (Insert "datasets" (dataset_record now filename df)) with
                | Raised => ([SaveTemp tmp; up; ins], Error500)
                | Ok answer =>
                    match remove_temp sv tmp with
                    | Raised => ([SaveTemp tmp; up; ins; RemoveTemp tmp], Error500)
                    | Ok _ =>
                        match dataset_id_of answer with
                        | Raised => ([SaveTemp tmp; up; ins; RemoveTemp tmp], Error500)
                        | Ok id =>
                            ([SaveTemp tmp; up; ins; RemoveTemp tmp],
                             Uploaded201
                               (DatasetBody id filename (len df) (List.length df)
                                  nulls duplicates 0 (firstn 20 (rows df))))
                        end
                    end
                end
            end
        end
    end.

(** The record inserted for a JSON body. *)
Definition dataset_record_json (now : string) (data : json) : outcome (list (string * json)) :=
  nombre <- py_getitem data "nombre" ;;
  ruta <- py_get data "ruta_almacenamiento" JNull ;;
  num_filas <- py_get data "num_filas" JNull ;;
  num_columnas <- py_get data "num_columnas" JNull ;;
  metadata <- py_get data "metadata_json" (JObj []) ;;
  Ok [ ("nombre", nombre);
       ("ruta_almacenamiento", ruta);
       ("num_filas", num_filas);
       ("num_columnas", num_columnas);
       ("metadata_json", metadata);
       ("fecha_carga", JStr now) ].

Definition registered_body (rows : json) : outcome (json * json) :=
  first <- py_first rows ;;
  id <- py_getitem first "id" ;;
  first' <- py_first rows ;;
  nombre <- py_getitem first' "nombre" ;;
  Ok (id, nombre).

Definition create_dataset_json (sv : services) (now : string) (data : json)
  : list effect * dataset_reply :=
  if negb (truthy data) then ([], Bad400)
  else
    match py_in "nombre" data with
    | Raised => ([], Error500)
    | Ok false => ([], Bad400)
    | Ok true =>
        match dataset_record_json now data with
        | Raised => ([], Error500)
        | Ok record =>
            match datasets_db sv (Insert "datasets" record) with
            | Raised => ([Call (Insert "datasets" record)], Error500)
            | Ok rows =>
                match registered_body rows with
                | Ok (id, nombre) => ([Call (Insert "datasets" record)], Registered201 id nombre)
                | Raised => ([Call (Insert "datasets" record)], Error500)
                end
            end
        end
    end.

Definition create_dataset (sv : services) (now : string) (request : submission)
  : list effect * dataset_reply :=
  match request with
  | Archivo filename => create_dataset_file sv now filename
  | Cuerpo data => create_dataset_json sv now data
  | Otro => ([], Bad400)
  end.

(** Services of the examples: every effect succeeds, a CSV file cannot
    be decoded as UTF-8 and parses as [df] under Latin-1, the database
    answers with one row. *)
Definition servicios (df : DataFrame) : services :=
  Services (fun _ => Ok tt)
    (fun encoding _ => if String.eqb encoding "utf-8" then UnicodeDecodeError else Parsed df)
    (fun _ => ParseError)
    (fun _ _ => Ok tt)
    (fun _ => Ok tt)
    (fun _ => Ok (JArr [JObj [("id", JNum 12); ("nombre", JStr "ventas")]])).

(** * Properties *)

(** ** Boolean indexing and the shape of a frame *)

Section Select.
Context {A : Type}.

Lemma select_length (mask : list bool) (xs : list A) :
  List.length (select mask xs) = count_true (firstn (List.length xs) mask).
Proof.
  revert xs; induction mask as [|b mask IH]; intros [|x xs]; simpl; try reflexivity.
  destruct b; unfold count_true in *; simpl; rewrite IH; reflexivity.
Qed.

Lemma select_all_true (mask : list bool) (xs : list A) :
  List.length mask = List.length xs ->
  Forall (fun b => b = true) mask ->
  select mask xs = xs.
Proof.
  revert xs; induction mask as [|b mask IH]; intros [|x xs] Hlen Hall;
    simpl in *; try reflexivity; try discriminate.
  inversion Hall; subst. rewrite IH; auto.
Qed.

Lemma select_map {B : Type} (f : A -> B) (mask : list bool) (xs : list A) :
  select mask (map f xs) = map f (select mask xs).
Proof.
  revert xs; induction mask as [|b mask IH]; intros [|x xs]; simpl; try reflexivity.
  destruct b; simpl; rewrite IH; reflexivity.
Qed.
End Select.

Lemma count_true_le (mask : list bool) : (count_true mask <= List.length mask)%nat.
Proof. unfold count_true. apply filter_length_le. Qed.

Lemma vselect_length (mask : list bool) (v : values) :
  vlen (vselect mask v) = count_true (firstn (vlen v) mask).
Proof. destruct v; simpl; apply select_length. Qed.

Lemma uniform_at_len (n : nat) (df : DataFrame) :
  uniform_at n df -> df <> [] -> len df = n.
Proof.
  intros H Hne. destruct df as [|c df]; [congruence|].
  inversion H; subst. reflexivity.
Qed.

Lemma uniform_at_uniform (n : nat) (df : DataFrame) : uniform_at n df -> uniform df.
Proof.
  intros H. destruct df as [|c df]; [constructor|].
  unfold uniform. rewrite (uniform_at_len n _ H) by discriminate. exact H.
Qed.

Lemma columns_filter_rows (mask : list bool) (df : DataFrame) :
  columns (filter_rows mask df) = columns df.
Proof. unfold columns, filter_rows. rewrite map_map. reflexivity. Qed.

Lemma uniform_at_filter_rows (n : nat) (mask : list bool) (df : DataFrame) :
  uniform_at n df ->
  uniform_at (count_true (firstn n mask)) (filter_rows mask df).
Proof.
  unfold uniform_at, filter_rows. intros H. apply Forall_map.
  eapply Forall_impl; [|exact H]. simpl. intros c Hc.
  rewrite vselect_length, Hc. reflexivity.
Qed.

Lemma uniform_filter_rows (mask : list bool) (df : DataFrame) :
  uniform df -> uniform (filter_rows mask df).
Proof. intros H. eapply uniform_at_uniform, uniform_at_filter_rows, H. Qed.

Lemma len_filter_rows (mask : list bool) (df : DataFrame) :
  len (filter_rows mask df) = count_true (firstn (len df) mask).
Proof.
  destruct df as [|c df]; simpl.
  - reflexivity.
  - apply vselect_length.
Qed.

Lemma len_filter_rows_le (mask : list bool) (df : DataFrame) :
  (len (filter_rows mask df) <= len df)%nat.
Proof.
  rewrite len_filter_rows.
  etransitivity; [apply count_true_le|]. rewrite length_firstn. lia.
Qed.

(** A map over the columns that keeps names and lengths keeps the shape. *)
Lemma shape_map (f : column -> column) (df : DataFrame) :
  (forall c, name (f c) = name c) ->
  (forall c, vlen (data (f c)) = vlen (data c)) ->
  uniform df ->
  columns (map f df) = columns df /\ uniform (map f df).
Proof.
  intros Hn Hl H. split.
  - unfold columns. rewrite map_map. apply map_ext, Hn.
  - apply uniform_at_uniform with (n := len df).
    apply Forall_map. eapply Forall_impl; [|exact H].
    simpl. intros c Hc. rewrite Hl. exact Hc.
Qed.

Lemma ffill_from_length {A : Type} (last : option A) (xs : list (option A)) :
  List.length (ffill_from last xs) = List.length xs.
Proof.
  revert last; induction xs as [|[x|] xs IH]; intros last; simpl; auto.
Qed.

Lemma bfill_length {A : Type} (xs : list (option A)) :
  List.length (bfill xs) = List.length xs.
Proof. unfold bfill. rewrite length_rev, ffill_from_length, length_rev. reflexivity. Qed.

Lemma fill_method_shape (backward : bool) (df : DataFrame) :
  uniform df ->
  columns (fill_method backward df) = columns df /\ uniform (fill_method backward df).
Proof.
  apply shape_map; intros c; [reflexivity|].
  simpl. destruct (data c), backward; simpl;
    rewrite ?bfill_length; unfold ffill; rewrite ?ffill_from_length; reflexivity.
Qed.

Lemma fillna_mean_shape (df : DataFrame) :
  uniform df ->
  columns (fillna_mean df) = columns df /\ uniform (fillna_mean df).
Proof.
  apply shape_map; intros c; [reflexivity|].
  simpl. destruct (data c); simpl; unfold fill_with; rewrite ?length_map; reflexivity.
Qed.

Lemma columns_setitem (s : string) (new : values) (df : DataFrame) :
  columns (setitem s new df) = columns df.
Proof.
  unfold columns. induction df as [|c df IH]; simpl; [reflexivity|].
  destruct (String.eqb s (name c)); simpl; [reflexivity|].
  rewrite IH. reflexivity.
Qed.

Lemma uniform_at_setitem (n : nat) (s : string) (new : values) (df : DataFrame) :
  vlen new = n -> uniform_at n df -> uniform_at n (setitem s new df).
Proof.
  intros Hnew. induction df as [|c df IH]; intros H; simpl; [constructor|].
  inversion H as [|c' df' Hc Hdf]; subst c' df'.
  destruct (String.eqb s (name c)); constructor; simpl; auto.
  apply IH, Hdf.
Qed.

Lemma find_column_In (s : string) (df : DataFrame) (c : column) :
  find_column s df = Some c -> In c df /\ name c = s.
Proof.
  induction df as [|c' df IH]; simpl; [discriminate|].
  destruct (String.eqb s (name c')) eqn:E.
  - intros [= <-]. apply String.eqb_eq in E. auto.
  - intros H. destruct (IH H). auto.
Qed.

Lemma getitem_In (df : DataFrame) (key : json) (c : column) :
  getitem df key = Ok c -> In c df /\ key = JStr (name c).
Proof.
  destruct key; simpl; try discriminate.
  destruct (find_column s df) eqn:E; [|discriminate].
  intros [= <-]. destruct (find_column_In _ _ _ E) as [Hin <-]. auto.
Qed.

Lemma numeric_length (v : values) (xs : list (option Q)) :
  numeric v = Some xs -> List.length xs = vlen v.
Proof.
  destruct v; simpl; intros [= <-]; rewrite ?length_map; reflexivity.
Qed.

Lemma rescale_length (v : values) (ys : list float64) :
  rescale v = Some ys -> List.length ys = vlen v.
Proof.
  unfold rescale. destruct v as [xs | zs |]; [| |discriminate].
  - destruct (series_min xs), (series_max xs);
      try destruct (Qeq_bool _ _); intros [= <-]; apply length_map.
  - destruct zs as [|z zs]; [intros [= <-]; reflexivity|].
    cbn [int_min int_max]. destruct (Z.eqb _ _); [discriminate|].
    intros [= <-]. simpl. rewrite length_map. reflexivity.
Qed.

(** ** Inversion of the error monad *)

Lemma bind_Ok {A B : Type} (m : outcome A) (k : A -> outcome B) (b : B) :
  bind m k = Ok b -> exists a, m = Ok a /\ k a = Ok b.
Proof. destruct m; simpl; [eauto | discriminate]. Qed.

Ltac bind_inv H :=
  let a := fresh "a" in
  let Ha := fresh "Ha" in
  apply bind_Ok in H; destruct H as (a & Ha & H).

(** ** The shape of the frame through the loop *)

Lemma outliers_loop_shape (umbral : json) (cols : list json) (df df' : DataFrame) :
  uniform df -> outliers_loop umbral cols df = Ok df' -> same_shape df df'.
Proof.
  revert df; induction cols as [|col cols IH]; simpl; intros df Hu H.
  - injection H as <-. split; auto.
  - bind_inv H. destruct (numeric (data a)).
    + bind_inv H. apply IH in H; [|apply uniform_filter_rows, Hu].
      destruct H as [Hc Hu']. split; [|exact Hu'].
      rewrite Hc. apply columns_filter_rows.
    + apply IH; assumption.
Qed.

Lemma normalizacion_loop_shape (cols : list json) (df df' : DataFrame) :
  uniform df -> normalizacion_loop cols df = Ok df' -> same_shape df df'.
Proof.
  revert df; induction cols as [|col cols IH]; simpl; intros df Hu H.
  - injection H as <-. split; auto.
  - bind_inv H. destruct (numeric (data a)) as [xs|] eqn:Hnum; [|apply IH; assumption].
    destruct (rescale (data a)) as [ys|] eqn:Hres; [|apply IH; assumption].
    apply IH in H.
    + destruct H as [Hc Hu']. split; [|exact Hu'].
      rewrite Hc. apply columns_setitem.
    + apply uniform_at_uniform with (n := len df).
      apply uniform_at_setitem; [|exact Hu].
      simpl. rewrite length_map, (rescale_length _ _ Hres).
      apply getitem_In in Ha. destruct Ha as [Hin _].
      unfold uniform in Hu. rewrite Forall_forall in Hu. apply Hu, Hin.
Qed.

Lemma aplicar_shape (df df' : DataFrame) (tipo parametros : json) (afectados : Z) :
  uniform df -> aplicar df tipo parametros = Ok (df', afectados) -> same_shape df df'.
Proof.
  intros Hu. unfold aplicar.
  destruct (is_str tipo "duplicados").
  { intros [= <- _]. split; [apply columns_filter_rows | apply uniform_filter_rows, Hu]. }
  destruct (is_str tipo "nulos").
  { intros H. bind_inv H.
    destruct (is_str a "drop").
    { injection H as <- _.
      split; [apply columns_filter_rows | apply uniform_filter_rows, Hu]. }
    destruct (is_str a "ffill" || is_str a "bfill").
    { injection H as <- _. apply fill_method_shape, Hu. }
    destruct (is_str a "mean"); injection H as <- _.
    - apply fillna_mean_shape, Hu.
    - split; auto. }
  destruct (is_str tipo "outliers").
  { intros H. do 4 bind_inv H. injection H as <- _.
    eapply outliers_loop_shape; eassumption. }
  destruct (is_str tipo "normalizacion").
  { intros H. do 3 bind_inv H. injection H as <- _.
    eapply normalizacion_loop_shape; eassumption. }
  intros [= <- _]. split; auto.
Qed.

Lemma paso_shape (st st' : estado) (limpieza : json) :
  uniform (st_df st) -> paso st limpieza = Ok st' -> same_shape (st_df st) (st_df st').
Proof.
  intros Hu. unfold paso. destruct (descriptor limpieza) as [[tipo parametros]|].
  - intros H. bind_inv H. injection H as <-. simpl.
    destruct a as [df' n]. eapply aplicar_shape; eassumption.
  - intros [= <-]. split; auto.
Qed.

Lemma bucle_app (pre post : list json) (st : estado) :
  bucle (pre ++ post) st = (mid <- bucle pre st ;; bucle post mid).
Proof.
  revert st; induction pre as [|l pre IH]; intros st; simpl; [reflexivity|].
  destruct (paso st l); simpl; auto.
Qed.

Lemma bucle_shape (tipos : list json) (st st' : estado) :
  uniform (st_df st) -> bucle tipos st = Ok st' -> same_shape (st_df st) (st_df st').
Proof.
  revert st; induction tipos as [|l tipos IH]; simpl; intros st Hu H.
  - injection H as <-. split; auto.
  - bind_inv H. destruct (paso_shape _ _ _ Hu Ha) as [Hc Hu'].
    destruct (IH _ Hu' H) as [Hc' Hu'']. split; [congruence | exact Hu''].
Qed.

(** C8. Started on a frame whose columns all have the length of the index,
    a run that completes has passed, after every prefix of the operation
    list, through a state whose frame has the same column labels in the
    same order and columns of one common length: whatever the kind of an
    entry (known, unknown or skipped), it changes rows or cells only. *)
Theorem pipeline_preserves_shape (df : DataFrame) (pre post : list json) (st : estado) :
  uniform df ->
  run df (pre ++ post) = Ok st ->
  exists mid, run df pre = Ok mid
              /\ columns (st_df mid) = columns df
              /\ uniform (st_df mid).
Proof.
  unfold run. intros Hu H. rewrite bucle_app in H. bind_inv H.
  exists a. split; [exact Ha|]. apply (bucle_shape pre (Estado df [] 0%Z) a Hu Ha).
Qed.

(** ** C2: the empty operation list *)

(** C2, as stated, fails: on the example frame a request with an empty
    operation list is answered 400, not with a report. *)
Lemma empty_list_rejected_example :
  limpiar_dataset_multiple (holding ejemplo) (peticion (JArr [])) = R400
  /\ ~ (exists body,
         limpiar_dataset_multiple (holding ejemplo) (peticion (JArr [])) = R200 body
         /\ r_total_afectados body = 0%Z
         /\ total_filas body = len ejemplo).
Proof.
  split; [reflexivity|]. intros (body & H & _). vm_compute in H. discriminate.
Qed.

(** C2, amended.  The loop started on an empty list leaves the frame as it
    is, with no report entry and a total of 0; the endpoint never starts
    it: a request whose [tipos_limpieza] is the empty list, or is absent,
    is answered 400 whatever the backend and the dataset id are. *)
Theorem empty_list_is_rejected (b : backend) (fields : list (string * json)) (df : DataFrame) :
  dict_get "tipos_limpieza" fields = Some (JArr [])
  \/ dict_get "tipos_limpieza" fields = None ->
  run df [] = Ok (Estado df [] 0%Z)
  /\ limpiar_dataset_multiple b (JObj fields) = R400.
Proof.
  intros H. split; [reflexivity|].
  unfold limpiar_dataset_multiple, limpiar_try, py_get.
  destruct (dict_get "dataset_id" fields) as [id|]; simpl;
    destruct H as [-> | ->]; simpl;
    try (destruct (truthy id)); reflexivity.
Qed.

Lemma empty_list_is_rejected_witness :
  run ejemplo [] = Ok (Estado ejemplo [] 0%Z)
  /\ limpiar_dataset_multiple (holding ejemplo) (peticion (JArr [])) = R400.
Proof.
  apply (empty_list_is_rejected (holding ejemplo)
           [("dataset_id", JNum 1); ("tipos_limpieza", JArr [])] ejemplo).
  left. reflexivity.
Defined.

(** ** C4: the parameters of a report entry *)

Lemma bucle_reported (tipos : list json) (st st' : estado) :
  bucle tipos st = Ok st' ->
  reported (operaciones_realizadas st')
  = reported (operaciones_realizadas st) ++ supplied tipos.
Proof.
  revert st; induction tipos as [|l tipos IH]; simpl; intros st H.
  - injection H as <-. rewrite app_nil_r. reflexivity.
  - bind_inv H. rewrite (IH _ H). unfold paso in Ha.
    destruct (descriptor l) as [[tipo parametros]|].
    + bind_inv Ha. injection Ha as <-. simpl.
      unfold reported. rewrite map_app, <- app_assoc. reflexivity.
    + injection Ha as <-. reflexivity.
Qed.

(** C4, as stated, fails: [outliers] without parameters removes two rows
    of the example frame (default [umbral] and [columnas] applied) and
    [nulos] without [metodo] then drops a row (default [drop] applied),
    yet neither entry reports a value for the defaulted parameter. *)
Lemma defaults_not_reported_example :
  exists o1 o2 st,
    run ejemplo [JObj [("tipo", JStr "outliers")]; JStr "nulos"] = Ok st
    /\ operaciones_realizadas st = [o1; o2]
    /\ op_afectados o1 = 2%Z /\ op_afectados o2 = 1%Z
    /\ reported_param o1 "umbral" <> Some (JNum (3 # 2))
    /\ reported_param o1 "columnas" <> Some (numeric_columns ejemplo)
    /\ reported_param o2 "metodo" <> Some (JStr "drop").
Proof.
  do 3 eexists. split; [vm_compute; reflexivity|].
  split; [reflexivity|]. repeat split; discriminate.
Qed.

(** C4, amended.  The report of a completed run lists, in order, the
    entries that are strings or dicts, each with its [tipo] and with the
    [parametros] exactly as supplied (the empty mapping for a bare string
    or a dict without that key); no default is written into them. *)
Theorem report_records_supplied_parameters (df : DataFrame) (tipos : list json) (st : estado) :
  run df tipos = Ok st ->
  reported (operaciones_realizadas st) = supplied tipos.
Proof. intros H. apply bucle_reported in H. exact H. Qed.

Lemma report_records_supplied_parameters_witness :
  exists st,
    run ejemplo [JStr "nulos"; JNull; con_parametros "outliers" [("umbral", JNum 3)]] = Ok st
    /\ reported (operaciones_realizadas st)
       = [(JStr "nulos", JObj []); (JStr "outliers", JObj [("umbral", JNum 3)])].
Proof.
  eexists. split; [vm_compute; reflexivity|].
  apply (report_records_supplied_parameters ejemplo
           [JStr "nulos"; JNull; con_parametros "outliers" [("umbral", JNum 3)]]).
  vm_compute. reflexivity.
Defined.

(** ** C9: the [outliers] statistic *)

(** C9.  Whatever the backend and the request, a 200 response reports
    [outliers] as 0. *)
Theorem outliers_stat_is_zero (b : backend) (data : json) (body : reporte) :
  limpiar_dataset_multiple b data = R200 body -> outliers body = 0%nat.
Proof.
  unfold limpiar_dataset_multiple.
  destruct (limpiar_try b data) as [r|] eqn:E; [|discriminate].
  intros ->. unfold limpiar_try in E.
  do 2 bind_inv E.
  destruct (negb (truthy a) || negb (truthy a0)); [discriminate|].
  bind_inv E. destruct a1 as [df|]; [|discriminate].
  do 3 bind_inv E. injection E as <-. reflexivity.
Qed.

(** The outliers operation removes a row of the example frame, and the
    statistic is 0 all the same. *)
Lemma outliers_stat_is_zero_witness :
  exists body,
    limpiar_dataset_multiple (holding ejemplo) (peticion (JArr [JStr "outliers"])) = R200 body
    /\ r_total_afectados body = 2%Z
    /\ outliers body = 0%nat.
Proof.
  eexists. split; [vm_compute; reflexivity|]. split; [reflexivity|].
  apply (outliers_stat_is_zero (holding ejemplo) (peticion (JArr [JStr "outliers"]))).
  vm_compute. reflexivity.
Defined.

(** ** C3: listed columns that are absent or not numeric *)

Lemma numeric_is_numeric (v : values) :
  is_numeric v = match numeric v with Some _ => true | None => false end.
Proof. destruct v; reflexivity. Qed.

Lemma lookup_kind_kinds (df df' : DataFrame) (col : json) :
  kinds df = kinds df' -> lookup_kind df col = lookup_kind df' col.
Proof.
  unfold lookup_kind. destruct col; simpl; try reflexivity.
  revert df'; induction df as [|c df IH]; intros [|c' df']; simpl;
    try discriminate; [reflexivity|].
  intros [= Hn Hk Hrest]. rewrite <- Hn.
  destruct (String.eqb s (name c)).
  - rewrite Hk. reflexivity.
  - apply IH, Hrest.
Qed.

Lemma all_present_kinds (df df' : DataFrame) (cols : list json) :
  kinds df = kinds df' -> all_present df cols = all_present df' cols.
Proof.
  intros H. unfold all_present. induction cols as [|col cols IH]; simpl; [reflexivity|].
  rewrite IH, (lookup_kind_kinds df df' col H). reflexivity.
Qed.

Lemma numeric_only_kinds (df df' : DataFrame) (cols : list json) :
  kinds df = kinds df' -> numeric_only df cols = numeric_only df' cols.
Proof.
  intros H. unfold numeric_only. apply filter_ext. intros col.
  rewrite (lookup_kind_kinds df df' col H). reflexivity.
Qed.

Lemma kinds_filter_rows (mask : list bool) (df : DataFrame) :
  kinds (filter_rows mask df) = kinds df.
Proof.
  unfold kinds, filter_rows. rewrite map_map. apply map_ext.
  intros c. simpl. destruct (data c); reflexivity.
Qed.

Lemma kinds_setitem (s : string) (new : values) (df : DataFrame) (c : column) :
  find_column s df = Some c ->
  is_numeric new = is_numeric (data c) ->
  kinds (setitem s new df) = kinds df.
Proof.
  intros Hf Hn. induction df as [|c' df IH]; simpl in *; [reflexivity|].
  destruct (String.eqb s (name c')).
  - injection Hf as ->. simpl. rewrite Hn. reflexivity.
  - simpl. f_equal. apply IH, Hf.
Qed.

Lemma getitem_find (df : DataFrame) (key : json) (c : column) :
  getitem df key = Ok c -> find_column (name c) df = Some c.
Proof.
  destruct key; simpl; try discriminate.
  destruct (find_column s df) eqn:E; [|discriminate].
  intros [= <-]. destruct (find_column_In _ _ _ E) as [_ ->]. exact E.
Qed.

Lemma outliers_loop_lenience (umbral : json) (cols : list json) (df : DataFrame) :
  outliers_loop umbral cols df
  = if all_present df cols
    then outliers_loop umbral (numeric_only df cols) df
    else Raised.
Proof.
  revert df; induction cols as [|col cols IH]; intros df; [reflexivity|].
  simpl. unfold lookup_kind.
  destruct (getitem df col) as [c|] eqn:Hg; simpl; [|reflexivity].
  rewrite numeric_is_numeric.
  destruct (numeric (data c)) as [xs|] eqn:Hnum; simpl; [|apply IH].
  rewrite Hg. cbn [bind]. rewrite Hnum.
  destruct (as_number umbral) as [u|]; simpl;
    [|destruct (all_present df cols); reflexivity].
  rewrite IH.
  rewrite (all_present_kinds _ df cols (kinds_filter_rows _ df)).
  rewrite (numeric_only_kinds _ df cols (kinds_filter_rows _ df)).
  reflexivity.
Qed.

Lemma normalizacion_loop_lenience (cols : list json) (df : DataFrame) :
  normalizacion_loop cols df
  = if all_present df cols
    then normalizacion_loop (numeric_only df cols) df
    else Raised.
Proof.
  revert df; induction cols as [|col cols IH]; intros df; [reflexivity|].
  simpl. unfold lookup_kind.
  destruct (getitem df col) as [c|] eqn:Hg; simpl; [|reflexivity].
  rewrite numeric_is_numeric.
  destruct (numeric (data c)) as [xs|] eqn:Hnum; simpl; [|apply IH].
  rewrite Hg. cbn [bind]. rewrite Hnum.
  destruct (rescale (data c)) as [ys|]; [|apply IH].
  rewrite IH.
  assert (Hk : kinds (setitem (name c) (Floats (map to_cell ys)) df) = kinds df).
  { apply kinds_setitem with (c := c); [apply getitem_find with (key := col), Hg|].
    rewrite (numeric_is_numeric (data c)), Hnum. reflexivity. }
  rewrite (all_present_kinds _ df cols Hk), (numeric_only_kinds _ df cols Hk).
  reflexivity.
Qed.

(** C3, as stated, fails: with an absent name in [columnas], outliers and
    normalizacion do not skip it but raise, and the endpoint answers 500,
    even with a numeric column listed after it. *)
Lemma absent_column_aborts_example :
  ~ (exists r, aplicar ejemplo (JStr "outliers")
                 (JObj [("columnas", JArr [JStr "zz"; JStr "a"])]) = Ok r)
  /\ ~ (exists r, aplicar ejemplo (JStr "normalizacion")
                    (JObj [("columnas", JArr [JStr "zz"; JStr "a"])]) = Ok r)
  /\ limpiar_dataset_multiple (holding ejemplo)
       (peticion (JArr [con_parametros "outliers" [("columnas", JArr [JStr "zz"; JStr "a"])]]))
     = R500
  /\ limpiar_dataset_multiple (holding ejemplo)
       (peticion (JArr [con_parametros "normalizacion" [("columnas", JArr [JStr "zz"; JStr "a"])]]))
     = R500.
Proof.
  repeat split; try (vm_compute; reflexivity);
    intros [r H]; vm_compute in H; discriminate.
Qed.

Lemma run_raises (df : DataFrame) (tipo : string) (fields : list (string * json))
    (rest : list json) :
  aplicar df (JStr tipo) (JObj fields) = Raised ->
  run df (con_parametros tipo fields :: rest) = Raised.
Proof.
  intros H. unfold run. cbn [bucle]. unfold paso.
  change (descriptor (con_parametros tipo fields)) with (Some (JStr tipo, JObj fields)).
  cbn [st_df]. rewrite H. reflexivity.
Qed.

Lemma endpoint_raises (b : backend) (id : json) (df : DataFrame) (l : json) (rest : list json) :
  truthy id = true ->
  fetch b id = Ok (Some df) ->
  run df (l :: rest) = Raised ->
  limpiar_dataset_multiple b (peticion_de id (JArr (l :: rest))) = R500.
Proof.
  intros Hid Hfetch Hrun. unfold limpiar_dataset_multiple, limpiar_try, peticion_de.
  cbn [py_get dict_get String.eqb Ascii.eqb Bool.eqb bind].
  rewrite Hid. cbn [truthy negb orb]. rewrite Hfetch. cbn [bind py_iter].
  unfold run in Hrun. rewrite Hrun. reflexivity.
Qed.

(** C3, amended.  For [outliers] and [normalizacion] with a list as
    [columnas]: when every listed key names a column, the operation does
    what it does with the numeric ones alone, so a listed column that is
    present but not numeric is skipped and the other listed columns are
    still processed.  A listed key that names no column is not skipped:
    the operation raises, the run raises and the endpoint answers 500. *)
Theorem column_lenience (df : DataFrame) (tipo : string) (fields : list (string * json))
    (cols : list json) :
  tipo = "outliers" \/ tipo = "normalizacion" ->
  dict_get "columnas" fields = Some (JArr cols) ->
  aplicar df (JStr tipo) (JObj fields)
  = (if all_present df cols
     then aplicar df (JStr tipo) (JObj (("columnas", JArr (numeric_only df cols)) :: fields))
     else Raised)
  /\ (all_present df cols = false ->
      forall rest,
        run df (con_parametros tipo fields :: rest) = Raised
        /\ forall b id,
             truthy id = true ->
             fetch b id = Ok (Some df) ->
             limpiar_dataset_multiple b
               (peticion_de id (JArr (con_parametros tipo fields :: rest)))
             = R500).
Proof.
  intros Htipo Hcols.
  assert (Hap : aplicar df (JStr tipo) (JObj fields)
                = if all_present df cols
                  then aplicar df (JStr tipo)
                         (JObj (("columnas", JArr (numeric_only df cols)) :: fields))
                  else Raised).
  { destruct Htipo as [-> | ->]; unfold aplicar; simpl is_str; cbv iota;
      unfold py_get; rewrite Hcols; cbn [dict_get String.eqb Ascii.eqb Bool.eqb bind py_iter].
    - destruct (dict_get "umbral" fields) as [umbral|]; cbn [bind];
        rewrite outliers_loop_lenience; destruct (all_present df cols); reflexivity.
    - rewrite normalizacion_loop_lenience. destruct (all_present df cols); reflexivity. }
  split; [exact Hap|].
  intros Hall rest. rewrite Hall in Hap.
  pose proof (run_raises df tipo fields rest Hap) as Hrun.
  split; [exact Hrun|].
  intros b id Hid Hfetch. apply endpoint_raises with (df := df); assumption.
Qed.

Lemma column_lenience_witness :
  aplicar ejemplo (JStr "normalizacion") (JObj [("columnas", JArr [JStr "c"; JStr "a"])])
  = aplicar ejemplo (JStr "normalizacion") (JObj [("columnas", JArr [JStr "a"])])
  /\ limpiar_dataset_multiple (holding ejemplo)
       (peticion (JArr [con_parametros "outliers" [("columnas", JArr [JStr "zz"; JStr "a"])]]))
     = R500.
Proof.
  split.
  - destruct (column_lenience ejemplo "normalizacion"
                [("columnas", JArr [JStr "c"; JStr "a"])] [JStr "c"; JStr "a"]
                (or_intror eq_refl) eq_refl) as [H _].
    rewrite H. vm_compute. reflexivity.
  - destruct (column_lenience ejemplo "outliers"
                [("columnas", JArr [JStr "zz"; JStr "a"])] [JStr "zz"; JStr "a"]
                (or_introl eq_refl) eq_refl) as [_ H].
    destruct (H eq_refl []) as [_ H500].
    apply (H500 (holding ejemplo) (JNum 1)); reflexivity.
Defined.

(** ** Rows of a filtered frame *)

Lemma rows_of_length (n : nat) (cols : list (list cell)) :
  List.length (rows_of n cols) = n.
Proof. revert cols; induction n as [|n IH]; intros cols; simpl; auto. Qed.

Lemma rows_length (df : DataFrame) : List.length (rows df) = len df.
Proof. apply rows_of_length. Qed.

Lemma rows_of_select (mask : list bool) (cols : list (list cell)) :
  Forall (fun c => List.length c = List.length mask) cols ->
  rows_of (count_true mask) (map (select mask) cols)
  = select mask (rows_of (List.length mask) cols).
Proof.
  revert cols; induction mask as [|b mask IH]; intros cols Hlen; [reflexivity|].
  rewrite Forall_forall in Hlen.
  assert (Htl : Forall (fun c => List.length c = List.length mask) (map (@tl cell) cols)).
  { apply Forall_map, Forall_forall. intros c Hc. specialize (Hlen c Hc).
    destruct c; simpl in *; [discriminate | congruence]. }
  assert (Hsel : map (select (false :: mask)) cols = map (select mask) (map (@tl cell) cols)).
  { rewrite map_map. apply map_ext_in. intros c Hc. specialize (Hlen c Hc).
    destruct c; [discriminate | reflexivity]. }
  assert (Hhd : map (hd (CObject None)) (map (select (true :: mask)) cols)
                = map (hd (CObject None)) cols).
  { rewrite map_map. apply map_ext_in. intros c Hc. specialize (Hlen c Hc).
    destruct c; [discriminate | reflexivity]. }
  assert (Hcons : map (@tl cell) (map (select (true :: mask)) cols)
                  = map (select mask) (map (@tl cell) cols)).
  { rewrite !map_map. apply map_ext_in. intros c Hc. specialize (Hlen c Hc).
    destruct c; [discriminate | reflexivity]. }
  destruct b.
  - change (count_true (true :: mask)) with (S (count_true mask)).
    change (List.length (true :: mask)) with (S (List.length mask)).
    change (rows_of (S (count_true mask)) (map (select (true :: mask)) cols))
      with (map (hd (CObject None)) (map (select (true :: mask)) cols)
              :: rows_of (count_true mask) (map (@tl cell) (map (select (true :: mask)) cols))).
    rewrite Hhd, Hcons, (IH _ Htl). reflexivity.
  - change (count_true (false :: mask)) with (count_true mask).
    rewrite Hsel, (IH _ Htl). reflexivity.
Qed.

Lemma cells_length (v : values) : List.length (cells v) = vlen v.
Proof. destruct v; simpl; apply length_map. Qed.

Lemma cells_vselect (mask : list bool) (v : values) :
  cells (vselect mask v) = select mask (cells v).
Proof. destruct v; simpl; symmetry; apply select_map. Qed.

Lemma len_filter_rows_full (mask : list bool) (df : DataFrame) :
  List.length mask = len df ->
  len (filter_rows mask df) = count_true mask \/ df = [].
Proof.
  intros H. destruct df as [|c df]; [right; reflexivity|left].
  rewrite len_filter_rows, <- H, firstn_all. reflexivity.
Qed.

(** Filtering the columns by a mask selects the rows by that mask. *)
Lemma rows_filter_rows (mask : list bool) (df : DataFrame) :
  uniform df ->
  List.length mask = len df ->
  rows (filter_rows mask df) = select mask (rows df).
Proof.
  intros Hu Hlen. unfold rows.
  destruct (len_filter_rows_full mask df Hlen) as [-> | ->].
  - rewrite <- Hlen. unfold filter_rows. rewrite map_map. simpl.
    rewrite <- rows_of_select.
    + f_equal. rewrite map_map. apply map_ext. intros c. apply cells_vselect.
    + apply Forall_map. eapply Forall_impl; [|exact Hu].
      simpl. intros c Hc. rewrite cells_length, Hc, Hlen. reflexivity.
  - simpl in *. destruct mask; [reflexivity | discriminate].
Qed.

Lemma count_true_negb (mask : list bool) :
  (count_true mask + count_true (map negb mask) = List.length mask)%nat.
Proof.
  unfold count_true. induction mask as [|[|] mask IH]; simpl; lia.
Qed.

(** A mask that keeps every row leaves the frame as it is. *)
Lemma filter_rows_all_true (mask : list bool) (df : DataFrame) :
  uniform df ->
  List.length mask = len df ->
  Forall (fun b => b = true) mask ->
  filter_rows mask df = df.
Proof.
  intros Hu Hlen Hall. unfold filter_rows.
  rewrite <- (map_id df) at 2. apply map_ext_in. intros c Hc.
  unfold uniform in Hu. rewrite Forall_forall in Hu. specialize (Hu c Hc).
  destruct c as [s v]. simpl in *. f_equal.
  destruct v; simpl in *; f_equal; apply select_all_true; congruence.
Qed.

(** ** C5: duplicates *)

Section FirstOccurrences.
Context {A : Type}.
Variable eqb : A -> A -> bool.
Hypothesis eqb_trans : forall x y z, eqb x y = true -> eqb y z = true -> eqb x z = true.

Lemma scan_length (seen rs : list A) : List.length (scan eqb seen rs) = List.length rs.
Proof. revert seen; induction rs as [|r rs IH]; intros seen; simpl; auto. Qed.

Lemma scan_nth (rs seen : list A) (i : nat) (d : A) :
  (i < List.length rs)%nat ->
  nth i (scan eqb seen rs) false
  = existsb (eqb (nth i rs d)) seen || existsb (eqb (nth i rs d)) (firstn i rs).
Proof.
  revert seen i; induction rs as [|r rs IH]; intros seen i Hi; simpl in Hi; [lia|].
  destruct i as [|i]; simpl.
  - rewrite orb_false_r. reflexivity.
  - rewrite IH by lia. simpl.
    destruct (eqb (nth i rs d) r), (existsb (eqb (nth i rs d)) seen); reflexivity.
Qed.

Lemma existsb_prefix (f : A -> bool) (rs : list A) (i : nat) (d : A) :
  (i <= List.length rs)%nat ->
  existsb f (firstn i rs) = true <-> exists j, (j < i)%nat /\ f (nth j rs d) = true.
Proof.
  revert rs; induction i as [|i IH]; intros rs Hi; simpl.
  - split; [discriminate | intros (j & Hj & _); lia].
  - destruct rs as [|r rs]; simpl in *; [lia|].
    rewrite orb_true_iff, IH by lia. split.
    + intros [H | (j & Hj & H)]; [exists 0%nat | exists (S j)]; split; auto; lia.
    + intros ([|j] & Hj & H); [left; exact H | right; exists j; split; auto; lia].
Qed.

Lemma scan_ext (rs s1 s2 : list A) :
  (forall x, existsb (eqb x) s1 = existsb (eqb x) s2) ->
  scan eqb s1 rs = scan eqb s2 rs.
Proof.
  revert s1 s2; induction rs as [|r rs IH]; intros s1 s2 H; simpl; [reflexivity|].
  rewrite (H r). f_equal. apply IH. intros x. simpl. rewrite (H x). reflexivity.
Qed.

Lemma seen_absorbs (r : A) (seen : list A) (x : A) :
  existsb (eqb r) seen = true ->
  existsb (eqb x) (r :: seen) = existsb (eqb x) seen.
Proof.
  intros Hr. simpl. destruct (eqb x r) eqn:E; [|reflexivity].
  simpl. symmetry. apply existsb_exists.
  apply existsb_exists in Hr. destruct Hr as (y & Hy & Hry).
  exists y. split; [exact Hy | eapply eqb_trans; eassumption].
Qed.

(** The rows that stay hold no further duplicate. *)
Lemma scan_kept (rs seen : list A) :
  Forall (fun b => b = false) (scan eqb seen (select (map negb (scan eqb seen rs)) rs)).
Proof.
  revert seen; induction rs as [|r rs IH]; intros seen; simpl; [constructor|].
  destruct (existsb (eqb r) seen) eqn:E; simpl.
  - rewrite <- (scan_ext _ (r :: seen) seen); [apply IH|].
    intros x. apply seen_absorbs, E.
  - rewrite E. constructor; [reflexivity | apply IH].
Qed.
End FirstOccurrences.

Lemma duplicated_from_scan (seen rs : list row) :
  duplicated_from seen rs = scan row_eqb seen rs.
Proof. revert seen; induction rs as [|r rs IH]; intros seen; simpl; [|rewrite IH]; reflexivity. Qed.

Lemma Qeq_bool_trans (x y z : Q) :
  Qeq_bool x y = true -> Qeq_bool y z = true -> Qeq_bool x z = true.
Proof. rewrite !Qeq_bool_iff. intros -> ->. reflexivity. Qed.

Lemma cell_eqb_trans (a b c : cell) :
  cell_eqb a b = true -> cell_eqb b c = true -> cell_eqb a c = true.
Proof.
  destruct a as [[x|]| x |[x|]], b as [[y|]| y |[y|]], c as [[z|]| z |[z|]];
    simpl; try discriminate; try reflexivity.
  - apply Qeq_bool_trans.
  - rewrite !Z.eqb_eq. congruence.
  - rewrite !String.eqb_eq. congruence.
Qed.

Lemma row_eqb_trans (r1 r2 r3 : row) :
  row_eqb r1 r2 = true -> row_eqb r2 r3 = true -> row_eqb r1 r3 = true.
Proof.
  revert r2 r3; induction r1 as [|a r1 IH]; intros [|b r2] [|c r3]; simpl;
    try discriminate; try reflexivity.
  rewrite !andb_true_iff. intros [H1 H2] [H3 H4]. split.
  - eapply cell_eqb_trans; eassumption.
  - eapply IH; eassumption.
Qed.

Lemma duplicated_length (df : DataFrame) : List.length (duplicated df) = len df.
Proof.
  unfold duplicated. rewrite duplicated_from_scan, scan_length. apply rows_length.
Qed.

Lemma len_drop_duplicates (df : DataFrame) :
  (len (drop_duplicates df) + count_true (duplicated df) = len df)%nat.
Proof.
  unfold drop_duplicates.
  assert (Hlen : List.length (map negb (duplicated df)) = len df)
    by (rewrite length_map; apply duplicated_length).
  destruct (len_filter_rows_full _ df Hlen) as [-> | ->]; [|reflexivity].
  pose proof (count_true_negb (duplicated df)) as H.
  rewrite duplicated_length in H. lia.
Qed.

Lemma rows_drop_duplicates (df : DataFrame) :
  uniform df ->
  rows (drop_duplicates df) = select (map negb (duplicated df)) (rows df).
Proof.
  intros Hu. apply rows_filter_rows; [exact Hu|].
  rewrite length_map. apply duplicated_length.
Qed.

Lemma duplicated_drop_duplicates (df : DataFrame) :
  uniform df ->
  Forall (fun b => b = false) (duplicated (drop_duplicates df)).
Proof.
  intros Hu. unfold duplicated at 1.
  rewrite (rows_drop_duplicates df Hu). unfold duplicated.
  rewrite !duplicated_from_scan. apply scan_kept. exact row_eqb_trans.
Qed.

Lemma count_true_all_false (mask : list bool) :
  Forall (fun b => b = false) mask -> count_true mask = 0%nat.
Proof.
  unfold count_true. induction 1 as [|b mask Hb _ IH]; simpl; [reflexivity|].
  rewrite Hb. exact IH.
Qed.

Lemma drop_duplicates_idempotent (df : DataFrame) :
  uniform df -> drop_duplicates (drop_duplicates df) = drop_duplicates df.
Proof.
  intros Hu. unfold drop_duplicates at 1.
  apply filter_rows_all_true.
  - apply uniform_filter_rows, Hu.
  - rewrite length_map. apply duplicated_length.
  - apply Forall_map. eapply Forall_impl; [|apply duplicated_drop_duplicates, Hu].
    simpl. intros b ->. reflexivity.
Qed.

(** C5.  On a frame with columns of one length, [duplicados] marks a row
    exactly when an earlier row equals it in every column, keeps the
    unmarked rows in their order (so the first occurrence of each row
    stays), reports the number of marked rows, and a second pass over its
    result changes nothing and reports 0. *)
Theorem duplicados_keeps_first_occurrences (df : DataFrame) (parametros : json) :
  uniform df ->
  (forall i, (i < len df)%nat ->
     nth i (duplicated df) false = true
     <-> exists j, (j < i)%nat /\ row_eqb (nth i (rows df) []) (nth j (rows df) []) = true)
  /\ rows (drop_duplicates df) = select (map negb (duplicated df)) (rows df)
  /\ aplicar df (JStr "duplicados") parametros
     = Ok (drop_duplicates df, Z.of_nat (count_true (duplicated df)))
  /\ aplicar (drop_duplicates df) (JStr "duplicados") parametros
     = Ok (drop_duplicates df, 0%Z).
Proof.
  intros Hu. split; [|split; [|split]].
  - intros i Hi. unfold duplicated. rewrite duplicated_from_scan.
    rewrite (scan_nth row_eqb (rows df) [] i []) by (rewrite rows_length; exact Hi).
    simpl. apply existsb_prefix. rewrite rows_length. lia.
  - apply rows_drop_duplicates, Hu.
  - unfold aplicar. simpl. unfold removed. do 2 f_equal.
    pose proof (len_drop_duplicates df). lia.
  - unfold aplicar. simpl. rewrite (drop_duplicates_idempotent df Hu).
    unfold removed. do 2 f_equal. lia.
Qed.

Lemma duplicados_keeps_first_occurrences_witness :
  aplicar repetido (JStr "duplicados") (JObj [])
  = Ok ([Column "a" (Ints [1; 999]%Z); Column "b" (Floats [Some 2; None]%Q)], 2%Z)
  /\ aplicar (drop_duplicates repetido) (JStr "duplicados") (JObj [])
     = Ok (drop_duplicates repetido, 0%Z).
Proof.
  assert (Hu : uniform repetido) by (repeat constructor).
  destruct (duplicados_keeps_first_occurrences repetido (JObj []) Hu)
    as (_ & _ & H1 & H2).
  split; [exact H1 | exact H2].
Defined.

(** ** C6: filling with the mean *)


Lemma len_fillna_mean (df : DataFrame) : len (fillna_mean df) = len df.
Proof.
  destruct df as [|c df]; simpl; [reflexivity|].
  destruct (data c); simpl; unfold fill_with; rewrite ?length_map; reflexivity.
Qed.




Lemma pipeline_preserves_shape_witness :
  exists mid,
    run ejemplo [JStr "duplicados"; con_parametros "nulos" [("metodo", JStr "ffill")];
                 JStr "outliers"; JNum 3; JStr "desconocida"] = Ok mid
    /\ columns (st_df mid) = columns ejemplo
    /\ uniform (st_df mid).
Proof.
  eapply pipeline_preserves_shape
    with (post := [JStr "normalizacion"; con_parametros "nulos" [("metodo", JStr "mean")];
                   JStr "nulos"]).
  - repeat constructor.
  - vm_compute. reflexivity.
Defined.

(** ** C7: min-max normalization

    Minima and maxima of a column. *)

Section MinMax.
Local Open Scope Q_scope.

Lemma Qminimum_le_l (a b : Q) : Qminimum a b <= a.
Proof.
  unfold Qminimum. destruct (Qle_bool a b) eqn:E; [apply Qle_refl|].
  destruct (Qlt_le_dec a b) as [H | H]; [|exact H].
  apply Qlt_le_weak, Qle_bool_iff in H. congruence.
Qed.

Lemma Qmaximum_ge_l (a b : Q) : a <= Qmaximum a b.
Proof.
  unfold Qmaximum. destruct (Qle_bool a b) eqn:E; [|apply Qle_refl].
  apply Qle_bool_iff, E.
Qed.

Lemma fold_min_le (rest : list Q) (x : Q) : fold_left Qminimum rest x <= x.
Proof.
  revert x; induction rest as [|y rest IH]; intros x; simpl; [apply Qle_refl|].
  eapply Qle_trans; [apply IH | apply Qminimum_le_l].
Qed.

Lemma fold_max_ge (rest : list Q) (x : Q) : x <= fold_left Qmaximum rest x.
Proof.
  revert x; induction rest as [|y rest IH]; intros x; simpl; [apply Qle_refl|].
  eapply Qle_trans; [apply Qmaximum_ge_l | apply IH].
Qed.

Lemma series_min_le_max (xs : list (option Q)) (mn mx : Q) :
  series_min xs = Some mn -> series_max xs = Some mx -> mn <= mx.
Proof.
  unfold series_min, series_max. destruct (present xs) as [|x rest]; [discriminate|].
  intros [= <-] [= <-].
  eapply Qle_trans; [apply fold_min_le | apply fold_max_ge].
Qed.

End MinMax.

(** ** Rounding to [float64] *)

Section Rounding.
Local Open Scope Q_scope.

(** Powers of two. *)

Lemma two_neq_0 : ~ 2 == 0.
Proof. intros H. discriminate H. Qed.

Lemma pow2_pos (e : Z) : 0 < 2 ^ e.
Proof. apply Qpower_0_lt. reflexivity. Qed.

Lemma pow2_le (e1 e2 : Z) : (e1 <= e2)%Z -> 2 ^ e1 <= 2 ^ e2.
Proof. intros H. apply Qpower_le_compat_l; [exact H | discriminate]. Qed.

Lemma pow2_lt (e1 e2 : Z) : (e1 < e2)%Z -> 2 ^ e1 < 2 ^ e2.
Proof. intros H. apply Qpower_lt_compat_l; [exact H | reflexivity]. Qed.

Lemma pow2_lt_inv (e1 e2 : Z) : 2 ^ e1 < 2 ^ e2 -> (e1 < e2)%Z.
Proof. intros H. apply (Qpower_lt_compat_l_inv 2); [exact H | reflexivity]. Qed.

Lemma pow2_Z (z : Z) : (0 <= z)%Z -> inject_Z (2 ^ z) == 2 ^ z.
Proof. intros H. rewrite Zpower_Qpower by exact H. reflexivity. Qed.

(** The exponent of a positive number. *)
Lemma ilog2_spec (a : Q) : 0 < a -> 2 ^ ilog2 a <= a /\ a < 2 ^ (ilog2 a + 1).
Proof.
  intros Ha. unfold ilog2.
  destruct a as [n d]. cbn [Qnum Qden].
  assert (Hn : (0 < n)%Z) by (unfold Qlt in Ha; simpl in Ha; lia).
  pose proof (Z.log2_spec n Hn) as [Hn1 Hn2].
  pose proof (Z.log2_spec (Zpos d) (Pos2Z.is_pos d)) as [Hd1 Hd2].
  pose proof (Z.log2_nonneg n) as Hln. pose proof (Z.log2_nonneg (Zpos d)) as Hld.
  set (ln := Z.log2 n) in *. set (ld := Z.log2 (Zpos d)) in *.
  assert (Hq : n # d == inject_Z n / inject_Z (Zpos d)) by apply Qmake_Qdiv.
  assert (Hdpos : 0 < inject_Z (Zpos d)) by (rewrite <- (Zlt_Qlt 0); lia).
  assert (Hup : n # d < 2 ^ (ln - ld + 1)).
  { replace (ln - ld + 1)%Z with (Z.succ ln - ld)%Z by lia.
    rewrite Qpower_minus by exact two_neq_0.
    rewrite <- !pow2_Z by lia. rewrite Hq.
    apply Qlt_shift_div_l; [rewrite <- (Zlt_Qlt 0); lia|].
    unfold Qdiv. rewrite <- Qmult_assoc, (Qmult_comm (/ _)), Qmult_assoc.
    apply Qlt_shift_div_r; [exact Hdpos|].
    rewrite <- !inject_Z_mult, <- Zlt_Qlt. nia. }
  assert (Hlo : 2 ^ (ln - ld - 1) <= n # d).
  { replace (ln - ld - 1)%Z with (ln - Z.succ ld)%Z by lia.
    rewrite Qpower_minus by exact two_neq_0.
    rewrite <- !pow2_Z by lia. rewrite Hq.
    apply Qle_shift_div_r; [rewrite <- (Zlt_Qlt 0); lia|].
    unfold Qdiv. rewrite <- Qmult_assoc, (Qmult_comm (/ _)), Qmult_assoc.
    apply Qle_shift_div_l; [exact Hdpos|].
    rewrite <- !inject_Z_mult, <- Zle_Qle. nia. }
  destruct (Qle_bool (2 ^ (ln - ld)) (n # d)) eqn:E.
  - apply Qle_bool_iff in E. split; assumption.
  - split; [exact Hlo|].
    replace (ln - ld - 1 + 1)%Z with (ln - ld)%Z by lia.
    apply Qnot_le_lt. intros H. apply Qle_bool_iff in H. congruence.
Qed.

Lemma ilog2_unique (a : Q) (e : Z) : 2 ^ e <= a -> a < 2 ^ (e + 1) -> ilog2 a = e.
Proof.
  intros H1 H2.
  assert (Ha : 0 < a) by (eapply Qlt_le_trans; [apply (pow2_pos e) | exact H1]).
  destruct (ilog2_spec a Ha) as [H3 H4].
  assert (ilog2 a < e + 1)%Z
    by (apply pow2_lt_inv; eapply Qle_lt_trans; eassumption).
  assert (e < ilog2 a + 1)%Z
    by (apply pow2_lt_inv; eapply Qle_lt_trans; eassumption).
  lia.
Qed.

Lemma ilog2_comp (a b : Q) : 0 < a -> a == b -> ilog2 a = ilog2 b.
Proof.
  intros Ha Hab. symmetry. destruct (ilog2_spec a Ha) as [H1 H2].
  apply ilog2_unique; rewrite <- Hab; assumption.
Qed.

Lemma ilog2_le (a b : Q) : 0 < a -> a <= b -> (ilog2 a <= ilog2 b)%Z.
Proof.
  intros Ha Hab.
  assert (Hb : 0 < b) by (eapply Qlt_le_trans; eassumption).
  destruct (ilog2_spec a Ha) as [H1 _]. destruct (ilog2_spec b Hb) as [_ H2].
  assert (ilog2 a < ilog2 b + 1)%Z; [|lia].
  apply pow2_lt_inv. eapply Qle_lt_trans; [exact H1|].
  eapply Qle_lt_trans; eassumption.
Qed.


(** Rounding to the nearest integer. *)
Lemma round_half_even_comp (x y : Q) : x == y -> round_half_even x = round_half_even y.
Proof.
  intros H. unfold round_half_even. rewrite (Qfloor_comp x y H).
  assert (Hc : (x - inject_Z (Qfloor y) ?= 1 # 2) = (y - inject_Z (Qfloor y) ?= 1 # 2))
    by (rewrite H; reflexivity).
  rewrite Hc. reflexivity.
Qed.

Lemma round_half_even_floor (x : Q) :
  (Qfloor x <= round_half_even x <= Qfloor x + 1)%Z.
Proof.
  unfold round_half_even.
  destruct (x - inject_Z (Qfloor x) ?= 1 # 2); [destruct (Z.even _)| |]; lia.
Qed.

Lemma round_half_even_Z (k : Z) : round_half_even (inject_Z k) = k.
Proof.
  unfold round_half_even. rewrite Qfloor_Z.
  destruct (Qcompare_spec (inject_Z k - inject_Z k) (1 # 2)) as [H | H | H];
    [exfalso | reflexivity | exfalso]; lra.
Qed.

Lemma round_half_even_le (x y : Q) : x <= y -> (round_half_even x <= round_half_even y)%Z.
Proof.
  intros Hxy. pose proof (Qfloor_resp_le _ _ Hxy) as Hf.
  pose proof (round_half_even_floor x) as Hx. pose proof (round_half_even_floor y) as Hy.
  destruct (Z.eq_dec (Qfloor x) (Qfloor y)) as [E | E]; [|lia].
  unfold round_half_even in *. rewrite E in *.
  destruct (Qcompare_spec (x - inject_Z (Qfloor y)) (1 # 2)) as [H | H | H];
    destruct (Qcompare_spec (y - inject_Z (Qfloor y)) (1 # 2)) as [H' | H' | H'];
    try lia; try (exfalso; lra); destruct (Z.even (Qfloor y)); lia.
Qed.

Lemma round_half_even_le_Z (x : Q) (k : Z) : x <= inject_Z k -> (round_half_even x <= k)%Z.
Proof. intros H. apply round_half_even_le in H. rewrite round_half_even_Z in H. exact H. Qed.

Lemma round_half_even_ge_Z (x : Q) (k : Z) : inject_Z k <= x -> (k <= round_half_even x)%Z.
Proof. intros H. apply round_half_even_le in H. rewrite round_half_even_Z in H. exact H. Qed.

(** The nearest multiple of the last place. *)
Lemma last_place_le (a b : Q) : 0 < a -> a <= b -> (last_place a <= last_place b)%Z.
Proof. intros Ha Hab. unfold last_place. pose proof (ilog2_le a b Ha Hab). lia. Qed.

Lemma nearest_comp (a b : Q) : 0 < a -> a == b -> nearest a == nearest b.
Proof.
  intros Ha Hab. unfold nearest, last_place. rewrite (ilog2_comp a b Ha Hab).
  rewrite (round_half_even_comp (a / _) (b / 2 ^ Z.max (ilog2 b - 52) (-1074))).
  - reflexivity.
  - rewrite Hab. reflexivity.
Qed.

Lemma scaled_le (a : Q) (e k : Z) : a <= 2 ^ k -> a / 2 ^ e <= 2 ^ (k - e).
Proof.
  intros H. rewrite Qpower_minus by exact two_neq_0.
  unfold Qdiv. apply Qmult_le_compat_r; [exact H|].
  apply Qlt_le_weak, Qinv_lt_0_compat, pow2_pos.
Qed.

Lemma scaled_ge (a : Q) (e k : Z) : 2 ^ k <= a -> 2 ^ (k - e) <= a / 2 ^ e.
Proof.
  intros H. rewrite Qpower_minus by exact two_neq_0.
  unfold Qdiv. apply Qmult_le_compat_r; [exact H|].
  apply Qlt_le_weak, Qinv_lt_0_compat, pow2_pos.
Qed.

Lemma nearest_nonneg (a : Q) : 0 <= a -> 0 <= nearest a.
Proof.
  intros Ha. unfold nearest.
  apply Qmult_le_0_compat; [|apply Qlt_le_weak, pow2_pos].
  rewrite <- (Zle_Qle 0). apply round_half_even_ge_Z.
  change (inject_Z 0) with 0. unfold Qdiv.
  apply Qmult_le_0_compat; [exact Ha|]. apply Qlt_le_weak, Qinv_lt_0_compat, pow2_pos.
Qed.

(** A normal number is rounded within its binade. *)
Lemma nearest_ge (a : Q) :
  0 < a -> (-1074 <= ilog2 a - 52)%Z -> 2 ^ ilog2 a <= nearest a.
Proof.
  intros Ha He. destruct (ilog2_spec a Ha) as [H1 _].
  unfold nearest, last_place. rewrite Z.max_l by lia.
  set (E := (ilog2 a - 52)%Z).
  assert (Hm : (2 ^ 52 <= round_half_even (a / 2 ^ E))%Z).
  { apply round_half_even_ge_Z. rewrite pow2_Z by lia.
    replace 52%Z with (ilog2 a - E)%Z by (unfold E; lia).
    apply scaled_ge, H1. }
  replace (ilog2 a) with (52 + E)%Z at 1 by (unfold E; lia).
  rewrite Qpower_plus by exact two_neq_0.
  apply Qmult_le_compat_r; [|apply Qlt_le_weak, pow2_pos].
  rewrite <- (pow2_Z 52) by lia. rewrite <- Zle_Qle. exact Hm.
Qed.

Lemma nearest_le (a : Q) :
  0 < a -> nearest a <= 2 ^ Z.max (ilog2 a + 1) (last_place a).
Proof.
  intros Ha. destruct (ilog2_spec a Ha) as [_ H2].
  unfold nearest. set (E := last_place a).
  destruct (Z.le_ge_cases E (ilog2 a + 1)) as [H | H].
  - rewrite Z.max_l by lia.
    assert (Hm : (round_half_even (a / 2 ^ E) <= 2 ^ (ilog2 a + 1 - E))%Z).
    { apply round_half_even_le_Z. rewrite pow2_Z by lia.
      apply scaled_le, Qlt_le_weak, H2. }
    assert (Hp : 2 ^ (ilog2 a + 1) == 2 ^ (ilog2 a + 1 - E) * 2 ^ E).
    { rewrite <- Qpower_plus by exact two_neq_0.
      replace (ilog2 a + 1 - E + E)%Z with (ilog2 a + 1)%Z by lia. reflexivity. }
    rewrite Hp.
    apply Qmult_le_compat_r; [|apply Qlt_le_weak, pow2_pos].
    rewrite <- (pow2_Z (ilog2 a + 1 - E)) by lia. rewrite <- Zle_Qle. exact Hm.
  - rewrite Z.max_r by lia.
    assert (Hm : (round_half_even (a / 2 ^ E) <= 1)%Z).
    { apply round_half_even_le_Z.
      eapply Qle_trans; [apply scaled_le, Qlt_le_weak, H2|].
      change (inject_Z 1) with (2 ^ 0). apply pow2_le. lia. }
    apply Qle_trans with (1 * 2 ^ E); [|rewrite Qmult_1_l; apply Qle_refl].
    apply Qmult_le_compat_r; [|apply Qlt_le_weak, pow2_pos].
    change 1 with (inject_Z 1). rewrite <- Zle_Qle. exact Hm.
Qed.

(** Rounding keeps the order. *)
Lemma nearest_le_compat (a b : Q) : 0 < a -> a <= b -> nearest a <= nearest b.
Proof.
  intros Ha Hab.
  assert (Hb : 0 < b) by (eapply Qlt_le_trans; eassumption).
  pose proof (last_place_le a b Ha Hab) as HE.
  pose proof (ilog2_le a b Ha Hab) as He.
  destruct (Z.eq_dec (last_place a) (last_place b)) as [E | E].
  - unfold nearest. rewrite E.
    apply Qmult_le_compat_r; [|apply Qlt_le_weak, pow2_pos].
    rewrite <- Zle_Qle. apply round_half_even_le.
    unfold Qdiv. apply Qmult_le_compat_r; [exact Hab|].
    apply Qlt_le_weak, Qinv_lt_0_compat, pow2_pos.
  - eapply Qle_trans; [apply nearest_le, Ha|].
    eapply Qle_trans; [|apply nearest_ge; [exact Hb|]];
      unfold last_place in *; [apply pow2_le|]; lia.
Qed.


(** What [round64] returns, by the sign of the number. *)
Lemma Qle_bool_comp (a b c d : Q) : a == c -> b == d -> Qle_bool a b = Qle_bool c d.
Proof.
  intros H1 H2. destruct (Qle_bool c d) eqn:E.
  - apply Qle_bool_iff. apply Qle_bool_iff in E. rewrite H1, H2. exact E.
  - destruct (Qle_bool a b) eqn:E'; [|reflexivity].
    apply Qle_bool_iff in E'. rewrite H1, H2 in E'. apply Qle_bool_iff in E'. congruence.
Qed.

Lemma Qle_bool_false (a b : Q) : b < a -> Qle_bool a b = false.
Proof.
  intros H. destruct (Qle_bool a b) eqn:E; [|reflexivity].
  apply Qle_bool_iff in E. exfalso. apply (Qlt_not_le _ _ H), E.
Qed.

Lemma round64_zero (q : Q) : q == 0 -> round64 q = Finite 0.
Proof.
  intros H. unfold round64. cbv zeta.
  assert (E : Qeq_bool (Qred q) 0 = true)
    by (apply Qeq_bool_iff; rewrite Qred_correct; exact H).
  rewrite E. reflexivity.
Qed.

Lemma round64_pos (q : Q) :
  0 < q ->
  round64 q = if Qle_bool (2 ^ 1024) (nearest q) then Infinity false
              else Finite (Qred (nearest q)).
Proof.
  intros H. unfold round64. cbv zeta.
  assert (Hr : 0 < Qred q) by (rewrite Qred_correct; exact H).
  assert (E : Qeq_bool (Qred q) 0 = false).
  { destruct (Qeq_bool (Qred q) 0) eqn:E; [|reflexivity].
    apply Qeq_bool_iff in E. rewrite E in Hr. discriminate Hr. }
  rewrite E, (Qle_bool_false _ _ Hr).
  assert (Hn : nearest (Qabs (Qred q)) == nearest q).
  { apply nearest_comp.
    - rewrite Qabs_pos by (apply Qlt_le_weak, Hr). exact Hr.
    - rewrite Qabs_pos by (apply Qlt_le_weak, Hr). apply Qred_correct. }
  rewrite (Qred_complete _ _ Hn).
  rewrite (Qle_bool_comp _ (Qred (nearest q)) _ (nearest q) (Qeq_refl _) (Qred_correct _)).
  reflexivity.
Qed.

Lemma round64_neg (q : Q) :
  q < 0 ->
  round64 q = if Qle_bool (2 ^ 1024) (nearest (- q)) then Infinity true
              else Finite (- Qred (nearest (- q))).
Proof.
  intros H. unfold round64. cbv zeta.
  assert (Hr : Qred q < 0) by (rewrite Qred_correct; exact H).
  assert (E : Qeq_bool (Qred q) 0 = false).
  { destruct (Qeq_bool (Qred q) 0) eqn:E; [|reflexivity].
    apply Qeq_bool_iff in E. rewrite E in Hr. discriminate Hr. }
  assert (E' : Qle_bool (Qred q) 0 = true) by (apply Qle_bool_iff, Qlt_le_weak, Hr).
  rewrite E, E'.
  assert (Hq : 0 < - q) by lra.
  assert (Hn : nearest (Qabs (Qred q)) == nearest (- q)).
  { assert (Ha : Qabs (Qred q) == - q)
      by (rewrite Qabs_neg by (apply Qlt_le_weak, Hr); rewrite Qred_correct; reflexivity).
    apply nearest_comp; [rewrite Ha; exact Hq | exact Ha]. }
  rewrite (Qred_complete _ _ Hn).
  rewrite (Qle_bool_comp _ (Qred (nearest (- q))) _ (nearest (- q))
             (Qeq_refl _) (Qred_correct _)).
  reflexivity.
Qed.

(** Rounding keeps the order, infinities included. *)
Lemma round64_le (q1 q2 : Q) : q1 <= q2 -> fle (round64 q1) (round64 q2) = true.
Proof.
  intros H.
  destruct (Q_dec q1 0) as [[H1 | H1] | H1]; destruct (Q_dec q2 0) as [[H2 | H2] | H2];
    try (exfalso; lra).
  - rewrite (round64_neg q1 H1), (round64_neg q2 H2).
    assert (Hn : nearest (- q2) <= nearest (- q1)) by (apply nearest_le_compat; lra).
    destruct (Qle_bool (2 ^ 1024) (nearest (- q1))) eqn:E1;
      destruct (Qle_bool (2 ^ 1024) (nearest (- q2))) eqn:E2; try reflexivity.
    + exfalso. apply Qle_bool_iff in E2.
      assert (Qle_bool (2 ^ 1024) (nearest (- q1)) = true) by (apply Qle_bool_iff; lra).
      congruence.
    + unfold fle. apply Qle_bool_iff. rewrite !Qred_correct. lra.
  - rewrite (round64_neg q1 H1), (round64_pos q2 H2).
    pose proof (nearest_nonneg (- q1)) as Hn1. pose proof (nearest_nonneg q2) as Hn2.
    destruct (Qle_bool (2 ^ 1024) (nearest (- q1)));
      destruct (Qle_bool (2 ^ 1024) (nearest q2)); try reflexivity.
    unfold fle. apply Qle_bool_iff. rewrite !Qred_correct.
    assert (0 <= nearest (- q1)) by (apply Hn1; lra).
    assert (0 <= nearest q2) by (apply Hn2; lra). lra.
  - rewrite (round64_neg q1 H1), (round64_zero q2 H2).
    pose proof (nearest_nonneg (- q1)) as Hn1.
    destruct (Qle_bool (2 ^ 1024) (nearest (- q1))); try reflexivity.
    unfold fle. apply Qle_bool_iff. rewrite !Qred_correct.
    assert (0 <= nearest (- q1)) by (apply Hn1; lra). lra.
  - rewrite (round64_pos q1 H1), (round64_pos q2 H2).
    assert (Hn : nearest q1 <= nearest q2) by (apply nearest_le_compat; lra).
    destruct (Qle_bool (2 ^ 1024) (nearest q1)) eqn:E1;
      destruct (Qle_bool (2 ^ 1024) (nearest q2)) eqn:E2; try reflexivity.
    + exfalso. apply Qle_bool_iff in E1.
      assert (Qle_bool (2 ^ 1024) (nearest q2) = true) by (apply Qle_bool_iff; lra).
      congruence.
    + unfold fle. apply Qle_bool_iff. rewrite !Qred_correct. exact Hn.
  - rewrite (round64_zero q1 H1), (round64_pos q2 H2).
    pose proof (nearest_nonneg q2) as Hn2.
    destruct (Qle_bool (2 ^ 1024) (nearest q2)); try reflexivity.
    unfold fle. apply Qle_bool_iff. rewrite !Qred_correct. apply Hn2. lra.
  - rewrite (round64_zero q1 H1), (round64_zero q2 H2). reflexivity.
Qed.


Lemma round64_never_nan (q : Q) : round64 q <> NaN.
Proof.
  unfold round64. cbv zeta. destruct (Qeq_bool _ _); [discriminate|].
  destruct (Qle_bool (2 ^ 1024) _); discriminate.
Qed.

(** A number between two finite numbers is finite. *)
Lemma between_finite (x : float64) (lo hi : Q) :
  fle (Finite lo) x = true -> fle x (Finite hi) = true ->
  exists r, x = Finite r /\ lo <= r /\ r <= hi.
Proof.
  destruct x as [r | s |]; simpl; [| |discriminate].
  - intros H1 H2. apply Qle_bool_iff in H1, H2. eauto.
  - destruct s; discriminate.
Qed.

Lemma round64_between (q lo hi : Q) :
  round64 lo = Finite lo -> round64 hi = Finite hi -> lo <= q -> q <= hi ->
  exists r, round64 q = Finite r /\ lo <= r /\ r <= hi.
Proof.
  intros Hlo Hhi H1 H2. apply between_finite.
  - rewrite <- Hlo. apply round64_le, H1.
  - rewrite <- Hhi. apply round64_le, H2.
Qed.

Lemma round64_0 : round64 0 = Finite 0.
Proof. apply round64_zero. reflexivity. Qed.

Lemma round64_1 : round64 1 = Finite 1.
Proof. vm_compute. reflexivity. Qed.

Lemma round64_m1 : round64 (- (1)) = Finite (- (1)).
Proof. vm_compute. reflexivity. Qed.

Lemma round64_2p63 : round64 (inject_Z (2 ^ 63)) = Finite (inject_Z (2 ^ 63)).
Proof. vm_compute. reflexivity. Qed.

Lemma round64_m2p63 : round64 (inject_Z (- 2 ^ 63)) = Finite (inject_Z (- 2 ^ 63)).
Proof. vm_compute. reflexivity. Qed.

(** The quotient of a number by a greater one of the same sign. *)
Lemma fdiv_fraction (n w : float64) :
  fle (Finite 0) n = true -> fle n w = true -> not_infinite (fdiv n w).
Proof.
  intros H0 Hnw s. destruct w as [wq | sw |].
  - destruct (between_finite n 0 wq H0 Hnw) as (nq & -> & Hn0 & Hnw').
    unfold fdiv. destruct (Qeq_bool wq 0) eqn:E.
    + apply Qeq_bool_iff in E.
      assert (E' : Qeq_bool nq 0 = true) by (apply Qeq_bool_iff; lra).
      rewrite E'. discriminate.
    + assert (Hw : 0 < wq).
      { apply Qle_lt_or_eq in Hn0. destruct (Qle_lt_or_eq 0 wq) as [H | H]; [lra | exact H|].
        apply Qeq_sym, Qeq_bool_iff in H. congruence. }
      destruct (round64_between (nq / wq) 0 1 round64_0 round64_1) as (r & -> & _).
      * apply Qle_shift_div_l; [exact Hw | lra].
      * apply Qle_shift_div_r; [exact Hw | lra].
      * discriminate.
  - destruct n as [nq | sn |]; simpl; discriminate.
  - destruct n as [nq | sn |]; simpl in *; discriminate.
Qed.

Lemma present_In {A : Type} (xs : list (option A)) (v : A) :
  In (Some v) xs -> In v (present xs).
Proof.
  induction xs as [|[x|] xs IH]; simpl; [tauto | |].
  - intros [[= ->] | H]; [left; reflexivity | right; apply IH, H].
  - intros [H | H]; [discriminate | apply IH, H].
Qed.

Lemma Qminimum_le_r (a b : Q) : Qminimum a b <= b.
Proof.
  unfold Qminimum. destruct (Qle_bool a b) eqn:E; [apply Qle_bool_iff, E | apply Qle_refl].
Qed.

Lemma Qmaximum_ge_r (a b : Q) : b <= Qmaximum a b.
Proof.
  unfold Qmaximum. destruct (Qle_bool a b) eqn:E; [apply Qle_refl|].
  destruct (Qlt_le_dec a b) as [H | H]; [|exact H].
  apply Qlt_le_weak, Qle_bool_iff in H. congruence.
Qed.

Lemma fold_min_le_In (rest : list Q) (x y : Q) :
  In y (x :: rest) -> fold_left Qminimum rest x <= y.
Proof.
  revert x; induction rest as [|z rest IH]; intros x [<- | H]; simpl.
  - apply Qle_refl.
  - destruct H.
  - eapply Qle_trans; [apply fold_min_le | apply Qminimum_le_l].
  - destruct H as [<- | H].
    + eapply Qle_trans; [apply fold_min_le | apply Qminimum_le_r].
    + apply IH. right. exact H.
Qed.

Lemma fold_max_ge_In (rest : list Q) (x y : Q) :
  In y (x :: rest) -> y <= fold_left Qmaximum rest x.
Proof.
  revert x; induction rest as [|z rest IH]; intros x [<- | H]; simpl.
  - apply Qle_refl.
  - destruct H.
  - eapply Qle_trans; [apply Qmaximum_ge_l | apply fold_max_ge].
  - destruct H as [<- | H].
    + eapply Qle_trans; [apply Qmaximum_ge_r | apply fold_max_ge].
    + apply IH. right. exact H.
Qed.

End Rounding.

Lemma fold_min_Z_init (rest : list Z) (x : Z) : (fold_left Z.min rest x <= x)%Z.
Proof.
  revert x; induction rest as [|z rest IH]; intros x; simpl; [lia|].
  specialize (IH (Z.min x z)). lia.
Qed.

Lemma fold_max_Z_init (rest : list Z) (x : Z) : (x <= fold_left Z.max rest x)%Z.
Proof.
  revert x; induction rest as [|z rest IH]; intros x; simpl; [lia|].
  specialize (IH (Z.max x z)). lia.
Qed.

Lemma fold_min_Z_le (rest : list Z) (x y : Z) :
  In y (x :: rest) -> (fold_left Z.min rest x <= y)%Z.
Proof.
  revert x; induction rest as [|z rest IH]; intros x [<- | H]; simpl.
  - lia.
  - destruct H.
  - pose proof (fold_min_Z_init rest (Z.min x z)). lia.
  - destruct H as [<- | H].
    + pose proof (fold_min_Z_init rest (Z.min x z)). lia.
    + apply IH. right. exact H.
Qed.

Lemma fold_max_Z_ge (rest : list Z) (x y : Z) :
  In y (x :: rest) -> (y <= fold_left Z.max rest x)%Z.
Proof.
  revert x; induction rest as [|z rest IH]; intros x [<- | H]; simpl.
  - lia.
  - destruct H.
  - pose proof (fold_max_Z_init rest (Z.max x z)). lia.
  - destruct H as [<- | H].
    + pose proof (fold_max_Z_init rest (Z.max x z)). lia.
    + apply IH. right. exact H.
Qed.

Lemma fold_min_Z_In (rest : list Z) (x : Z) : In (fold_left Z.min rest x) (x :: rest).
Proof.
  revert x; induction rest as [|z rest IH]; intros x; simpl; [left; reflexivity|].
  destruct (IH (Z.min x z)) as [H | H]; [|right; right; exact H].
  rewrite <- H. destruct (Z.min_spec x z) as [[_ ->] | [_ ->]]; auto.
Qed.

Lemma fold_max_Z_In (rest : list Z) (x : Z) : In (fold_left Z.max rest x) (x :: rest).
Proof.
  revert x; induction rest as [|z rest IH]; intros x; simpl; [left; reflexivity|].
  destruct (IH (Z.max x z)) as [H | H]; [|right; right; exact H].
  rewrite <- H. destruct (Z.max_spec x z) as [[_ ->] | [_ ->]]; auto.
Qed.

Lemma wrap64_range (z : Z) : (- 2 ^ 63 <= wrap64 z < 2 ^ 63)%Z.
Proof.
  unfold wrap64. pose proof (Z.mod_pos_bound (z + 2 ^ 63) (2 ^ 64)). lia.
Qed.

Lemma wrap64_nonzero (z : Z) : (0 < z < 2 ^ 64)%Z -> wrap64 z <> 0%Z.
Proof.
  intros H. unfold wrap64.
  destruct (Z.lt_ge_cases z (2 ^ 63)) as [Hlt | Hge].
  - rewrite Z.mod_small by lia. lia.
  - replace (z + 2 ^ 63)%Z with ((z - 2 ^ 63) + 1 * 2 ^ 64)%Z by lia.
    rewrite Z.mod_add by lia. rewrite Z.mod_small by lia. lia.
Qed.

Section Quotients.
Local Open Scope Q_scope.

Lemma of_int_int64 (z : Z) :
  (- 2 ^ 63 <= z <= 2 ^ 63)%Z ->
  exists r, of_int z = Finite r /\ inject_Z (- 2 ^ 63) <= r /\ r <= inject_Z (2 ^ 63).
Proof.
  intros H. unfold of_int.
  apply round64_between; [exact round64_m2p63 | exact round64_2p63 | |];
    rewrite <- Zle_Qle; lia.
Qed.

Lemma of_int_positive (z : Z) :
  (1 <= z <= 2 ^ 63)%Z -> exists r, of_int z = Finite r /\ 1 <= r.
Proof.
  intros H. unfold of_int.
  destruct (round64_between (inject_Z z) 1 (inject_Z (2 ^ 63)) round64_1 round64_2p63)
    as (r & Hr & H1 & _).
  - change 1 with (inject_Z 1). rewrite <- Zle_Qle. lia.
  - rewrite <- Zle_Qle. lia.
  - eauto.
Qed.

Lemma of_int_negative (z : Z) :
  (- 2 ^ 63 <= z <= - 1)%Z -> exists r, of_int z = Finite r /\ r <= - (1).
Proof.
  intros H. unfold of_int.
  destruct (round64_between (inject_Z z) (inject_Z (- 2 ^ 63)) (- (1))
              round64_m2p63 round64_m1) as (r & Hr & _ & H1).
  - rewrite <- Zle_Qle. lia.
  - change (- (1)) with (inject_Z (- 1)). rewrite <- Zle_Qle. lia.
  - eauto.
Qed.

(** The quotient of two [int64] numbers, the second one not zero. *)
Lemma fdiv_int64 (n w : Z) :
  (- 2 ^ 63 <= n < 2 ^ 63)%Z -> (- 2 ^ 63 <= w < 2 ^ 63)%Z -> w <> 0%Z ->
  not_infinite (fdiv (of_int n) (of_int w)).
Proof.
  intros Hn Hw Hw0 s.
  destruct (of_int_int64 n) as (nq & -> & Hn1 & Hn2); [lia|].
  assert (Hb : inject_Z (2 ^ 63) == 9223372036854775808) by reflexivity.
  assert (Hb' : inject_Z (- 2 ^ 63) == - 9223372036854775808) by reflexivity.
  rewrite Hb in Hn2. rewrite Hb' in Hn1.
  assert (Hq : exists wq, of_int w = Finite wq /\ (1 <= wq \/ wq <= - (1))).
  { destruct (Z.lt_ge_cases w 0) as [H | H].
    - destruct (of_int_negative w) as (wq & Hwq & H1); [lia | eauto].
    - destruct (of_int_positive w) as (wq & Hwq & H1); [lia | eauto]. }
  destruct Hq as (wq & -> & Hwq).
  unfold fdiv.
  assert (E : Qeq_bool wq 0 = false).
  { destruct (Qeq_bool wq 0) eqn:E; [|reflexivity].
    apply Qeq_bool_iff in E. exfalso. destruct Hwq; lra. }
  rewrite E.
  assert (Hinv : wq * / wq == 1) by (apply Qmult_inv_r; intros H; destruct Hwq; lra).
  assert (Hbound : inject_Z (- 2 ^ 63) <= nq / wq /\ nq / wq <= inject_Z (2 ^ 63)).
  { rewrite Hb, Hb'. unfold Qdiv. set (i := / wq) in *.
    destruct Hwq as [Hp | Hp].
    - assert (0 < i) by nra. assert (i <= 1) by nra. split; nra.
    - assert (i < 0) by nra. assert (- (1) <= i) by nra. split; nra. }
  destruct (round64_between (nq / wq) _ _ round64_m2p63 round64_2p63
              (proj1 Hbound) (proj2 Hbound)) as (r & -> & _).
  discriminate.
Qed.

(** [rescale] yields no infinity: the values it stores are finite
    numbers and NaN. *)
Lemma rescale_yields_no_infinity (v : values) (ys : list float64) :
  int64_cells v -> rescale v = Some ys -> Forall not_infinite ys.
Proof.
  unfold rescale. destruct v as [xs | zs |]; [| |discriminate]; intros Hv.
  - destruct (series_min xs) as [mn|] eqn:Hmin.
    2:{ intros [= <-]. apply Forall_forall. intros y Hy.
        apply in_map_iff in Hy. destruct Hy as (x & <- & _). intros s. discriminate. }
    destruct (series_max xs) as [mx|] eqn:Hmax.
    2:{ intros [= <-]. apply Forall_forall. intros y Hy.
        apply in_map_iff in Hy. destruct Hy as (x & <- & _). intros s. discriminate. }
    destruct (Qeq_bool mx mn); [discriminate|]. intros [= <-].
    apply Forall_forall. intros y Hy.
    apply in_map_iff in Hy. destruct Hy as (x & <- & Hx).
    destruct x as [x|]; [|intros s; simpl; discriminate].
    unfold series_min, series_max in Hmin, Hmax.
    pose proof (present_In xs x Hx) as Hp.
    destruct (present xs) as [|p rest]; [discriminate|].
    injection Hmin as <-. injection Hmax as <-.
    pose proof (fold_min_le_In rest p x Hp) as H1.
    pose proof (fold_max_ge_In rest p x Hp) as H2.
    apply fdiv_fraction; unfold fsub, fadd, of_cell, fneg.
    + rewrite <- round64_0. apply round64_le. lra.
    + apply round64_le. lra.
  - simpl in Hv.
    destruct (int_min zs) as [mn|] eqn:Hmin; [|intros [= <-]; constructor].
    destruct (int_max zs) as [mx|] eqn:Hmax; [|intros [= <-]; constructor].
    destruct (Z.eqb_spec mx mn) as [E | E]; [discriminate|].
    intros [= <-]. apply Forall_forall. intros y Hy.
    apply in_map_iff in Hy. destruct Hy as (z & <- & Hz).
    destruct zs as [|z0 zs]; [destruct Hz|].
    cbn [int_min int_max] in Hmin, Hmax. injection Hmin as <-. injection Hmax as <-.
    rewrite Forall_forall in Hv.
    pose proof (Hv _ (fold_min_Z_In zs z0)) as Hmn.
    pose proof (Hv _ (fold_max_Z_In zs z0)) as Hmx.
    pose proof (fold_min_Z_le zs z0 z0 (or_introl eq_refl)) as H1.
    pose proof (fold_max_Z_ge zs z0 z0 (or_introl eq_refl)) as H2.
    apply fdiv_int64; [apply wrap64_range | apply wrap64_range |].
    apply wrap64_nonzero. lia.
Qed.

End Quotients.

Lemma len_lengths (df : DataFrame) : len df = hd 0%nat (lengths df).
Proof. destruct df; reflexivity. Qed.

Lemma lengths_setitem (s : string) (new : values) (df : DataFrame) (c : column) :
  find_column s df = Some c ->
  vlen new = vlen (data c) ->
  lengths (setitem s new df) = lengths df.
Proof.
  intros Hf Hn. induction df as [|c' df IH]; simpl in *; [reflexivity|].
  destruct (String.eqb s (name c')).
  - injection Hf as ->. simpl. rewrite Hn. reflexivity.
  - simpl. f_equal. apply IH, Hf.
Qed.

Lemma normalizacion_loop_lengths (cols : list json) (df df' : DataFrame) :
  normalizacion_loop cols df = Ok df' ->
  columns df' = columns df /\ lengths df' = lengths df.
Proof.
  revert df; induction cols as [|col cols IH]; simpl; intros df H.
  - injection H as <-. split; reflexivity.
  - bind_inv H. destruct (numeric (data a)) as [xs|] eqn:Hnum; [|apply IH, H].
    destruct (rescale (data a)) as [ys|] eqn:Hres; [|apply IH, H].
    destruct (IH _ H) as [Hc Hl]. split.
    + rewrite Hc. apply columns_setitem.
    + rewrite Hl. apply lengths_setitem with (c := a).
      * apply getitem_find with (key := col), Ha.
      * simpl. rewrite length_map. apply (rescale_length _ _ Hres).
Qed.

Lemma normalizacion_loop_total (cols : list json) (df : DataFrame) :
  all_present df cols = true -> exists df', normalizacion_loop cols df = Ok df'.
Proof.
  revert df; induction cols as [|col cols IH]; simpl; intros df H; [eauto|].
  unfold lookup_kind in H.
  destruct (getitem df col) as [c|] eqn:Hg; [|discriminate]. simpl in *.
  destruct (numeric (data c)) as [xs|] eqn:Hnum; [|apply IH, H].
  destruct (rescale (data c)) as [ys|]; [|apply IH, H].
  apply IH. rewrite <- H. apply all_present_kinds.
  apply kinds_setitem with (c := c); [apply getitem_find with (key := col), Hg|].
  rewrite (numeric_is_numeric (data c)), Hnum. reflexivity.
Qed.

(** C7.  [normalizacion] does not always leave a rescaled column between
    0 and 1.  On an [int64] column whose greatest and least values are
    [2 ^ 63] or more apart, the differences [v - min] and [max - min] wrap
    around before they are divided: the column of [-2 ^ 63], [-2 ^ 62] and
    [2 ^ 63 - 1] is stored as 0, [-2 ^ 62] and 1, so that it holds a
    negative value and its least value is not 0.  No row is removed and
    the operation reports 0. *)
Theorem normalizacion_wraps_around :
  exists ys,
    aplicar extremos (JStr "normalizacion") (JObj [])
    = Ok ([Column "saldo" (Floats ys)], 0%Z)
    /\ ys = [Some 0; Some (-4611686018427387904); Some 1]%Q
    /\ int_min [-9223372036854775808; -4611686018427387904; 9223372036854775807]%Z
       = Some (-9223372036854775808)%Z
    /\ int_max [-9223372036854775808; -4611686018427387904; 9223372036854775807]%Z
       = Some 9223372036854775807%Z
    /\ wrap64 (9223372036854775807 - -9223372036854775808)%Z = (-1)%Z
    /\ exists y, In (Some y) ys /\ (y < 0)%Q.
Proof.
  exists [Some 0; Some (-4611686018427387904); Some 1]%Q.
  split; [vm_compute; reflexivity|]. split; [reflexivity|].
  split; [reflexivity|]. split; [reflexivity|]. split; [reflexivity|].
  exists (-4611686018427387904)%Q. split; [right; left; reflexivity | reflexivity].
Qed.

(** ** C1 and C10: outliers *)

Section Sorting.
Context {A : Type} (leb : A -> A -> bool) (le : A -> A -> Prop).
Hypothesis leb_le : forall a b, leb a b = true -> le a b.
Hypothesis leb_total : forall a b, leb a b = false -> le b a.
Hypothesis le_trans : forall a b c, le a b -> le b c -> le a c.

Lemma insert_sorted_Forall (P : A -> Prop) (x : A) (l : list A) :
  P x -> Forall P l -> Forall P (insert_sorted leb x l).
Proof.
  intros Hx. induction 1 as [|y l Hy Hl IH]; simpl; [auto|].
  destruct (leb x y); auto.
Qed.

Lemma insert_sorted_sorted (x : A) (l : list A) :
  StronglySorted le l -> StronglySorted le (insert_sorted leb x l).
Proof.
  induction 1 as [|y l Hl IH Hy]; simpl; [repeat constructor|].
  destruct (leb x y) eqn:E.
  - apply leb_le in E. constructor; [constructor; assumption|].
    constructor; [exact E|]. eapply Forall_impl; [|exact Hy].
    intros z Hz. eapply le_trans; eassumption.
  - constructor; [exact IH|]. apply insert_sorted_Forall; [|exact Hy].
    apply leb_total, E.
Qed.

Lemma insert_sorted_permutation (x : A) (l : list A) :
  Permutation (x :: l) (insert_sorted leb x l).
Proof.
  induction l as [|y l IH]; simpl; [reflexivity|].
  destruct (leb x y); [reflexivity|].
  rewrite perm_swap. constructor. exact IH.
Qed.

(** Sorting rearranges the values into ascending order. *)
Lemma sort_values_ascending (l : list A) : ascending le l (sort_values leb l).
Proof.
  split.
  - induction l as [|x l IH]; simpl; [constructor|].
    rewrite <- insert_sorted_permutation. constructor. exact IH.
  - induction l as [|x l IH]; simpl; [constructor | apply insert_sorted_sorted, IH].
Qed.

End Sorting.

Lemma sort_values_Q (l : list Q) : ascending Qle l (sort_values Qle_bool l).
Proof.
  apply sort_values_ascending.
  - intros a b. apply Qle_bool_iff.
  - intros a b E. destruct (Qlt_le_dec a b) as [H | H]; [|exact H].
    apply Qlt_le_weak, Qle_bool_iff in H. congruence.
  - intros a b c. apply Qle_trans.
Qed.

Lemma sort_values_Z (l : list Z) : ascending Z.le l (sort_values Z.leb l).
Proof.
  apply sort_values_ascending.
  - intros a b. apply Z.leb_le.
  - intros a b E. apply Z.leb_gt in E. lia.
  - intros a b c. apply Z.le_trans.
Qed.

Lemma ascending_nonempty {A : Type} (le : A -> A -> Prop) (vs s : list A) :
  ascending le vs s -> vs <> [] -> s <> [].
Proof.
  intros [Hp _] Hne ->. apply Hne. apply Permutation_nil. symmetry. exact Hp.
Qed.

(** The position of a quantile between 0 and 1 falls on the sorted
    values. *)
Lemma neighbours_around {A : Type} (s : list A) (q : Q) :
  (0 <= q)%Q -> (q <= 1)%Q -> s <> [] ->
  exists a b t, neighbours s q = Some (a, b, t) /\ around s q a b t.
Proof.
  intros H0 H1 Hne. destruct s as [|x0 s']; [congruence|].
  unfold neighbours, around.
  set (s := x0 :: s').
  set (N := inject_Z (Z.of_nat (List.length s) - 1)).
  assert (Hlen : (1 <= List.length s)%nat) by (simpl; lia).
  assert (HN : (0 <= N)%Q) by (unfold N; rewrite <- (Zle_Qle 0); lia).
  assert (Hh : (N * q <= N)%Q) by nra.
  pose proof (Qfloor_resp_le _ _ Hh) as Hfl. unfold N in Hfl at 2. rewrite Qfloor_Z in Hfl.
  do 3 eexists. split; [reflexivity|]. cbv zeta.
  split; [|split; reflexivity].
  apply nth_error_nth'. lia.
Qed.

Lemma lerp_interpolation (a b d : float64) (t : Q) : lerp a b d t = interpolation a b d t.
Proof.
  unfold lerp, interpolation.
  destruct (Qle_bool (1 # 2) t) eqn:E.
  - apply Qle_bool_iff in E. destruct (Qcompare_spec t (1 # 2)) as [H | H | H];
      try reflexivity. exfalso. apply (Qlt_not_le _ _ H), E.
  - destruct (Qcompare_spec t (1 # 2)) as [H | H | H]; [| reflexivity |].
    + assert (E' : Qle_bool (1 # 2) t = true)
        by (apply Qle_bool_iff; rewrite H; apply Qle_refl).
      congruence.
    + apply Qlt_le_weak, Qle_bool_iff in H. congruence.
Qed.

(** What [quantile] returns on a numeric column is its quantile. *)
Lemma quantile_is_quantile (v : values) (q : Q) :
  is_numeric v = true -> (0 <= q)%Q -> (q <= 1)%Q -> is_quantile v q (quantile v q).
Proof.
  intros Hnum H0 H1. destruct v as [xs | zs |]; [| |discriminate]; simpl.
  - pose proof (sort_values_Q (present xs)) as Hs.
    destruct (present xs) as [|x rest] eqn:Hp; [left; split; reflexivity|].
    right.
    destruct (neighbours_around (sort_values Qle_bool (x :: rest)) q H0 H1)
      as (a & b & t & Hn & Ha).
    { eapply ascending_nonempty; [exact Hs | discriminate]. }
    rewrite Hn. exists (sort_values Qle_bool (x :: rest)), a, b, t.
    split; [exact Hs|]. split; [exact Ha | apply lerp_interpolation].
  - pose proof (sort_values_Z zs) as Hs.
    destruct zs as [|z rest]; [left; split; reflexivity|].
    right.
    destruct (neighbours_around (sort_values Z.leb (z :: rest)) q H0 H1)
      as (a & b & t & Hn & Ha).
    { eapply ascending_nonempty; [exact Hs | discriminate]. }
    rewrite Hn. exists (sort_values Z.leb (z :: rest)), a, b, t.
    split; [exact Hs|]. split; [exact Ha | apply lerp_interpolation].
Qed.

Lemma within_iff (umbral : float64) (v : values) (x : float64) :
  within (outlier_bounds umbral v) x = true
  <-> in_bounds umbral (quantile v (1 # 4)) (quantile v (3 # 4)) x.
Proof.
  unfold within, outlier_bounds, in_bounds. cbn [fst snd].
  rewrite andb_true_iff. reflexivity.
Qed.

Lemma within_missing (bounds : float64 * float64) : within bounds NaN = false.
Proof. unfold within. destruct (fst bounds); reflexivity. Qed.

Lemma round64_not_nan (q : Q) : is_nan (round64 q) = false.
Proof.
  unfold round64. destruct (Qeq_bool _ _); [reflexivity|].
  destruct (Qle_bool (2 ^ 1024) _); reflexivity.
Qed.

Lemma as_float64_length (v : values) :
  is_numeric v = true -> List.length (as_float64 v) = vlen v.
Proof. destruct v; simpl; [intros _; apply length_map .. | discriminate]. Qed.

Lemma outlier_mask_length (umbral : float64) (v : values) :
  is_numeric v = true -> List.length (outlier_mask umbral v) = vlen v.
Proof.
  intros Hnum. unfold outlier_mask. rewrite length_map. apply as_float64_length, Hnum.
Qed.

Lemma outlier_mask_nth (umbral : float64) (v : values) (i : nat) (d : bool) :
  (i < List.length (as_float64 v))%nat ->
  nth i (outlier_mask umbral v) d = within (outlier_bounds umbral v) (nth i (as_float64 v) NaN).
Proof.
  intros Hi. unfold outlier_mask.
  rewrite (nth_indep _ d (within (outlier_bounds umbral v) NaN))
    by (rewrite length_map; exact Hi).
  apply map_nth.
Qed.

Lemma column_length (df : DataFrame) (col : json) (c : column) :
  uniform df -> getitem df col = Ok c -> vlen (data c) = len df.
Proof.
  intros Hu Hg. destruct (getitem_In df col c Hg) as [Hin _].
  unfold uniform in Hu. rewrite Forall_forall in Hu. apply Hu, Hin.
Qed.

Lemma filter_rows_filtered_by (umbral : float64) (v : values) (df : DataFrame) :
  uniform df -> is_numeric v = true -> vlen v = len df ->
  filtered_by umbral v df (filter_rows (outlier_mask umbral v) df).
Proof.
  intros Hu Hnum Hlen.
  assert (Hm : List.length (outlier_mask umbral v) = len df)
    by (rewrite outlier_mask_length by exact Hnum; exact Hlen).
  assert (Hq : forall q, (q = 1 # 4 \/ q = 3 # 4)%Q -> is_quantile v q (quantile v q)).
  { intros q [-> | ->]; apply quantile_is_quantile; try exact Hnum;
      unfold Qle; simpl; lia. }
  split; [apply columns_filter_rows|]. split; [apply uniform_filter_rows, Hu|].
  exists (quantile v (1 # 4)), (quantile v (3 # 4)), (outlier_mask umbral v).
  split; [apply Hq; left; reflexivity|]. split; [apply Hq; right; reflexivity|].
  split; [exact Hm|].
  split; [apply rows_filter_rows; assumption|].
  intros i Hi. rewrite outlier_mask_nth
    by (rewrite as_float64_length by exact Hnum; lia).
  apply within_iff.
Qed.

Lemma outliers_loop_sequential (umbral : json) (u : float64) (cols : list json)
    (df : DataFrame) :
  as_number umbral = Ok u ->
  uniform df ->
  all_present df cols = true ->
  exists df', outliers_loop umbral cols df = Ok df'
              /\ sequentially_filtered u cols df df'
              /\ (len df' <= len df)%nat.
Proof.
  intros Hu. revert df; induction cols as [|col cols IH]; simpl; intros df Hun Hall.
  - exists df. split; [reflexivity|]. split; [constructor | lia].
  - unfold lookup_kind in Hall.
    destruct (getitem df col) as [c|] eqn:Hg; [|discriminate]. simpl in *.
    pose proof (numeric_is_numeric (data c)) as Hkind.
    destruct (numeric (data c)) as [xs|] eqn:Hnum.
    + rewrite Hu. simpl.
      set (df1 := filter_rows (outlier_mask u (data c)) df).
      destruct (IH df1) as (df' & Hloop & Hsf & Hle).
      * apply uniform_filter_rows, Hun.
      * rewrite <- Hall. apply all_present_kinds, kinds_filter_rows.
      * exists df'. split; [exact Hloop|]. split.
        -- eapply sf_filter; [exact Hg | exact Hkind | | exact Hsf].
           apply filter_rows_filtered_by; [exact Hun | exact Hkind |].
           eapply column_length; eassumption.
        -- pose proof (len_filter_rows_le (outlier_mask u (data c)) df) as H.
           fold df1 in H. lia.
    + destruct (IH df Hun Hall) as (df' & Hloop & Hsf & Hle).
      exists df'. split; [exact Hloop|]. split; [|exact Hle].
      eapply sf_skip; eassumption.
Qed.

(** C1.  With a numeric [umbral] (default 1.5) and [columnas] a list of
    column names (default: the numeric columns), [outliers] on a frame
    with columns of one length succeeds; its result is reached by
    filtering the listed numeric columns one after the other in the given
    order, each filter taking the quartiles Q1 and Q3 of the column in the
    frame the previous one left (its non-missing values in ascending
    order, interpolated linearly) and keeping exactly the rows whose value
    lies in [[Q1 - umbral * IQR, Q3 + umbral * IQR]], all in [float64]
    arithmetic; the reported count is the row count before the operation
    minus the row count after it. *)
Theorem outliers_filters_sequentially (df : DataFrame) (fields : list (string * json))
    (cols : list json) (umbral : json) (u : float64) :
  uniform df ->
  py_get (JObj fields) "columnas" (numeric_columns df) = Ok (JArr cols) ->
  py_get (JObj fields) "umbral" (JNum (3 # 2)) = Ok umbral ->
  as_number umbral = Ok u ->
  all_present df cols = true ->
  exists df',
    aplicar df (JStr "outliers") (JObj fields)
    = Ok (df', (Z.of_nat (len df) - Z.of_nat (len df'))%Z)
    /\ sequentially_filtered u cols df df'
    /\ (len df' <= len df)%nat.
Proof.
  intros Hun Hcols Humbral Hu Hall.
  destruct (outliers_loop_sequential umbral u cols df Hu Hun Hall) as (df' & Hloop & Hsf & Hle).
  exists df'. split; [|split; assumption].
  unfold aplicar. simpl is_str. cbv iota. rewrite Hcols. cbn [bind].
  rewrite Humbral. cbn [bind py_iter]. rewrite Hloop. reflexivity.
Qed.

(** On the readings 1.6, 2.7, 0.5 and 1.6 the quartiles are
    1.3250000000000002 and 1.875, and the lower bound comes out as
    0.5000000000000004, the upper one as 2.6999999999999997: the rows of
    0.5 and 2.7 are removed, which exact arithmetic on the same values
    would both keep.  The filter of [n] then sees 7 and 5 only, and
    removes nothing. *)
Lemma outliers_filters_sequentially_witness :
  aplicar lecturas (JStr "outliers") (JObj [])
  = Ok ([ Column "t" (Floats [leido (16 # 10); leido (16 # 10)]);
          Column "n" (Ints [7; 5]%Z) ], 2%Z)
  /\ outlier_bounds (Finite (3 # 2))
       (Floats [leido (16 # 10); leido (27 # 10); leido (5 # 10); leido (16 # 10)])
     = (Finite (1125899906842625 # 2251799813685248),
        Finite (6079859496950169 # 2251799813685248))
  /\ sequentially_filtered (Finite (3 # 2)) [JStr "t"; JStr "n"] lecturas
       [ Column "t" (Floats [leido (16 # 10); leido (16 # 10)]);
         Column "n" (Ints [7; 5]%Z) ].
Proof.
  assert (Hun : uniform lecturas) by (repeat constructor).
  assert (Hu : as_number (JNum (3 # 2)) = Ok (Finite (3 # 2))) by (vm_compute; reflexivity).
  assert (Hap : aplicar lecturas (JStr "outliers") (JObj [])
                = Ok ([ Column "t" (Floats [leido (16 # 10); leido (16 # 10)]);
                        Column "n" (Ints [7; 5]%Z) ], 2%Z))
    by (vm_compute; reflexivity).
  destruct (outliers_filters_sequentially lecturas [] [JStr "t"; JStr "n"]
              (JNum (3 # 2)) (Finite (3 # 2)) Hun eq_refl eq_refl Hu eq_refl)
    as (df' & Hap' & Hsf & _).
  rewrite Hap in Hap'. injection Hap' as <-.
  split; [exact Hap|]. split; [vm_compute; reflexivity | exact Hsf].
Defined.

Lemma count_missing_as_float64 (v : values) (xs : list (option Q)) :
  numeric v = Some xs ->
  count_true (map is_nan (as_float64 v)) = count_missing xs.
Proof.
  unfold count_missing, count_true.
  destruct v as [ys | zs |]; simpl; intros [= <-].
  - induction ys as [|[y|] ys IH]; simpl; [reflexivity | exact IH |].
    f_equal. exact IH.
  - induction zs as [|z zs IH]; simpl; [reflexivity|].
    unfold of_int at 1. rewrite round64_not_nan. exact IH.
Qed.

Lemma outlier_mask_partition (umbral : float64) (v : values) (xs : list (option Q)) :
  numeric v = Some xs ->
  (count_true (outlier_mask umbral v) + count_missing xs + count_outside umbral v
   = List.length xs)%nat.
Proof.
  intros Hnum. rewrite <- (count_missing_as_float64 v xs Hnum).
  rewrite (numeric_length _ _ Hnum), <- (as_float64_length v)
    by (rewrite numeric_is_numeric, Hnum; reflexivity).
  unfold outlier_mask, count_outside, count_true.
  generalize (outlier_bounds umbral v) as bounds. intros bounds.
  induction (as_float64 v) as [|x l IH]; simpl; [reflexivity|].
  destruct x as [q | s |]; simpl.
  - destruct (within bounds (Finite q)); simpl; lia.
  - destruct (within bounds (Infinity s)); simpl; lia.
  - rewrite within_missing. simpl. lia.
Qed.

(** One column filter removes the rows with a missing cell and the rows
    with a value outside the bounds, and no other. *)
Lemma filter_step_count (umbral : float64) (v : values) (xs : list (option Q))
    (df : DataFrame) :
  df <> [] -> numeric v = Some xs -> vlen v = len df ->
  (len (filter_rows (outlier_mask umbral v) df)
   + (count_missing xs + count_outside umbral v) = len df)%nat.
Proof.
  intros Hne Hnum Hlen.
  assert (Hkind : is_numeric v = true) by (rewrite numeric_is_numeric, Hnum; reflexivity).
  destruct (len_filter_rows_full (outlier_mask umbral v) df) as [-> | ->].
  - rewrite outlier_mask_length by exact Hkind. exact Hlen.
  - pose proof (outlier_mask_partition umbral v xs Hnum) as H.
    rewrite (numeric_length _ _ Hnum) in H. lia.
  - contradiction.
Qed.

Lemma outliers_loop_removals (umbral : json) (u : float64) (cols : list json)
    (df df' : DataFrame) :
  as_number umbral = Ok u ->
  uniform df ->
  outliers_loop umbral cols df = Ok df' ->
  (len df' + removals u cols df = len df)%nat.
Proof.
  intros Hu. revert df; induction cols as [|col cols IH]; simpl; intros df Hun H.
  - injection H as <-. lia.
  - destruct (getitem df col) as [c|] eqn:Hg; [|discriminate]. simpl in H.
    destruct (numeric (data c)) as [xs|] eqn:Hnum; [|apply IH; assumption].
    rewrite Hu in H. simpl in H.
    apply IH in H; [|apply uniform_filter_rows, Hun].
    assert (Hne : df <> []).
    { destruct (getitem_In df col c Hg) as [Hin _]. intros ->. exact Hin. }
    pose proof (filter_step_count u (data c) xs df Hne Hnum (column_length df col c Hun Hg)).
    lia.
Qed.

(** C10.  In an outliers operation with a numeric [umbral] on a frame with
    columns of one length: when the loop reaches a numeric column, its
    filter drops every row whose cell in that column is missing (whatever
    the bounds are), the rows it removes are those and the rows with a
    value outside the bounds, and the reported count of the operation is
    the sum of these removals over the filters of the loop. *)
Theorem outliers_removes_missing (df df' : DataFrame) (fields : list (string * json))
    (cols : list json) (umbral : json) (u : float64) (afectados : Z) :
  uniform df ->
  py_get (JObj fields) "columnas" (numeric_columns df) = Ok (JArr cols) ->
  py_get (JObj fields) "umbral" (JNum (3 # 2)) = Ok umbral ->
  as_number umbral = Ok u ->
  aplicar df (JStr "outliers") (JObj fields) = Ok (df', afectados) ->
  afectados = Z.of_nat (removals u cols df)
  /\ forall col c xs rest frame,
       uniform frame ->
       getitem frame col = Ok c ->
       numeric (data c) = Some xs ->
       let kept := filter_rows (outlier_mask u (data c)) frame in
       outliers_loop umbral (col :: rest) frame = outliers_loop umbral rest kept
       /\ rows kept = select (outlier_mask u (data c)) (rows frame)
       /\ (forall i, (i < len frame)%nat -> nth i xs None = None ->
             nth i (outlier_mask u (data c)) true = false)
       /\ (len kept + (count_missing xs + count_outside u (data c)) = len frame)%nat.
Proof.
  intros Hun Hcols Humbral Hu Hap. split.
  - unfold aplicar in Hap. simpl is_str in Hap. cbv iota in Hap.
    rewrite Hcols in Hap. cbn [bind] in Hap. rewrite Humbral in Hap.
    cbn [bind py_iter] in Hap. bind_inv Hap. injection Hap as <- <-.
    pose proof (outliers_loop_removals umbral u cols df a Hu Hun Ha). unfold removed. lia.
  - intros col c xs rest frame Hf Hg Hnum kept.
    pose proof (column_length frame col c Hf Hg) as Hlen.
    assert (Hkind : is_numeric (data c) = true)
      by (rewrite numeric_is_numeric, Hnum; reflexivity).
    split; [|split; [|split]].
    + simpl. rewrite Hg. simpl. rewrite Hnum, Hu. reflexivity.
    + apply rows_filter_rows; [exact Hf|].
      rewrite outlier_mask_length by exact Hkind. exact Hlen.
    + intros i Hi Hmiss.
      rewrite outlier_mask_nth by (rewrite as_float64_length by exact Hkind; lia).
      replace (nth i (as_float64 (data c)) NaN) with NaN; [apply within_missing|].
      destruct (data c) as [ys | zs |]; simpl in *; [| |discriminate].
      * injection Hnum as <-. change NaN with (of_cell None) at 2.
        rewrite map_nth, Hmiss. reflexivity.
      * injection Hnum as <-. exfalso. revert Hmiss.
        rewrite (nth_indep _ None (Some (inject_Z 0))) by (rewrite length_map; lia).
        rewrite (map_nth (fun z => Some (inject_Z z))). discriminate.
    + apply filter_step_count; [|exact Hnum | exact Hlen].
      destruct (getitem_In frame col c Hg) as [Hin _]. intros ->. exact Hin.
Qed.

(** On the example frame the filter of column [b] removes the row whose
    [b] cell is missing, although no value of [b] is outside the bounds;
    with the row that column [a] removes, the operation reports 2. *)
Lemma outliers_removes_missing_witness :
  aplicar ejemplo (JStr "outliers") (JObj [])
  = Ok ([ Column "a" (Ints [1; 3; 4]%Z);
          Column "b" (Floats [Some (1 # 2); Some (1 # 2); Some 2]%Q);
          Column "c" (Objects [Some "x"; Some "x"; None]) ], 2%Z)
  /\ 2%Z = Z.of_nat (removals (Finite (3 # 2)) [JStr "a"; JStr "b"] ejemplo)
  /\ count_missing [Some (1 # 2); None; Some (1 # 2); Some 2]%Q = 1%nat
  /\ count_outside (Finite (3 # 2)) (Floats [Some (1 # 2); None; Some (1 # 2); Some 2]%Q)
     = 0%nat.
Proof.
  assert (Hun : uniform ejemplo) by (repeat constructor).
  assert (Hu : as_number (JNum (3 # 2)) = Ok (Finite (3 # 2))) by (vm_compute; reflexivity).
  assert (Hap : aplicar ejemplo (JStr "outliers") (JObj [])
                = Ok ([ Column "a" (Ints [1; 3; 4]%Z);
                        Column "b" (Floats [Some (1 # 2); Some (1 # 2); Some 2]%Q);
                        Column "c" (Objects [Some "x"; Some "x"; None]) ], 2%Z))
    by (vm_compute; reflexivity).
  destruct (outliers_removes_missing ejemplo _ [] [JStr "a"; JStr "b"]
              (JNum (3 # 2)) (Finite (3 # 2)) 2%Z Hun eq_refl eq_refl Hu Hap)
    as (Hsum & _).
  split; [exact Hap|]. split; [exact Hsum|]. split; vm_compute; reflexivity.
Defined.

(** * Further properties of the endpoint *)

(** ** Accounting of the loop *)

Lemma outliers_loop_len_le (umbral : json) (cols : list json) (df df' : DataFrame) :
  outliers_loop umbral cols df = Ok df' -> (len df' <= len df)%nat.
Proof.
  revert df; induction cols as [|col cols IH]; simpl; intros df H.
  - injection H as <-. lia.
  - bind_inv H. destruct (numeric (data a)) as [xs|]; [|apply IH, H].
    bind_inv H. apply IH in H.
    pose proof (len_filter_rows_le (outlier_mask a0 (data a)) df). lia.
Qed.

Lemma len_fill_method (backward : bool) (df : DataFrame) :
  len (fill_method backward df) = len df.
Proof.
  destruct df as [|c df]; simpl; [reflexivity|].
  destruct (data c), backward; simpl;
    rewrite ?bfill_length; unfold ffill; rewrite ?ffill_from_length; reflexivity.
Qed.

Lemma removed_accounting (antes : nat) (df' : DataFrame) :
  (len df' <= antes)%nat ->
  (0 <= removed antes df')%Z /\ (Z.of_nat (len df') + removed antes df' = Z.of_nat antes)%Z.
Proof. unfold removed. lia. Qed.

(** Every operation reports a count that is not negative and is the
    number of rows it removed. *)
Lemma aplicar_accounting (df df' : DataFrame) (tipo parametros : json) (afectados : Z) :
  aplicar df tipo parametros = Ok (df', afectados) ->
  (0 <= afectados)%Z /\ (Z.of_nat (len df') + afectados = Z.of_nat (len df))%Z.
Proof.
  unfold aplicar.
  destruct (is_str tipo "duplicados").
  { intros [= <- <-]. apply removed_accounting, len_filter_rows_le. }
  destruct (is_str tipo "nulos").
  { intros H. bind_inv H.
    destruct (is_str a "drop").
    { injection H as <- <-. apply removed_accounting, len_filter_rows_le. }
    destruct (is_str a "ffill" || is_str a "bfill").
    { injection H as <- <-. rewrite len_fill_method. lia. }
    destruct (is_str a "mean"); injection H as <- <-.
    - rewrite len_fillna_mean. lia.
    - lia. }
  destruct (is_str tipo "outliers").
  { intros H. do 4 bind_inv H. injection H as <- <-.
    apply removed_accounting. eapply outliers_loop_len_le, Ha2. }
  destruct (is_str tipo "normalizacion").
  { intros H. do 3 bind_inv H. injection H as <- <-.
    destruct (normalizacion_loop_lengths _ _ _ Ha1) as [_ Hl].
    rewrite !len_lengths, Hl. lia. }
  intros [= <- <-]. lia.
Qed.

Lemma bucle_accounting (tipos : list json) (st st' : estado) :
  bucle tipos st = Ok st' ->
  (total_afectados st' - total_afectados st
   = Zsum (map op_afectados (operaciones_realizadas st'))
     - Zsum (map op_afectados (operaciones_realizadas st)))%Z
  /\ (Forall (fun o => 0 <= op_afectados o)%Z (operaciones_realizadas st) ->
      Forall (fun o => 0 <= op_afectados o)%Z (operaciones_realizadas st'))
  /\ (Z.of_nat (len (st_df st')) + total_afectados st'
      = Z.of_nat (len (st_df st)) + total_afectados st)%Z.
Proof.
  revert st; induction tipos as [|l tipos IH]; simpl; intros st H.
  - injection H as <-. repeat split; auto; lia.
  - bind_inv H. destruct (IH _ H) as (Hsum & Hpos & Hrows). clear IH H.
    unfold paso in Ha. destruct (descriptor l) as [[tipo parametros]|].
    + bind_inv Ha. injection Ha as <-. destruct a0 as [df1 n].
      destruct (aplicar_accounting _ _ _ _ _ Ha0) as [Hn Hr].
      simpl in *. unfold Zsum in *. rewrite map_app, fold_right_app in Hsum.
      simpl in Hsum.
      assert (Hfold : forall (xs : list Z) (k : Z),
                 (fold_right Z.add k xs = fold_right Z.add 0 xs + k)%Z).
      { induction xs as [|x xs IHx]; intros k; simpl; [lia | rewrite IHx; lia]. }
      rewrite (Hfold _ (n + 0)%Z) in Hsum.
      repeat split; [lia | | lia].
      intros Hall. apply Hpos. apply Forall_app. split; [exact Hall|].
      constructor; [exact Hn | constructor].
    + injection Ha as <-. repeat split; auto.
Qed.

(** X1.  In a run that completes, every report entry has a count that is
    not negative, [total_afectados] is the sum of the counts of the
    entries, and the rows of the final frame plus [total_afectados] are
    the rows of the frame the run started on: a removed row is counted
    once, by the operation that removed it. *)
Theorem run_accounts_for_every_row (df : DataFrame) (tipos : list json) (st : estado) :
  run df tipos = Ok st ->
  Forall (fun o => 0 <= op_afectados o)%Z (operaciones_realizadas st)
  /\ total_afectados st = Zsum (map op_afectados (operaciones_realizadas st))
  /\ (Z.of_nat (len (st_df st)) + total_afectados st = Z.of_nat (len df))%Z.
Proof.
  intros H. destruct (bucle_accounting _ _ _ H) as (Hsum & Hpos & Hrows).
  simpl in *. repeat split; [apply Hpos; constructor | lia | lia].
Qed.

Lemma run_accounts_for_every_row_witness :
  exists st,
    run ejemplo [JStr "outliers"; JStr "duplicados"; JStr "nulos"] = Ok st
    /\ map op_afectados (operaciones_realizadas st) = [2; 0; 1]%Z
    /\ total_afectados st = 3%Z
    /\ (Z.of_nat (len (st_df st)) + total_afectados st = 5)%Z.
Proof.
  eexists. split; [vm_compute; reflexivity|].
  split; [reflexivity|]. split; [reflexivity|].
  apply (run_accounts_for_every_row ejemplo [JStr "outliers"; JStr "duplicados"; JStr "nulos"]).
  vm_compute. reflexivity.
Defined.

(** ** Composition of runs *)

Lemma bucle_from (tipos : list json) (df : DataFrame) (ops : list operacion) (total : Z) :
  bucle tipos (Estado df ops total)
  = (st <- bucle tipos (Estado df [] 0%Z) ;;
     Ok (Estado (st_df st) (ops ++ operaciones_realizadas st) (total + total_afectados st))).
Proof.
  revert df ops total; induction tipos as [|l tipos IH]; intros df ops total.
  - simpl. rewrite app_nil_r, Z.add_0_r. reflexivity.
  - cbn [bucle]. unfold paso. cbn [st_df operaciones_realizadas total_afectados].
    destruct (descriptor l) as [[tipo parametros]|]; cbn [bind].
    + destruct (aplicar df tipo parametros) as [[df1 n]|]; cbn [bind fst snd]; [|reflexivity].
      rewrite (IH df1 (ops ++ [Operacion tipo parametros n]) (total + n)%Z).
      rewrite (IH df1 ([] ++ [Operacion tipo parametros n]) (0 + n)%Z).
      destruct (bucle tipos (Estado df1 [] 0%Z)) as [st|]; cbn [bind]; [|reflexivity].
      cbn [st_df operaciones_realizadas total_afectados].
      rewrite <- !app_assoc. simpl. do 2 f_equal. lia.
    + apply IH.
Qed.

(** X2.  Running a list of operations is running its first part and then
    its second part on the frame the first part left: the report is the
    two reports one after the other and the total is the sum of the two
    totals; if either part raises, so does the whole. *)
Theorem run_composes (df : DataFrame) (pre post : list json) :
  run df (pre ++ post)
  = (mid <- run df pre ;;
     st <- run (st_df mid) post ;;
     Ok (Estado (st_df st)
           (operaciones_realizadas mid ++ operaciones_realizadas st)
           (total_afectados mid + total_afectados st))).
Proof.
  unfold run. rewrite bucle_app.
  destruct (bucle pre (Estado df [] 0%Z)) as [[df1 ops total]|]; cbn [bind]; [|reflexivity].
  apply bucle_from.
Qed.

(** ** Entries the loop ignores, and parameters that are no object *)

(** X3.  An entry of the operation list that is neither a string nor an
    object leaves the state of the loop as it is and adds nothing to the
    report.  An entry whose [tipo] is none of the four known kinds leaves
    the frame and the total as they are, but is reported, with a count of
    0 and the parameters as given (which need not be an object). *)
Theorem ignored_entries (st : estado) (limpieza : json) :
  (descriptor limpieza = None -> paso st limpieza = Ok st)
  /\ (forall tipo parametros,
        descriptor limpieza = Some (tipo, parametros) ->
        known_tipo tipo = false ->
        paso st limpieza
        = Ok (Estado (st_df st)
                (operaciones_realizadas st ++ [Operacion tipo parametros 0%Z])
                (total_afectados st))).
Proof.
  split.
  - intros H. unfold paso. rewrite H. reflexivity.
  - intros tipo parametros H Hk. unfold paso. rewrite H.
    unfold known_tipo in Hk. rewrite !orb_false_iff in Hk.
    destruct Hk as [[[H1 H2] H3] H4].
    unfold aplicar. rewrite H1, H2, H3, H4. cbn [bind fst snd].
    rewrite Z.add_0_r. reflexivity.
Qed.

Lemma ignored_entries_witness :
  paso (Estado ejemplo [] 0%Z) (JArr [JStr "nulos"]) = Ok (Estado ejemplo [] 0%Z)
  /\ paso (Estado ejemplo [] 0%Z) (JObj [("tipo", JStr "Nulos"); ("parametros", JNum 3)])
     = Ok (Estado ejemplo [Operacion (JStr "Nulos") (JNum 3) 0%Z] 0%Z).
Proof.
  destruct (ignored_entries (Estado ejemplo [] 0%Z) (JArr [JStr "nulos"])) as [H _].
  destruct (ignored_entries (Estado ejemplo [] 0%Z)
              (JObj [("tipo", JStr "Nulos"); ("parametros", JNum 3)])) as [_ H'].
  split; [apply H; reflexivity|].
  apply (H' (JStr "Nulos") (JNum 3)); reflexivity.
Defined.

(** X4.  [parametros] that is not an object makes [nulos], [outliers] and
    [normalizacion] raise, whatever the frame; [duplicados] never reads
    its parameters and works as with none. *)
Theorem parametros_must_be_object (df : DataFrame) (parametros : json) :
  is_object parametros = false ->
  aplicar df (JStr "nulos") parametros = Raised
  /\ aplicar df (JStr "outliers") parametros = Raised
  /\ aplicar df (JStr "normalizacion") parametros = Raised
  /\ aplicar df (JStr "duplicados") parametros = aplicar df (JStr "duplicados") (JObj []).
Proof.
  intros H. destruct parametros; try discriminate; repeat split; reflexivity.
Qed.

Lemma parametros_must_be_object_witness :
  aplicar ejemplo (JStr "nulos") JNull = Raised
  /\ limpiar_dataset_multiple (holding ejemplo)
       (peticion (JArr [JObj [("tipo", JStr "nulos"); ("parametros", JNull)]])) = R500.
Proof.
  destruct (parametros_must_be_object ejemplo JNull eq_refl) as (H & _).
  split; [exact H|]. vm_compute. reflexivity.
Defined.

(** ** Dropping rows with missing cells *)

Lemma vnotna_cells (v : values) : vnotna v = map cell_notna (cells v).
Proof. destruct v; simpl; rewrite map_map; reflexivity. Qed.

Lemma select_map_filter {A : Type} (f : A -> bool) (l : list A) :
  select (map f l) l = filter f l.
Proof. induction l as [|x l IH]; simpl; [|rewrite IH]; reflexivity. Qed.

Lemma filter_partition_length {A : Type} (f : A -> bool) (l : list A) :
  (List.length (filter f l) + List.length (filter (fun x => negb (f x)) l)
   = List.length l)%nat.
Proof. induction l as [|x l IH]; simpl; [|destruct (f x); simpl]; lia. Qed.

(** The mask of [dropna] over cell columns of length [n]. *)
Lemma dropna_mask_rows_of (n : nat) (cols : list (list cell)) :
  Forall (fun c => List.length c = n) cols ->
  fold_right (fun c acc => and_masks (map cell_notna c) acc) (repeat true n) cols
  = map complete (rows_of n cols).
Proof.
  revert cols; induction n as [|n IH]; intros cols Hlen.
  - simpl. induction cols as [|c cols IHc]; simpl; [reflexivity|].
    inversion Hlen as [|c' cols' Hc Hrest]; subst.
    destruct c; [reflexivity | discriminate].
  - cbn [rows_of map]. rewrite <- IH.
    + clear IH. induction cols as [|c cols IHc]; [reflexivity|].
      inversion Hlen as [|c' cols' Hc Hrest]; subst.
      destruct c as [|x xs]; [discriminate|].
      cbn [fold_right map]. rewrite (IHc Hrest). reflexivity.
    + apply Forall_map. eapply Forall_impl; [|exact Hlen].
      intros [|x xs]; simpl; [discriminate | congruence].
Qed.

Lemma dropna_mask_rows (df : DataFrame) :
  uniform df -> dropna_mask df = map complete (rows df).
Proof.
  intros Hu. unfold dropna_mask, rows.
  rewrite <- dropna_mask_rows_of.
  - induction df as [|c df IH] in Hu |- *; [reflexivity|].
    generalize (len (c :: df)) as n. intros n. clear.
    induction (c :: df) as [|c' l IHl]; simpl; [reflexivity|].
    rewrite IHl, vnotna_cells. reflexivity.
  - apply Forall_map. eapply Forall_impl; [|exact Hu].
    simpl. intros c Hc. rewrite cells_length. exact Hc.
Qed.

Lemma rows_dropna (df : DataFrame) :
  uniform df -> rows (dropna df) = filter complete (rows df).
Proof.
  intros Hu. unfold dropna. rewrite rows_filter_rows.
  - rewrite (dropna_mask_rows df Hu). apply select_map_filter.
  - exact Hu.
  - rewrite (dropna_mask_rows df Hu), length_map. apply rows_length.
Qed.

Lemma submask_and_l (m acc : list bool) : submask (and_masks m acc) m.
Proof.
  revert acc; induction m as [|a m IH]; intros [|b acc]; simpl; auto.
  split; [|apply IH]. destruct a; auto.
Qed.

Lemma submask_and_r (m acc : list bool) : submask (and_masks m acc) acc.
Proof.
  revert acc; induction m as [|a m IH]; intros [|b acc]; simpl; auto.
  split; [|apply IH]. destruct a, b; auto.
Qed.

Lemma submask_trans (a b c : list bool) : submask a b -> submask b c -> submask a c.
Proof.
  revert b c; induction a as [|x a IH]; intros [|y b] [|z c]; simpl; auto;
    try contradiction.
  intros [H1 H2] [H3 H4]. split; [auto | eapply IH; eassumption].
Qed.

Lemma select_submask (mask m : list bool) :
  submask mask m -> Forall (fun b => b = true) (select mask m).
Proof.
  revert m; induction mask as [|a mask IH]; intros [|b m]; simpl; auto.
  intros [H1 H2]. destruct a; [constructor|]; auto.
Qed.

Lemma dropna_mask_submask (base : list bool) (df : DataFrame) (c : column) :
  In c df ->
  submask (fold_right (fun c acc => and_masks (vnotna (data c)) acc) base df)
          (vnotna (data c)).
Proof.
  induction df as [|c' df IH]; simpl; [contradiction|].
  intros [-> | Hin].
  - apply submask_and_l.
  - eapply submask_trans; [apply submask_and_r | apply IH, Hin].
Qed.

Lemma vnotna_vselect (mask : list bool) (v : values) :
  vnotna (vselect mask v) = select mask (vnotna v).
Proof. destruct v; simpl; symmetry; apply select_map. Qed.

Lemma count_missing_all_true (m : list bool) :
  Forall (fun b => b = true) m -> count_true (map negb m) = 0%nat.
Proof.
  unfold count_true. induction 1 as [|b m Hb _ IH]; simpl; [reflexivity|].
  rewrite Hb. exact IH.
Qed.

Lemma isnull_sum_dropna (df : DataFrame) : isnull_sum (dropna df) = 0%nat.
Proof.
  unfold dropna, dropna_mask.
  generalize (repeat true (len df)) as base. intros base.
  set (mask := fold_right _ base df).
  assert (H : forall c, In c df -> submask mask (vnotna (data c)))
    by (intros c Hc; apply dropna_mask_submask, Hc).
  clearbody mask. induction df as [|c df IH]; simpl; [reflexivity|].
  rewrite IH by (intros c' Hc'; apply H; right; exact Hc').
  rewrite vnotna_vselect, count_missing_all_true; [reflexivity|].
  apply select_submask, H. left. reflexivity.
Qed.

Lemma dropna_idempotent (df : DataFrame) : uniform df -> dropna (dropna df) = dropna df.
Proof.
  intros Hu.
  assert (Hu' : uniform (dropna df)) by (apply uniform_filter_rows, Hu).
  unfold dropna at 1. apply filter_rows_all_true; [exact Hu' | |].
  - rewrite (dropna_mask_rows _ Hu'), length_map. apply rows_length.
  - rewrite (dropna_mask_rows _ Hu'), (rows_dropna df Hu).
    apply Forall_map, Forall_forall. intros r Hr.
    apply filter_In in Hr. apply Hr.
Qed.

(** X5.  On a frame with columns of one length, [nulos] with [metodo]
    absent or [drop] keeps, in their order, exactly the rows without a
    missing cell, reports the number of rows that had one, leaves a frame
    with no missing cell, and a second pass removes nothing and reports
    0. *)
Theorem nulos_drop_removes_incomplete_rows (df : DataFrame) (fields : list (string * json)) :
  uniform df ->
  dict_get "metodo" fields = None \/ dict_get "metodo" fields = Some (JStr "drop") ->
  aplicar df (JStr "nulos") (JObj fields)
  = Ok (dropna df,
        Z.of_nat (List.length (filter (fun r => negb (complete r)) (rows df))))
  /\ rows (dropna df) = filter complete (rows df)
  /\ isnull_sum (dropna df) = 0%nat
  /\ aplicar (dropna df) (JStr "nulos") (JObj fields) = Ok (dropna df, 0%Z).
Proof.
  intros Hu Hm.
  assert (Hrun : forall d, aplicar d (JStr "nulos") (JObj fields)
                           = Ok (dropna d, removed (len d) (dropna d))).
  { intros d. unfold aplicar. simpl is_str. cbv iota. unfold py_get.
    destruct Hm as [-> | ->]; reflexivity. }
  split; [|split; [apply rows_dropna, Hu | split; [apply isnull_sum_dropna|]]].
  - rewrite Hrun. do 2 f_equal. unfold removed.
    pose proof (filter_partition_length complete (rows df)) as Hp.
    rewrite <- (rows_dropna df Hu), !rows_length in Hp. lia.
  - rewrite Hrun, (dropna_idempotent df Hu). unfold removed. do 2 f_equal. lia.
Qed.

Lemma nulos_drop_removes_incomplete_rows_witness :
  aplicar ejemplo (JStr "nulos") (JObj [])
  = Ok ([ Column "a" (Ints [1; 3; 100]%Z);
          Column "b" (Floats [Some (1 # 2); Some (1 # 2); Some 3]%Q);
          Column "c" (Objects [Some "x"; Some "x"; Some "z"]) ], 2%Z).
Proof.
  assert (Hu : uniform ejemplo) by (repeat constructor).
  destruct (nulos_drop_removes_incomplete_rows ejemplo [] Hu (or_introl eq_refl)) as (H & _).
  exact H.
Defined.

(** ** The statistics after the last operation *)

Lemma bucle_single (l : json) (st : estado) : bucle [l] st = paso st l.
Proof. simpl. destruct (paso st l); reflexivity. Qed.

(** X6.  When a run on a frame with columns of one length completes and
    its last entry is [duplicados], the [duplicados] statistic of the
    response is 0; when its last entry is [nulos] with [metodo] absent or
    [drop], the [nulls] statistic is 0. *)
Theorem last_operation_clears_statistic (df : DataFrame) (pre : list json) (l : json)
    (st : estado) (id : json) :
  uniform df ->
  run df (pre ++ [l]) = Ok st ->
  (forall parametros,
     descriptor l = Some (JStr "duplicados", parametros) ->
     duplicados (stats (st_df st) id st) = 0%nat)
  /\ (forall fields,
        descriptor l = Some (JStr "nulos", JObj fields) ->
        dict_get "metodo" fields = None \/ dict_get "metodo" fields = Some (JStr "drop") ->
        nulls (stats (st_df st) id st) = 0%nat).
Proof.
  intros Hu H. unfold run in H. rewrite bucle_app in H. bind_inv H.
  destruct (bucle_shape pre (Estado df [] 0%Z) a Hu Ha) as [_ Hmid].
  rewrite bucle_single in H. unfold paso in H. split.
  - intros parametros Hd. rewrite Hd in H. bind_inv H. injection H as <-.
    unfold aplicar in Ha0. simpl in Ha0. injection Ha0 as <-. simpl.
    apply count_true_all_false, duplicated_drop_duplicates, Hmid.
  - intros fields Hd Hm. rewrite Hd in H. bind_inv H. injection H as <-.
    unfold aplicar in Ha0. simpl is_str in Ha0. cbv iota in Ha0. unfold py_get in Ha0.
    destruct Hm as [Hm | Hm]; rewrite Hm in Ha0; simpl in Ha0;
      injection Ha0 as <-; simpl; apply isnull_sum_dropna.
Qed.

Lemma last_operation_clears_statistic_witness :
  exists st,
    run repetido [JStr "normalizacion"; JStr "duplicados"] = Ok st
    /\ duplicados (stats repetido JNull st) = 2%nat
    /\ duplicados (stats (st_df st) JNull st) = 0%nat.
Proof.
  assert (Hu : uniform repetido) by (repeat constructor).
  eexists. split; [vm_compute; reflexivity|]. split; [reflexivity|].
  eapply (last_operation_clears_statistic repetido [JStr "normalizacion"] (JStr "duplicados"));
    [exact Hu | vm_compute; reflexivity | reflexivity].
Defined.

(** ** Answers of the endpoint *)

(** X7.  A body that is not a JSON object is answered 500; an object
    whose [dataset_id] is absent or falsy (null, 0, the empty string,
    false, an empty list or object) is answered 400.  Neither answer
    depends on the backend. *)
Theorem dataset_id_is_required (b : backend) (data : json) :
  (is_object data = false -> limpiar_dataset_multiple b data = R500)
  /\ (forall fields,
        data = JObj fields ->
        match dict_get "dataset_id" fields with
        | Some id => truthy id = false
        | None => True
        end ->
        limpiar_dataset_multiple b data = R400).
Proof.
  split.
  - intros H. destruct data; try discriminate; reflexivity.
  - intros fields -> H. unfold limpiar_dataset_multiple, limpiar_try, py_get.
    destruct (dict_get "dataset_id" fields) as [id|]; cbn [bind].
    + rewrite H. destruct (dict_get "tipos_limpieza" fields); reflexivity.
    + destruct (dict_get "tipos_limpieza" fields); reflexivity.
Qed.

Lemma dataset_id_is_required_witness :
  limpiar_dataset_multiple (holding ejemplo) (JArr [JStr "dataset_id"]) = R500
  /\ limpiar_dataset_multiple (holding ejemplo)
       (peticion_de (JNum 0) (JArr [JStr "nulos"])) = R400.
Proof.
  split.
  - apply (dataset_id_is_required (holding ejemplo) (JArr [JStr "dataset_id"])).
    reflexivity.
  - eapply (dataset_id_is_required (holding ejemplo)); reflexivity.
Defined.

(** X8.  With a truthy [dataset_id] and a truthy [tipos_limpieza], the
    dataset is fetched before the operation list is looked at: when the
    backend has no such dataset the answer is 404 and when the fetch
    raises it is 500, whatever [tipos_limpieza] holds. *)
Theorem dataset_is_fetched_first (b : backend) (fields : list (string * json))
    (id tipos : json) :
  dict_get "dataset_id" fields = Some id ->
  dict_get "tipos_limpieza" fields = Some tipos ->
  truthy id = true ->
  truthy tipos = true ->
  (fetch b id = Ok None -> limpiar_dataset_multiple b (JObj fields) = R404)
  /\ (fetch b id = Raised -> limpiar_dataset_multiple b (JObj fields) = R500).
Proof.
  intros Hid Htipos Ht1 Ht2.
  unfold limpiar_dataset_multiple, limpiar_try, py_get.
  rewrite Hid, Htipos. cbn [bind]. rewrite Ht1, Ht2. cbn [negb orb].
  split; intros ->; reflexivity.
Qed.

Lemma dataset_is_fetched_first_witness :
  limpiar_dataset_multiple (Backend (fun _ => Ok None) (fun _ _ _ => Ok JNull))
    (peticion (JNum 5)) = R404.
Proof.
  apply (dataset_is_fetched_first (Backend (fun _ => Ok None) (fun _ _ _ => Ok JNull))
           [("dataset_id", JNum 1); ("tipos_limpieza", JNum 5)] (JNum 1) (JNum 5));
    reflexivity.
Defined.

(** X9.  When the request is valid, the dataset is found, the operation
    list can be iterated, the loop completes on a frame with columns of
    one length and the backend stores the result, the answer is 200 and
    its body is consistent: it carries the id the backend gave and the
    report of the loop, its row count plus its total is the row count of
    the fetched frame, its column count is that of the fetched frame, and
    its preview is the first rows of the cleaned frame, ten at most. *)
Theorem successful_response_is_consistent (b : backend) (fields : list (string * json))
    (id tipos lid : json) (l : list json) (df : DataFrame) (st : estado) :
  dict_get "dataset_id" fields = Some id ->
  dict_get "tipos_limpieza" fields = Some tipos ->
  truthy id = true ->
  truthy tipos = true ->
  fetch b id = Ok (Some df) ->
  uniform df ->
  py_iter tipos = Ok l ->
  run df l = Ok st ->
  save b (st_df st) (operaciones_realizadas st) (total_afectados st) = Ok lid ->
  exists body,
    limpiar_dataset_multiple b (JObj fields) = R200 body
    /\ limpieza_id body = lid
    /\ operaciones body = operaciones_realizadas st
    /\ (Z.of_nat (total_filas body) + r_total_afectados body = Z.of_nat (len df))%Z
    /\ total_columnas body = List.length df
    /\ cleaned_preview body = firstn 10 (rows (st_df st))
    /\ List.length (cleaned_preview body) = Nat.min 10 (total_filas body).
Proof.
  intros Hid Htipos Ht1 Ht2 Hfetch Hu Hiter Hrun Hsave.
  exists (stats (st_df st) lid st). split.
  - unfold limpiar_dataset_multiple, limpiar_try, py_get.
    rewrite Hid, Htipos. cbn [bind]. rewrite Ht1, Ht2. cbn [negb orb].
    rewrite Hfetch. cbn [bind]. rewrite Hiter. cbn [bind].
    unfold run in Hrun. rewrite Hrun. cbn [bind]. rewrite Hsave. reflexivity.
  - unfold stats.
    cbn [limpieza_id operaciones total_filas r_total_afectados total_columnas cleaned_preview].
    split; [reflexivity|]. split; [reflexivity|]. split; [|split; [|split; [reflexivity|]]].
    + destruct (bucle_accounting _ _ _ Hrun) as (_ & _ & Hrows). simpl in Hrows. lia.
    + destruct (bucle_shape l (Estado df [] 0%Z) st Hu Hrun) as [Hc _].
      simpl in Hc. unfold columns in Hc.
      rewrite <- (length_map name (st_df st)), Hc. apply length_map.
    + rewrite length_firstn, rows_length. reflexivity.
Qed.

(** An operation list given as the string ["ab"] is iterated character by
    character: two unknown kinds, both reported. *)
Lemma successful_response_is_consistent_witness :
  exists body,
    limpiar_dataset_multiple (holding ejemplo) (peticion (JStr "ab")) = R200 body
    /\ map op_tipo (operaciones body) = [JStr "a"; JStr "b"]
    /\ total_filas body = 5%nat
    /\ List.length (cleaned_preview body) = 5%nat.
Proof.
  assert (Hu : uniform ejemplo) by (repeat constructor).
  destruct (successful_response_is_consistent (holding ejemplo)
              [("dataset_id", JNum 1); ("tipos_limpieza", JStr "ab")]
              (JNum 1) (JStr "ab") (JNum 7) [JStr "a"; JStr "b"] ejemplo
              (Estado ejemplo [Operacion (JStr "a") (JObj []) 0%Z;
                               Operacion (JStr "b") (JObj []) 0%Z] 0%Z)
              eq_refl eq_refl eq_refl eq_refl eq_refl Hu eq_refl eq_refl eq_refl)
    as (body & H & _ & Hops & _ & _ & _ & Hlen).
  exists body. split; [exact H|].
  vm_compute in H. injection H as <-.
  repeat split; reflexivity.
Defined.

(** ** Filling forward and backward *)

Lemma ffill_from_keeps {A : Type} (xs : list (option A)) (last : option A) (i : nat) (v : A) :
  nth i xs None = Some v -> nth i (ffill_from last xs) None = Some v.
Proof.
  revert last i; induction xs as [|[x|] xs IH]; intros last [|i]; simpl; try discriminate; auto.
Qed.

Lemma ffill_from_missing {A : Type} (xs : list (option A)) (last : option A) (i : nat) :
  (i < List.length xs)%nat ->
  nth i (ffill_from last xs) None = None
  <-> last = None /\ forall j, (j <= i)%nat -> nth j xs None = None.
Proof.
  revert last i; induction xs as [|x xs IH]; intros last i Hi; simpl in Hi; [lia|].
  destruct x as [x|]; destruct i as [|i]; simpl.
  - split; [discriminate | intros [_ H]; specialize (H 0%nat (Nat.le_refl 0)); discriminate].
  - rewrite IH by lia. split; [intros [H _]; discriminate|].
    intros [_ H]. specialize (H 0%nat (Nat.le_0_l _)). discriminate.
  - split; [intros ->; split; [reflexivity|] | intros [H _]; exact H].
    intros j Hj. replace j with 0%nat by lia. reflexivity.
  - rewrite IH by lia. split; intros [Hl H]; (split; [exact Hl|]).
    + intros [|j] Hj; [reflexivity | apply H; lia].
    + intros j Hj. apply (H (S j)). lia.
Qed.

Lemma filled_ffill {A : Type} (xs : list (option A)) : filled false xs (ffill xs).
Proof.
  unfold filled, ffill. split; [apply ffill_from_length|].
  intros i Hi. split; [intros v; apply ffill_from_keeps|].
  rewrite ffill_from_missing by exact Hi. split; [intros [_ H]; exact H | auto].
Qed.

Lemma filled_bfill {A : Type} (xs : list (option A)) : filled true xs (bfill xs).
Proof.
  unfold filled, bfill. split; [apply bfill_length|].
  intros i Hi.
  assert (Hr : forall k, (k < List.length xs)%nat ->
                 nth k (rev xs) None = nth (List.length xs - S k) xs None)
    by (intros k Hk; apply rev_nth; exact Hk).
  rewrite rev_nth by (rewrite ffill_from_length, length_rev; exact Hi).
  rewrite ffill_from_length, length_rev.
  split.
  - intros v Hv. apply ffill_from_keeps. rewrite Hr by lia.
    replace (List.length xs - S (List.length xs - S i))%nat with i by lia. exact Hv.
  - rewrite ffill_from_missing by (rewrite length_rev; lia). split.
    + intros [_ H] j Hj. specialize (H (List.length xs - S j)%nat).
      rewrite Hr in H by lia.
      replace (List.length xs - S (List.length xs - S j))%nat with j in H by lia.
      apply H. lia.
    + intros H. split; [reflexivity|]. intros j Hj. rewrite Hr by lia. apply H. lia.
Qed.

Lemma fill_method_columns (backward : bool) (df : DataFrame) :
  Forall2 (fill_related backward) df (fill_method backward df).
Proof.
  induction df as [|c df IH]; simpl; constructor; [|exact IH].
  split; [reflexivity|]. simpl.
  destruct (data c) as [xs| |xs]; [| reflexivity |];
    destruct backward; eexists; (split; [reflexivity|]);
    first [apply filled_bfill | apply filled_ffill].
Qed.

(** X10.  [nulos] with [metodo] [ffill] or [bfill] succeeds on every
    frame, reports 0 and keeps every row and label; in each column the
    values present stay, and a cell is still missing afterwards exactly
    when the column has no value at or before it ([ffill]) or at or after
    it ([bfill]).  With any other [metodo] than [drop], [ffill], [bfill]
    and [mean] the frame is returned as it is, with a count of 0. *)
Theorem nulos_fill_methods (df : DataFrame) (fields : list (string * json)) (metodo : json) :
  dict_get "metodo" fields = Some metodo ->
  is_str metodo "drop" = false ->
  (forall backward : bool,
     metodo = JStr (if backward then "bfill" else "ffill") ->
     aplicar df (JStr "nulos") (JObj fields) = Ok (fill_method backward df, 0%Z)
     /\ len (fill_method backward df) = len df
     /\ Forall2 (fill_related backward) df (fill_method backward df))
  /\ (is_str metodo "ffill" = false -> is_str metodo "bfill" = false ->
      is_str metodo "mean" = false ->
      aplicar df (JStr "nulos") (JObj fields) = Ok (df, 0%Z)).
Proof.
  intros Hm Hdrop. split.
  - intros backward ->. split; [|split; [apply len_fill_method | apply fill_method_columns]].
    unfold aplicar. simpl is_str. cbv iota. unfold py_get. rewrite Hm.
    destruct backward; reflexivity.
  - intros H1 H2 H3. unfold aplicar. simpl is_str. cbv iota. unfold py_get.
    rewrite Hm. cbn [bind]. rewrite Hdrop, H1, H2, H3. reflexivity.
Qed.

Lemma nulos_fill_methods_witness :
  aplicar ejemplo (JStr "nulos") (JObj [("metodo", JStr "bfill")])
  = Ok ([ Column "a" (Ints [1; 2; 3; 4; 100]%Z);
          Column "b" (Floats [Some (1 # 2); Some (1 # 2); Some (1 # 2); Some 2; Some 3]%Q);
          Column "c" (Objects [Some "x"; Some "y"; Some "x"; Some "z"; Some "z"]) ], 0%Z)
  /\ aplicar ejemplo (JStr "nulos") (JObj [("metodo", JStr "median")]) = Ok (ejemplo, 0%Z).
Proof.
  destruct (nulos_fill_methods ejemplo [("metodo", JStr "bfill")] (JStr "bfill")
              eq_refl eq_refl) as [H _].
  destruct (nulos_fill_methods ejemplo [("metodo", JStr "median")] (JStr "median")
              eq_refl eq_refl) as [_ H'].
  split; [apply (H true eq_refl) | apply H'; reflexivity].
Defined.

(** ** The training and metrics endpoints *)

Lemma py_getitem_Ok (data : json) (k : string) (v : json) :
  py_getitem data k = Ok v ->
  exists fields, data = JObj fields /\ dict_get k fields = Some v.
Proof.
  destruct data; simpl; try discriminate.
  destruct (dict_get k fields) eqn:E; [|discriminate].
  intros [= <-]. eauto.
Qed.

Lemma entrenamiento_record_inv (now : string) (data : json) (record : list (string * json)) :
  entrenamiento_record now data = Ok record ->
  exists fields limpieza tipo_modelo,
    data = JObj fields
    /\ dict_get "limpieza_id" fields = Some limpieza
    /\ dict_get "tipo_modelo" fields = Some tipo_modelo
    /\ dict_get "limpieza_id" record = Some limpieza
    /\ dict_get "tipo_modelo" record = Some tipo_modelo
    /\ dict_get "estado" record = Some (JStr "En Curso")
    /\ dict_get "fecha_inicio" record = Some (JStr now).
Proof.
  unfold entrenamiento_record. intros H.
  bind_inv H. destruct (py_getitem_Ok _ _ _ Ha) as (fields & -> & Hl).
  bind_inv H. destruct (py_getitem_Ok _ _ _ Ha0) as (fields' & [= <-] & Ht).
  do 4 bind_inv H. injection H as <-.
  exists fields, a, a0. repeat split; assumption || reflexivity.
Qed.

(** X12.  [create_entrenamiento] answers 400 without touching the
    database.  Whenever it touches it, the body is an object with
    [limpieza_id] and [tipo_modelo], and the only call is one insert into
    [entrenamientos] of a record that carries those two values, the given
    timestamp and the state [En Curso], whatever state the body asks
    for.  A 201 answer is always backed by such an insert that
    succeeded. *)
Theorem create_entrenamiento_inserts_once (db : database) (now : string) (data : json)
    (calls : list call) (r : reply) :
  create_entrenamiento db now data = (calls, r) ->
  (r = BadRequest -> calls = [])
  /\ (calls = []
      \/ exists fields limpieza tipo_modelo record,
           data = JObj fields
           /\ dict_get "limpieza_id" fields = Some limpieza
           /\ dict_get "tipo_modelo" fields = Some tipo_modelo
           /\ calls = [Insert "entrenamientos" record]
           /\ dict_get "limpieza_id" record = Some limpieza
           /\ dict_get "tipo_modelo" record = Some tipo_modelo
           /\ dict_get "estado" record = Some (JStr "En Curso")
           /\ dict_get "fecha_inicio" record = Some (JStr now))
  /\ (forall body, r = Created body ->
        exists record rows, calls = [Insert "entrenamientos" record]
                            /\ db (Insert "entrenamientos" record) = Ok rows
                            /\ entrenamiento_body rows = Ok body).
Proof.
  unfold create_entrenamiento. intros H.
  destruct (all_in ["limpieza_id"; "tipo_modelo"] data) as [[|]|];
    try (injection H as <- <-; repeat split; auto; discriminate).
  destruct (entrenamiento_record now data) as [record|] eqn:Hrec;
    [|injection H as <- <-; repeat split; auto; discriminate].
  destruct (entrenamiento_record_inv _ _ _ Hrec)
    as (fields & limpieza & tipo_modelo & Hd & H1 & H2 & H3 & H4 & H5 & H6).
  assert (Hcalls : forall cs, cs = [Insert "entrenamientos" record] ->
            cs = [] \/ exists fields limpieza tipo_modelo record,
              data = JObj fields
              /\ dict_get "limpieza_id" fields = Some limpieza
              /\ dict_get "tipo_modelo" fields = Some tipo_modelo
              /\ cs = [Insert "entrenamientos" record]
              /\ dict_get "limpieza_id" record = Some limpieza
              /\ dict_get "tipo_modelo" record = Some tipo_modelo
              /\ dict_get "estado" record = Some (JStr "En Curso")
              /\ dict_get "fecha_inicio" record = Some (JStr now)).
  { intros cs ->. right. exists fields, limpieza, tipo_modelo, record. repeat split; assumption. }
  destruct (db (Insert "entrenamientos" record)) as [rows|] eqn:Hdb.
  - destruct (entrenamiento_body rows) as [body|] eqn:Hbody; injection H as <- <-;
      (split; [discriminate|]); (split; [apply Hcalls; reflexivity|]).
    + intros body' [= <-]. exists record, rows. auto.
    + discriminate.
  - injection H as <- <-. split; [discriminate|].
    split; [apply Hcalls; reflexivity | discriminate].
Qed.

Lemma create_entrenamiento_inserts_once_witness :
  create_entrenamiento (fun _ => Ok (JArr [JObj [("id", JNum 9); ("estado", JStr "En Curso")]]))
    "2024-01-01"
    (JObj [("limpieza_id", JNum 4); ("tipo_modelo", JStr "cnn"); ("estado", JStr "Finalizado")])
  = ([Insert "entrenamientos"
        [ ("limpieza_id", JNum 4); ("tipo_modelo", JStr "cnn"); ("epocas", JNull);
          ("batch_size", JNull); ("learning_rate", JNull);
          ("operaciones_limpieza", JArr []); ("estado", JStr "En Curso");
          ("fecha_inicio", JStr "2024-01-01") ]],
     Created [ ("message", JStr "Entrenamiento registrado exitosamente.");
               ("entrenamiento_id", JNum 9); ("estado", JStr "En Curso") ])
  /\ (snd (create_entrenamiento (fun _ => Raised) "2024-01-01"
              (JObj [("limpieza_id", JNum 4)])) = BadRequest
      -> fst (create_entrenamiento (fun _ => Raised) "2024-01-01"
                (JObj [("limpieza_id", JNum 4)])) = []).
Proof.
  split; [reflexivity|].
  destruct (create_entrenamiento_inserts_once (fun _ => Raised) "2024-01-01"
              (JObj [("limpieza_id", JNum 4)]) [] BadRequest eq_refl) as (H & _).
  intros _. apply H. reflexivity.
Defined.

Lemma resultado_record_inv (data : json) (record : list (string * json)) :
  resultado_record data = Ok record ->
  exists fields entrenamiento,
    data = JObj fields
    /\ dict_get "entrenamiento_id" fields = Some entrenamiento
    /\ dict_get "entrenamiento_id" record = Some entrenamiento.
Proof.
  unfold resultado_record. intros H.
  bind_inv H. destruct (py_getitem_Ok _ _ _ Ha) as (fields & -> & He).
  do 6 bind_inv H. injection H as <-.
  exists fields, a. repeat split; assumption || reflexivity.
Qed.

(** X13.  [create_resultado] answers 400 without touching the database.
    It marks a training run [Finalizado] only after the insert of its
    metrics succeeded, and then the run it marks is the one the inserted
    metrics name; when the insert raises no update is issued.  A 201
    answer is always backed by both calls, in that order. *)
Theorem create_resultado_finalizes_after_insert (db : database) (now : string) (data : json)
    (calls : list call) (r : reply) :
  create_resultado db now data = (calls, r) ->
  (r = BadRequest -> calls = [])
  /\ (calls = []
      \/ exists fields entrenamiento record,
           data = JObj fields
           /\ dict_get "entrenamiento_id" fields = Some entrenamiento
           /\ dict_get "entrenamiento_id" record = Some entrenamiento
           /\ ((calls = [Insert "resultados_metricas" record]
                /\ db (Insert "resultados_metricas" record) = Raised
                /\ r = ServerError)
               \/ (calls = [Insert "resultados_metricas" record; finalizar now entrenamiento]
                   /\ exists rows, db (Insert "resultados_metricas" record) = Ok rows)))
  /\ (forall body, r = Created body -> List.length calls = 2%nat).
Proof.
  unfold create_resultado. intros H.
  destruct (all_in ["entrenamiento_id"; "accuracy"; "f1_score"; "loss_final"] data) as [[|]|];
    try (injection H as <- <-; repeat split; auto; discriminate).
  destruct (resultado_record data) as [record|] eqn:Hrec;
    [|injection H as <- <-; repeat split; auto; discriminate].
  destruct (resultado_record_inv _ _ Hrec) as (fields & entrenamiento & -> & He & Hr).
  cbn [py_getitem] in H. rewrite He in H.
  destruct (db (Insert "resultados_metricas" record)) as [rows|] eqn:Hdb.
  - destruct (db (finalizar now entrenamiento)) as [done|];
      [destruct (resultado_body rows) as [body|]|]; injection H as <- <-;
      (split; [discriminate|]);
      (split; [right; exists fields, entrenamiento, record;
               repeat split; try assumption; right; split; [reflexivity | eauto]|]);
      try discriminate.
    intros body' _. reflexivity.
  - injection H as <- <-. split; [discriminate|]. split; [|discriminate].
    right. exists fields, entrenamiento, record. repeat split; try assumption.
    left. repeat split; auto.
Qed.

Lemma create_resultado_finalizes_after_insert_witness :
  create_resultado
    (fun c => match c with
              | Insert _ _ => Ok (JArr [JObj [("id", JNum 3)]])
              | Update _ _ _ _ => Ok (JArr [])
              end)
    "2024-01-02"
    (JObj [("entrenamiento_id", JNum 9); ("accuracy", JNum 1); ("f1_score", JNum 1);
           ("loss_final", JNum 0)])
  = ([Insert "resultados_metricas"
        [ ("entrenamiento_id", JNum 9); ("accuracy", JNum 1); ("f1_score", JNum 1);
          ("loss_final", JNum 0); ("grafico_accuracy_f1", JNull); ("grafico_loss", JNull);
          ("modelo_guardado", JNull) ];
      Update "entrenamientos"
        [("estado", JStr "Finalizado"); ("fecha_fin", JStr "2024-01-02")] "id" (JNum 9)],
     Created [ ("message", JStr "Resultados guardados y entrenamiento finalizado.");
               ("resultado_id", JNum 3) ])
  /\ (snd (create_resultado (fun _ => Raised) "2024-01-02"
             (JObj [("entrenamiento_id", JNum 9); ("accuracy", JNum 1)])) = BadRequest
      -> fst (create_resultado (fun _ => Raised) "2024-01-02"
                (JObj [("entrenamiento_id", JNum 9); ("accuracy", JNum 1)])) = []).
Proof.
  split; [reflexivity|].
  destruct (create_resultado_finalizes_after_insert (fun _ => Raised) "2024-01-02"
              (JObj [("entrenamiento_id", JNum 9); ("accuracy", JNum 1)])
              [] BadRequest eq_refl) as (H & _).
  intros _. apply H. reflexivity.
Defined.

(** ** The upload endpoint *)

(** The effects of a completed upload of [filename] parsed as [df]. *)
Lemma create_dataset_file_cases (sv : services) (now filename : string)
    (trace : list effect) (r : dataset_reply) :
  create_dataset_file sv now filename = (trace, r) ->
  let tmp := temp_path filename in
  (trace = [] /\ r = Bad400)
  \/ (trace = [SaveTemp tmp] /\ r = Error500)
  \/ (trace = [SaveTemp tmp] /\ r = Bad400 /\ leer sv filename = None)
  \/ exists df,
       leer sv filename = Some df
       /\ let up := Upload (storage_path filename) tmp in
          let ins := Call (Insert "datasets" (dataset_record now filename df)) in
          (trace = [SaveTemp tmp; up] /\ r = Error500)
          \/ (trace = [SaveTemp tmp; up; ins] /\ r = Error500
              /\ datasets_db sv (Insert "datasets" (dataset_record now filename df)) = Raised)
          \/ (trace = [SaveTemp tmp; up; ins; RemoveTemp tmp]
              /\ (exists rows,
                    datasets_db sv (Insert "datasets" (dataset_record now filename df)) = Ok rows)
              /\ (r = Error500
                  \/ exists id,
                       r = Uploaded201
                             (DatasetBody id filename (len df) (List.length df)
                                (isnull_sum df) (count_true (duplicated df)) 0
                                (firstn 20 (rows df))))).
Proof.
  intros H. cbv zeta. unfold create_dataset_file in H. cbv zeta in H.
  destruct (String.eqb filename ""); [injection H as <- <-; auto|].
  destruct (save_temp sv (temp_path filename)); [|injection H as <- <-; auto].
  destruct (leer sv filename) as [df|] eqn:Hleer; [|injection H as <- <-; auto 6].
  right. right. right. exists df. split; [reflexivity|].
  destruct (upload sv (storage_path filename) (temp_path filename));
    [|injection H as <- <-; auto].
  destruct (datasets_db sv (Insert "datasets" (dataset_record now filename df)))
    as [rows|] eqn:Hdb; [|injection H as <- <-; auto 6].
  right. right.
  destruct (remove_temp sv (temp_path filename));
    [destruct (dataset_id_of rows) as [id|]|]; injection H as <- <-;
    (split; [reflexivity|]); (split; [eauto|]); eauto.
Qed.

(** X14.  When [create_dataset] receives a file, it uploads and registers
    it only if the saved file was parsed, under the storage path
    [datasets/<filename>]; it deletes the temporary copy only after the
    database accepted the record.  A rejected file (400) has at most been
    saved: it is never uploaded, registered or deleted. *)
Theorem upload_effects_are_guarded (sv : services) (now filename : string)
    (trace : list effect) (r : dataset_reply) :
  create_dataset sv now (Archivo filename) = (trace, r) ->
  (forall sp tp, In (Upload sp tp) trace ->
     sp = storage_path filename /\ tp = temp_path filename
     /\ exists df, leer sv filename = Some df)
  /\ (forall c, In (Call c) trace ->
        exists df, leer sv filename = Some df
                   /\ c = Insert "datasets" (dataset_record now filename df))
  /\ (forall p, In (RemoveTemp p) trace ->
        exists df rows,
          leer sv filename = Some df
          /\ datasets_db sv (Insert "datasets" (dataset_record now filename df)) = Ok rows)
  /\ (r = Bad400 -> forall e, In e trace -> e = SaveTemp (temp_path filename)).
Proof.
  intros H. apply create_dataset_file_cases in H. cbv zeta in H.
  assert (Hgoal :
    forall tr,
      (tr = [] \/ tr = [SaveTemp (temp_path filename)]
       \/ exists df, leer sv filename = Some df
            /\ (tr = [SaveTemp (temp_path filename);
                      Upload (storage_path filename) (temp_path filename)]
                \/ tr = [SaveTemp (temp_path filename);
                         Upload (storage_path filename) (temp_path filename);
                         Call (Insert "datasets" (dataset_record now filename df))]
                \/ (tr = [SaveTemp (temp_path filename);
                          Upload (storage_path filename) (temp_path filename);
                          Call (Insert "datasets" (dataset_record now filename df));
                          RemoveTemp (temp_path filename)]
                    /\ exists rows,
                         datasets_db sv (Insert "datasets" (dataset_record now filename df))
                         = Ok rows))) ->
      (forall sp tp, In (Upload sp tp) tr ->
         sp = storage_path filename /\ tp = temp_path filename
         /\ exists df, leer sv filename = Some df)
      /\ (forall c, In (Call c) tr ->
            exists df, leer sv filename = Some df
                       /\ c = Insert "datasets" (dataset_record now filename df))
      /\ (forall p, In (RemoveTemp p) tr ->
            exists df rows,
              leer sv filename = Some df
              /\ datasets_db sv (Insert "datasets" (dataset_record now filename df))
                 = Ok rows)).
  { intros tr Htr.
    destruct Htr as [-> | [-> | (df & Hl & [-> | [-> | (-> & rows & Hdb)]])]];
      (split; [|split]); simpl; intros;
      repeat match goal with
             | Hor : _ \/ _ |- _ => destruct Hor
             | Hf : False |- _ => contradiction
             | He : @eq effect _ _ |- _ =>
                 first [discriminate He | injection He as ? ?; subst | injection He as ?; subst]
             end; eauto 8. }
  destruct H as [[-> ->] | [[-> ->] | [(-> & -> & Hl) | (df & Hl & H)]]].
  - destruct (Hgoal []) as (H1 & H2 & H3); [auto|].
    split; [exact H1 | split; [exact H2 | split; [exact H3 |]]]. intros _ e [].
  - destruct (Hgoal [SaveTemp (temp_path filename)]) as (H1 & H2 & H3); [auto|].
    split; [exact H1 | split; [exact H2 | split; [exact H3 |]]]. discriminate.
  - destruct (Hgoal [SaveTemp (temp_path filename)]) as (H1 & H2 & H3); [auto|].
    split; [exact H1 | split; [exact H2 | split; [exact H3 |]]]. intros _ e [<- | []]. reflexivity.
  - destruct H as [[-> ->] | [(-> & -> & Hdb) | (-> & [rows Hdb] & Hr)]].
    + destruct (Hgoal [SaveTemp (temp_path filename);
                       Upload (storage_path filename) (temp_path filename)])
        as (H1 & H2 & H3); [right; right; exists df; auto|].
      split; [exact H1 | split; [exact H2 | split; [exact H3 |]]]. discriminate.
    + destruct (Hgoal [SaveTemp (temp_path filename);
                       Upload (storage_path filename) (temp_path filename);
                       Call (Insert "datasets" (dataset_record now filename df))])
        as (H1 & H2 & H3); [right; right; exists df; auto|].
      split; [exact H1 | split; [exact H2 | split; [exact H3 |]]]. discriminate.
    + destruct (Hgoal [SaveTemp (temp_path filename);
                       Upload (storage_path filename) (temp_path filename);
                       Call (Insert "datasets" (dataset_record now filename df));
                       RemoveTemp (temp_path filename)])
        as (H1 & H2 & H3); [right; right; exists df; split; [exact Hl|]; right; right; eauto|].
      split; [exact H1 | split; [exact H2 | split; [exact H3 |]]]. destruct Hr as [-> | [id ->]]; discriminate.
Qed.

Lemma upload_effects_are_guarded_witness :
  create_dataset (servicios ejemplo) "2024-01-03" (Archivo "ventas.xlsx")
  = ([SaveTemp "temp/ventas.xlsx"], Bad400)
  /\ forall e, In e [SaveTemp "temp/ventas.xlsx"] -> e = SaveTemp "temp/ventas.xlsx".
Proof.
  split; [reflexivity|].
  destruct (upload_effects_are_guarded (servicios ejemplo) "2024-01-03" "ventas.xlsx"
              [SaveTemp "temp/ventas.xlsx"] Bad400 eq_refl) as (_ & _ & _ & H).
  exact (H eq_refl).
Defined.

(** X15.  When the file parses to a frame with at least one column and
    it is answered 201, the body describes the parsed frame: its name is
    the file's, its row and column counts, its number of missing cells
    and of duplicated rows are those of the frame, [outliers] is 0, the
    preview is the first rows of the frame, twenty at most, and the record
    given to the database carries the same two counts; all four effects
    were attempted, the deletion of the temporary copy last.  (A frame
    without columns, such as the one [read_json] makes of a list of empty
    objects, still has an index in pandas; the column-major frames here
    cannot hold one, so the statement leaves that frame out.) *)
Theorem uploaded_body_matches_file (sv : services) (now filename : string)
    (trace : list effect) (body : dataset_body) :
  (forall df, leer sv filename = Some df -> df <> []) ->
  create_dataset sv now (Archivo filename) = (trace, Uploaded201 body) ->
  exists df,
    leer sv filename = Some df
    /\ df <> []
    /\ d_nombre body = filename
    /\ d_total_filas body = len df
    /\ d_total_columnas body = List.length df
    /\ d_nulls body = isnull_sum df
    /\ d_duplicados body = count_true (duplicated df)
    /\ d_outliers body = 0%nat
    /\ d_preview body = firstn 20 (rows df)
    /\ List.length (d_preview body) = Nat.min 20 (d_total_filas body)
    /\ trace = [ SaveTemp (temp_path filename);
                 Upload (storage_path filename) (temp_path filename);
                 Call (Insert "datasets" (dataset_record now filename df));
                 RemoveTemp (temp_path filename) ]
    /\ dict_get "num_filas" (dataset_record now filename df) = Some (JNat (d_total_filas body))
    /\ dict_get "num_columnas" (dataset_record now filename df)
       = Some (JNat (d_total_columnas body)).
Proof.
  intros Hcols H. apply create_dataset_file_cases in H. cbv zeta in H.
  destruct H as [[_ H] | [[_ H] | [(_ & H & _) | (df & Hl & H)]]]; try discriminate.
  destruct H as [[_ H] | [(_ & H & _) | (-> & _ & [H | [id H]])]]; try discriminate.
  assert (Hlen : List.length (firstn 20 (rows df)) = Nat.min 20 (len df))
    by (rewrite length_firstn, rows_length; reflexivity).
  injection H as ->. exists df.
  split; [exact Hl|]. split; [exact (Hcols df Hl)|].
  repeat split; try reflexivity; exact Hlen.
Qed.

Lemma uploaded_body_matches_file_witness :
  exists trace body,
    create_dataset (servicios ejemplo) "2024-01-03" (Archivo "ventas.csv")
    = (trace, Uploaded201 body)
    /\ d_total_filas body = 5%nat /\ d_total_columnas body = 3%nat
    /\ d_nulls body = 2%nat /\ d_duplicados body = 0%nat
    /\ List.length trace = 4%nat.
Proof.
  do 2 eexists. split; [vm_compute; reflexivity|].
  assert (Hcols : forall df, leer (servicios ejemplo) "ventas.csv" = Some df -> df <> [])
    by (intros df H; vm_compute in H; injection H as <-; discriminate).
  destruct (uploaded_body_matches_file (servicios ejemplo) "2024-01-03" "ventas.csv" _ _
              Hcols eq_refl)
    as (df & Hl & _ & _ & Hf & Hc & Hn & Hd & _ & _ & _ & Ht & _).
  vm_compute in Hl. injection Hl as <-.
  split; [exact Hf|]. split; [exact Hc|]. split; [exact Hn|]. split; [exact Hd|].
  exact (f_equal (@List.length effect) Ht).
Defined.

Lemma dataset_record_json_inv (now : string) (data : json) (record : list (string * json)) :
  dataset_record_json now data = Ok record ->
  exists fields nombre,
    data = JObj fields
    /\ dict_get "nombre" fields = Some nombre
    /\ dict_get "nombre" record = Some nombre
    /\ dict_get "fecha_carga" record = Some (JStr now).
Proof.
  unfold dataset_record_json. intros H.
  bind_inv H. destruct (py_getitem_Ok _ _ _ Ha) as (fields & -> & He).
  do 4 bind_inv H. injection H as <-.
  exists fields, a. repeat split; assumption || reflexivity.
Qed.

(** X16.  What [create_dataset] answers to a request without a file.
    With no JSON body either, the answer is 400.  With a JSON body that is
    falsy ([null], [false], 0, an empty string, list or object), the
    answer is 400; with a truthy object, list or string in which [nombre]
    does not occur, the answer is 400; with a truthy number or boolean,
    on which the test [in] raises, the answer is 500.  None of these
    requests causes an effect.  With a JSON body, the only effect ever
    attempted is one insert into [datasets] of a record that carries the
    body's [nombre] and the given timestamp, and a 201 answer is always
    backed by such an insert that succeeded; nothing is saved or
    uploaded. *)
Theorem dataset_registration_is_guarded (sv : services) (now : string) (request : submission)
    (trace : list effect) (r : dataset_reply) :
  (forall filename, request <> Archivo filename) ->
  create_dataset sv now request = (trace, r) ->
  (request = Otro -> trace = [] /\ r = Bad400)
  /\ (forall data, request = Cuerpo data ->
        (truthy data = false -> trace = [] /\ r = Bad400)
        /\ (truthy data = true -> py_in "nombre" data = Ok false ->
            trace = [] /\ r = Bad400)
        /\ (truthy data = true -> py_in "nombre" data = Raised ->
            trace = [] /\ r = Error500))
  /\ (r = Bad400 -> trace = [])
  /\ (trace = []
      \/ exists fields nombre record,
           request = Cuerpo (JObj fields)
           /\ dict_get "nombre" fields = Some nombre
           /\ trace = [Call (Insert "datasets" record)]
           /\ dict_get "nombre" record = Some nombre
           /\ dict_get "fecha_carga" record = Some (JStr now))
  /\ (forall id nombre, r = Registered201 id nombre ->
        exists record rows,
          trace = [Call (Insert "datasets" record)]
          /\ datasets_db sv (Insert "datasets" record) = Ok rows
          /\ registered_body rows = Ok (id, nombre)).
Proof.
  intros Hreq H. destruct request as [filename | data |].
  - exfalso. apply (Hreq filename). reflexivity.
  - simpl in H. unfold create_dataset_json in H.
    assert (Hcases :
      forall P : Prop,
        (forall d, Cuerpo data = Cuerpo d ->
           (truthy d = false -> trace = [] /\ r = Bad400)
           /\ (truthy d = true -> py_in "nombre" d = Ok false -> trace = [] /\ r = Bad400)
           /\ (truthy d = true -> py_in "nombre" d = Raised -> trace = [] /\ r = Error500)) ->
        P -> (Cuerpo data = Otro -> trace = [] /\ r = Bad400)
             /\ (forall d, Cuerpo data = Cuerpo d ->
                   (truthy d = false -> trace = [] /\ r = Bad400)
                   /\ (truthy d = true -> py_in "nombre" d = Ok false ->
                       trace = [] /\ r = Bad400)
                   /\ (truthy d = true -> py_in "nombre" d = Raised ->
                       trace = [] /\ r = Error500))
             /\ P)
      by (intros P H1 H2; split; [discriminate | split; assumption]).
    destruct (truthy data) eqn:Ht; simpl in H.
    + destruct (py_in "nombre" data) as [[|]|] eqn:Hin.
      * destruct (dataset_record_json now data) as [record|] eqn:Hrec.
        -- destruct (dataset_record_json_inv _ _ _ Hrec)
             as (fields & nombre & -> & H1 & H2 & H3).
           assert (Hcalls : exists fields' nombre' record',
                     Cuerpo (JObj fields) = Cuerpo (JObj fields')
                     /\ dict_get "nombre" fields' = Some nombre'
                     /\ [Call (Insert "datasets" record)] = [Call (Insert "datasets" record')]
                     /\ dict_get "nombre" record' = Some nombre'
                     /\ dict_get "fecha_carga" record' = Some (JStr now))
             by (exists fields, nombre, record; auto).
           apply Hcases.
           { intros d [= <-]. rewrite Ht, Hin.
             split; [discriminate|]. split; intros _; discriminate. }
           destruct (datasets_db sv (Insert "datasets" record)) as [rows|] eqn:Hdb.
           ++ destruct (registered_body rows) as [[id nombre']|] eqn:Hbody;
                injection H as <- <-;
                (split; [discriminate|]); (split; [right; exact Hcalls|]).
              ** intros id' nombre'' [= <- <-]. exists record, rows. auto.
              ** discriminate.
           ++ injection H as <- <-. split; [discriminate|].
              split; [right; exact Hcalls | discriminate].
        -- injection H as <- <-. apply Hcases.
           { intros d [= <-]. rewrite Ht, Hin.
             split; [discriminate|]. split; intros _; discriminate. }
           split; [reflexivity|]. split; [left; reflexivity | discriminate].
      * injection H as <- <-. apply Hcases.
        { intros d [= <-]. rewrite Ht, Hin.
          split; [discriminate|]. split; [auto | intros _; discriminate]. }
        split; [reflexivity|]. split; [left; reflexivity | discriminate].
      * injection H as <- <-. apply Hcases.
        { intros d [= <-]. rewrite Ht, Hin.
          split; [discriminate|]. split; [intros _; discriminate | auto]. }
        split; [discriminate|]. split; [left; reflexivity | discriminate].
    + injection H as <- <-. apply Hcases.
      { intros d [= <-]. rewrite Ht.
        split; [auto|]. split; discriminate. }
      split; [reflexivity|]. split; [left; reflexivity | discriminate].
  - injection H as <- <-.
    split; [auto|]. split; [discriminate|].
    split; [reflexivity|]. split; [left; reflexivity | discriminate].
Qed.

Lemma dataset_registration_is_guarded_witness :
  create_dataset (servicios ejemplo) "2024-01-03" (Cuerpo (JObj [("nombre", JStr "ventas")]))
  = ([Call (Insert "datasets"
              [ ("nombre", JStr "ventas"); ("ruta_almacenamiento", JNull);
                ("num_filas", JNull); ("num_columnas", JNull);
                ("metadata_json", JObj []); ("fecha_carga", JStr "2024-01-03") ])],
     Registered201 (JNum 12) (JStr "ventas"))
  /\ create_dataset (servicios ejemplo) "2024-01-03" (Cuerpo (JObj [("id", JNum 3)]))
     = ([], Bad400)
  /\ create_dataset (servicios ejemplo) "2024-01-03" (Cuerpo (JNum 5)) = ([], Error500).
Proof.
  split; [reflexivity|]. split.
  - destruct (create_dataset (servicios ejemplo) "2024-01-03" (Cuerpo (JObj [("id", JNum 3)])))
      as [trace r] eqn:E.
    destruct (dataset_registration_is_guarded (servicios ejemplo) "2024-01-03"
                (Cuerpo (JObj [("id", JNum 3)])) trace r) as (_ & H & _).
    + intros filename. discriminate.
    + exact E.
    + destruct (H _ eq_refl) as (_ & H400 & _).
      destruct (H400 eq_refl eq_refl) as [-> ->]. reflexivity.
  - destruct (create_dataset (servicios ejemplo) "2024-01-03" (Cuerpo (JNum 5)))
      as [trace r] eqn:E.
    destruct (dataset_registration_is_guarded (servicios ejemplo) "2024-01-03"
                (Cuerpo (JNum 5)) trace r) as (_ & H & _).
    + intros filename. discriminate.
    + exact E.
    + destruct (H _ eq_refl) as (_ & _ & H500).
      destruct (H500 eq_refl eq_refl) as [-> ->]. reflexivity.
Defined.

(** ** What the upload statistics say about a later cleaning *)

Lemma and_masks_true (n : nat) : and_masks (repeat true n) (repeat true n) = repeat true n.
Proof. induction n as [|n IH]; simpl; [|rewrite IH]; reflexivity. Qed.

Lemma all_true_repeat (m : list bool) :
  Forall (fun b => b = true) m -> m = repeat true (List.length m).
Proof. induction 1 as [|b m Hb _ IH]; simpl; [|rewrite Hb, <- IH]; reflexivity. Qed.

Lemma count_missing_zero (m : list bool) :
  count_true (map negb m) = 0%nat -> Forall (fun b => b = true) m.
Proof.
  unfold count_true. induction m as [|[|] m IH]; simpl; intros H;
    constructor; auto; discriminate.
Qed.

Lemma isnull_sum_zero (df : DataFrame) (c : column) :
  isnull_sum df = 0%nat -> In c df -> Forall (fun b => b = true) (vnotna (data c)).
Proof.
  induction df as [|c' df IH]; simpl; [contradiction|].
  intros H [-> | Hin].
  - apply count_missing_zero. lia.
  - apply IH; [lia | exact Hin].
Qed.

Lemma vnotna_length (v : values) : List.length (vnotna v) = vlen v.
Proof. destruct v; simpl; apply length_map. Qed.

Lemma dropna_mask_all_true (n : nat) (df : DataFrame) :
  uniform_at n df ->
  (forall c, In c df -> Forall (fun b => b = true) (vnotna (data c))) ->
  fold_right (fun c acc => and_masks (vnotna (data c)) acc) (repeat true n) df
  = repeat true n.
Proof.
  intros Hu Hc. induction df as [|c df IH]; simpl; [reflexivity|].
  inversion Hu as [|c' df' Hlen Hrest]; subst.
  rewrite IH; [|exact Hrest | intros c' Hc'; apply Hc; right; exact Hc'].
  rewrite (all_true_repeat (vnotna (data c))) by (apply Hc; left; reflexivity).
  rewrite vnotna_length. apply and_masks_true.
Qed.

Lemma dropna_without_missing (df : DataFrame) :
  uniform df -> isnull_sum df = 0%nat -> dropna df = df.
Proof.
  intros Hu Hz. unfold dropna, dropna_mask.
  rewrite (dropna_mask_all_true (len df) df Hu)
    by (intros c Hc; apply (isnull_sum_zero df c Hz Hc)).
  apply filter_rows_all_true; [exact Hu | apply repeat_length|].
  apply Forall_forall. intros b Hb. apply repeat_spec in Hb. exact Hb.
Qed.

(** X17.  The statistics of a 201 answer to an uploaded file foretell a
    first cleaning of that file, when its columns have one length: a
    [duplicados] operation reports exactly the uploaded [duplicados]
    count, and a [nulos] operation (dropping rows) leaves the frame
    untouched and reports 0 exactly when the uploaded [nulls] count is
    0. *)
Theorem upload_statistics_foretell_cleaning (sv : services) (now filename : string)
    (trace : list effect) (body : dataset_body) (df : DataFrame) :
  create_dataset sv now (Archivo filename) = (trace, Uploaded201 body) ->
  leer sv filename = Some df ->
  uniform df ->
  aplicar df (JStr "duplicados") (JObj [])
  = Ok (drop_duplicates df, Z.of_nat (d_duplicados body))
  /\ (d_nulls body = 0%nat <-> aplicar df (JStr "nulos") (JObj []) = Ok (df, 0%Z)).
Proof.
  intros H Hl Hu. apply create_dataset_file_cases in H. cbv zeta in H.
  destruct H as [[_ H] | [[_ H] | [(_ & H & _) | (df' & Hl' & H)]]]; try discriminate.
  rewrite Hl in Hl'. injection Hl' as <-.
  destruct H as [[_ H] | [(_ & H & _) | (_ & _ & [H | [id H]])]]; try discriminate.
  injection H as ->. cbn [d_duplicados d_nulls]. split.
  - unfold aplicar. simpl. unfold removed. do 2 f_equal.
    pose proof (len_drop_duplicates df). lia.
  - unfold aplicar. simpl. split.
    + intros Hz. rewrite (dropna_without_missing df Hu Hz). unfold removed.
      do 2 f_equal. lia.
    + intros [= Hd _]. rewrite <- Hd. apply isnull_sum_dropna.
Qed.

Lemma upload_statistics_foretell_cleaning_witness :
  exists trace body,
    create_dataset (servicios repetido) "2024-01-03" (Archivo "ventas.csv")
    = (trace, Uploaded201 body)
    /\ d_duplicados body = 2%nat
    /\ aplicar repetido (JStr "duplicados") (JObj [])
       = Ok (drop_duplicates repetido, 2%Z).
Proof.
  assert (Hu : uniform repetido) by (repeat constructor).
  do 2 eexists. split; [vm_compute; reflexivity|]. split; [reflexivity|].
  exact (proj1 (upload_statistics_foretell_cleaning (servicios repetido) "2024-01-03"
                  "ventas.csv" _ _ repetido eq_refl eq_refl Hu)).
Defined.

(** ** The required fields of the training and metrics endpoints *)

Lemma all_in_object (required : list string) (fields : list (string * json)) :
  all_in required (JObj fields)
  = Ok (forallb (fun k => match dict_get k fields with Some _ => true | None => false end)
          required).
Proof.
  induction required as [|k required IH]; simpl; [reflexivity|].
  destruct (dict_get k fields); simpl; [exact IH | reflexivity].
Qed.

(** X18.  For a body that is a JSON object, [create_entrenamiento]
    answers 400 exactly when [limpieza_id] or [tipo_modelo] is not a key
    of the body, and [create_resultado] exactly when one of
    [entrenamiento_id], [accuracy], [f1_score], [loss_final] is not; a
    key whose value is null counts as present. *)
Theorem required_fields_are_checked (db : database) (now : string)
    (fields : list (string * json)) :
  (snd (create_entrenamiento db now (JObj fields)) = BadRequest
   <-> exists k, In k ["limpieza_id"; "tipo_modelo"] /\ dict_get k fields = None)
  /\ (snd (create_resultado db now (JObj fields)) = BadRequest
      <-> exists k, In k ["entrenamiento_id"; "accuracy"; "f1_score"; "loss_final"]
                    /\ dict_get k fields = None).
Proof.
  split.
  - unfold create_entrenamiento. rewrite all_in_object.
    cbn [forallb]. unfold entrenamiento_record, py_getitem, py_get.
    destruct (dict_get "limpieza_id" fields) as [v1|] eqn:E1;
      [|split; [intros _; exists "limpieza_id"; simpl; auto | reflexivity]].
    destruct (dict_get "tipo_modelo" fields) as [v2|] eqn:E2;
      [|split; [intros _; exists "tipo_modelo"; simpl; auto | reflexivity]].
    cbn [andb bind].
    split.
    + repeat match goal with
             | |- context [dict_get ?k fields] =>
                 lazymatch k with
                 | "limpieza_id" => fail
                 | "tipo_modelo" => fail
                 | _ => destruct (dict_get k fields)
                 end
             end; cbn [bind];
        match goal with
        | |- context [db ?c] => destruct (db c) as [rows|]; simpl;
                                 [destruct (entrenamiento_body rows)|]
        end; simpl; discriminate.
    + intros (k & [<- | [<- | []]] & Hk); congruence.
  - unfold create_resultado. rewrite all_in_object.
    cbn [forallb]. unfold resultado_record, py_getitem, py_get.
    destruct (dict_get "entrenamiento_id" fields) as [v1|] eqn:E1;
      [|split; [intros _; exists "entrenamiento_id"; simpl; auto | reflexivity]].
    destruct (dict_get "accuracy" fields) as [v2|] eqn:E2;
      [|split; [intros _; exists "accuracy"; simpl; auto | reflexivity]].
    destruct (dict_get "f1_score" fields) as [v3|] eqn:E3;
      [|split; [intros _; exists "f1_score"; simpl; auto 6 | reflexivity]].
    destruct (dict_get "loss_final" fields) as [v4|] eqn:E4;
      [|split; [intros _; exists "loss_final"; simpl; auto 6 | reflexivity]].
    cbn [andb bind].
    split.
    + destruct (dict_get "grafico_accuracy_f1" fields),
        (dict_get "grafico_loss" fields), (dict_get "modelo_guardado" fields); cbn [bind];
        match goal with
        | |- context [db (Insert ?t ?rec)] =>
            destruct (db (Insert t rec)) as [rows|]; simpl;
            [destruct (db (finalizar now v1)); simpl;
             [destruct (resultado_body rows)|]|]
        end; simpl; discriminate.
    + intros (k & [<- | [<- | [<- | [<- | []]]]] & Hk); congruence.
Qed.

Lemma required_fields_are_checked_witness :
  snd (create_resultado (fun _ => Ok (JArr [])) "2024-01-02"
         (JObj [("entrenamiento_id", JNull); ("accuracy", JNum 1); ("f1_score", JNum 1)]))
  = BadRequest.
Proof.
  apply (required_fields_are_checked (fun _ => Ok (JArr [])) "2024-01-02"
           [("entrenamiento_id", JNull); ("accuracy", JNum 1); ("f1_score", JNum 1)]).
  exists "loss_final". split; [simpl; auto | reflexivity].
Defined.
